(** * GitFileSystemService: a shallow embedding and its verified properties

    The service of [GitFileSystemService.ts] drives two external systems, the
    file system ([fs.promises]) and a Git working tree ([simple-git]), through
    chains of [neverthrow] results.  The embedding keeps that shape:

    - every external call is a [Call]; the outside world is an oracle [Env]
      that answers a call from the history of the calls issued so far, so that
      every theorem holds for every behaviour of the disk and of Git;
    - a computation is a state transformer over [St], the trace of the calls
      issued plus the one mutable closure variable of the source
      ([oldStateSha]);
    - [ResultAsync] and its combinators ([andThen], [orElse], [map],
      [combine]) are written out, and each method of the class is translated
      combinator by combinator.

    Conventions of the model:

    - strings are byte strings, a JavaScript string being read as its UTF-8
      encoding; separators and the texts searched for are ASCII;
    - the chains handed to one [combine] run concurrently in the source; here
      their calls are issued one chain after the other, in list order;
    - tasks chained on one simple-git instance stop at the first failure;
    - the constants of [@constants/constants] are parameters ([Constants]);
    - logging has no effect on results and is left out;
    - [git clone] is needed by [clone] and [cloneBranch] alone: these two run
      over a history of events, the calls of the service and the clones;
    - [next], the callback of the route handlers, is seen through the list of
      the arguments it was called with;
    - a call that may throw ends in a [Completion]: the value returned, or
      what was thrown. *)

From Stdlib Require Import String Ascii List Bool Arith Lia.
From Stdlib Require Import DecimalString.
Import ListNotations.
Open Scope string_scope.

(* ===================================================================== *)
(** ** JavaScript string primitives used by the service *)
(* ===================================================================== *)

(** [s.includes(sub)] *)
Fixpoint includes (s sub : string) : bool :=
  if prefix sub s then true
  else match s with
       | EmptyString => false
       | String _ rest => includes rest sub
       end.

(** [s.split(sep)] for a one-character separator: never the empty array. *)
Fixpoint split (sep : ascii) (s : string) : list string :=
  match s with
  | EmptyString => [EmptyString]
  | String c rest =>
      if Ascii.eqb c sep then EmptyString :: split sep rest
      else match split sep rest with
           | [] => [String c EmptyString]
           | part :: parts => String c part :: parts
           end
  end.

(** [parts.pop()] on the array returned by [split] (never empty). *)
Definition pop (parts : list string) : string := List.last parts EmptyString.

(** Template-literal rendering of a non-negative integer. *)
Definition string_of_nat (n : nat) : string :=
  NilEmpty.string_of_uint (Nat.to_uint n).

Fixpoint rev_string (acc s : string) : string :=
  match s with
  | EmptyString => acc
  | String c rest => rev_string (String c acc) rest
  end.

Definition is_ascii_space (c : ascii) : bool :=
  let n := nat_of_ascii c in
  (((9 <=? n) && (n <=? 13)) || (n =? 32))%nat.

Definition byte (n : nat) : ascii := ascii_of_nat n.
Definition is_byte (n : nat) (c : ascii) : bool := (nat_of_ascii c =? n)%nat.

(** [trimStart] over the UTF-8 bytes of the string.  White space and line
    terminators of ECMAScript: TAB, LF, VT, FF, CR, SP, U+00A0, U+1680,
    U+2000..U+200A, U+2028, U+2029, U+202F, U+205F, U+3000 and U+FEFF. *)
Fixpoint trimStart (s : string) : string :=
  match s with
  | EmptyString => EmptyString
  | String c1 r1 =>
      if is_ascii_space c1 then trimStart r1
      else
        match r1 with
        | String c2 r2 =>
            if is_byte 194 c1 && is_byte 160 c2 then trimStart r2
            else
              match r2 with
              | String c3 r3 =>
                  let n2 := nat_of_ascii c2 in
                  let n3 := nat_of_ascii c3 in
                  if (is_byte 225 c1 && (n2 =? 154)%nat && (n3 =? 128)%nat)
                     || (is_byte 226 c1 && (n2 =? 128)%nat
                         && (((128 <=? n3)%nat && (n3 <=? 138)%nat)
                             || (n3 =? 168)%nat || (n3 =? 169)%nat || (n3 =? 175)%nat))
                     || (is_byte 226 c1 && (n2 =? 129)%nat && (n3 =? 159)%nat)
                     || (is_byte 227 c1 && (n2 =? 128)%nat && (n3 =? 128)%nat)
                     || (is_byte 239 c1 && (n2 =? 187)%nat && (n3 =? 191)%nat)
                  then trimStart r3
                  else s
              | EmptyString => s
              end
        | EmptyString => s
        end
  end.

(** [trimEnd] reads the same code points from the end: on the reversed bytes
    the last byte of a sequence comes first. *)
Fixpoint trimStartRev (s : string) : string :=
  match s with
  | EmptyString => EmptyString
  | String c1 r1 =>
      if is_ascii_space c1 then trimStartRev r1
      else
        match r1 with
        | String c2 r2 =>
            if is_byte 160 c1 && is_byte 194 c2 then trimStartRev r2
            else
              match r2 with
              | String c3 r3 =>
                  let n3 := nat_of_ascii c1 in
                  let n2 := nat_of_ascii c2 in
                  if (is_byte 225 c3 && (n2 =? 154)%nat && (n3 =? 128)%nat)
                     || (is_byte 226 c3 && (n2 =? 128)%nat
                         && (((128 <=? n3)%nat && (n3 <=? 138)%nat)
                             || (n3 =? 168)%nat || (n3 =? 169)%nat || (n3 =? 175)%nat))
                     || (is_byte 226 c3 && (n2 =? 129)%nat && (n3 =? 159)%nat)
                     || (is_byte 227 c3 && (n2 =? 128)%nat && (n3 =? 128)%nat)
                     || (is_byte 239 c3 && (n2 =? 187)%nat && (n3 =? 191)%nat)
                  then trimStartRev r3
                  else s
              | EmptyString => s
              end
        | EmptyString => s
        end
  end.

(** [s.trim()] *)
Definition trim (s : string) : string :=
  rev_string EmptyString
    (trimStartRev (rev_string EmptyString (trimStart s))).

Definition hex_digit (n : nat) : ascii :=
  if (n <? 10)%nat then ascii_of_nat (48 + n) else ascii_of_nat (87 + n).

(** The body of a JSON string literal, as [JSON.stringify] escapes it. *)
Fixpoint json_escape (s : string) : string :=
  match s with
  | EmptyString => EmptyString
  | String c rest =>
      let n := nat_of_ascii c in
      let tail := json_escape rest in
      if (n =? 34)%nat then "\" ++ String c tail
      else if (n =? 92)%nat then "\\" ++ tail
      else if (n =? 8)%nat then "\b" ++ tail
      else if (n =? 9)%nat then "\t" ++ tail
      else if (n =? 10)%nat then "\n" ++ tail
      else if (n =? 12)%nat then "\f" ++ tail
      else if (n =? 13)%nat then "\r" ++ tail
      else if (n <? 32)%nat then
        "\u00" ++ String (hex_digit (n / 16)) (String (hex_digit (n mod 16)) tail)
      else String c tail
  end.

Definition json_string (s : string) : string :=
  String (byte 34) (json_escape s ++ String (byte 34) EmptyString).

(** [JSON.stringify] of an object with string values, keys in insertion
    order. *)
Fixpoint json_members (fields : list (string * string)) : string :=
  match fields with
  | [] => EmptyString
  | [(k, v)] => json_string k ++ ":" ++ json_string v
  | (k, v) :: rest => json_string k ++ ":" ++ json_string v ++ "," ++ json_members rest
  end.

Definition JSON_stringify (fields : list (string * string)) : string :=
  "{" ++ json_members fields ++ "}".

(* ===================================================================== *)
(** ** Errors, results and thrown values *)
(* ===================================================================== *)

(** The error classes of [@errors], each carrying its message. *)
Inductive IsomerError : Type :=
| NotFoundError (message : string)
| ConflictError (message : string)
| BadRequestError (message : string)
| GitFileSystemError (message : string)
| GitFileSystemNeedsRollbackError (message : string)
| MediaTypeError (message : string).

Definition error_message (e : IsomerError) : string :=
  match e with
  | NotFoundError m | ConflictError m | BadRequestError m
  | GitFileSystemError m | GitFileSystemNeedsRollbackError m
  | MediaTypeError m => m
  end.

(** [error instanceof NotFoundError] *)
Definition isNotFoundError (e : IsomerError) : bool :=
  match e with NotFoundError _ => true | _ => false end.

(** [error instanceof GitFileSystemNeedsRollbackError] *)
Definition isNeedsRollbackError (e : IsomerError) : bool :=
  match e with GitFileSystemNeedsRollbackError _ => true | _ => false end.

(** neverthrow's [Result<T, E>] *)
Inductive Result (T E : Type) : Type :=
| ok (value : T)
| err (error : E).
Arguments ok {T E} value.
Arguments err {T E} error.

(** What a rejected promise carries: a [GitError] of simple-git (a subclass
    of [Error]), another [Error], or a value that is not an [Error]. *)
Inductive Thrown : Type :=
| ThrownGitError (message : string)
| ThrownError (message : string)
| ThrownOther.

Definition instanceofGitError (t : Thrown) : bool :=
  match t with ThrownGitError _ => true | _ => false end.

Inductive Outcome (T : Type) : Type :=
| Resolved (value : T)
| Rejected (reason : Thrown).
Arguments Resolved {T} value.
Arguments Rejected {T} reason.

(* ===================================================================== *)
(** ** The external calls and the oracle answering them *)
(* ===================================================================== *)

Inductive Encoding : Type := Utf8 | Base64.

(** [fs.Stats], as far as the service reads it *)
Record Stats : Type := mkStats {
  isDirectory : bool;
  isFile : bool;
  size : nat
}.

(** [fs.Dirent] of [readdir(..., {withFileTypes: true})] *)
Record Dirent : Type := mkDirent {
  dirent_name : string;
  dirent_isDirectory : bool
}.

(** [DefaultLogFields] of simple-git *)
Record DefaultLogFields : Type := mkLogFields {
  hash : string;
  date : string;
  message : string;
  author_name : string;
  author_email : string
}.

(** [LogResult]: [latest] is [None] when it is null or fails the type guard
    [isDefaultLogFields]. *)
Record LogResult : Type := mkLogResult {
  latest : option DefaultLogFields
}.

(** [CommitResult] of simple-git *)
Record CommitResult : Type := mkCommitResult {
  commit_hash : string
}.

(** One call to [fs.promises] or to simple-git; a Git call carries the
    working directory given to [cwd({path, root: false})]. *)
Inductive Call : Type :=
| FsStat (path : string)
| FsMkdir (path : string) (recursive : bool)
| FsWriteFile (path content : string) (encoding : Encoding)
| FsReadFile (path : string) (encoding : Encoding)
| FsRm (path : string) (recursiveForce : bool)
| FsRename (oldPath newPath : string)
| FsReaddir (path : string)
| GitCheckIsRepo (cwd : string)
| GitRemote (cwd : string) (args : list string)
| GitRevparse (cwd : string) (args : list string)
| GitCheckout (cwd branch : string)
| GitLog (cwd : string) (args : list string)
| GitReset (cwd : string) (args : list string)
| GitClean (cwd mode : string)
| GitPull (cwd : string)
| GitPush (cwd : string) (args : list string)
| GitAdd (cwd : string) (pathSpec : list string)
| GitCommit (cwd message : string)
| GitMv (cwd from to : string)
| GitCatFile (cwd : string) (args : list string).

(** The type a call resolves to. *)
Definition ret_ty (c : Call) : Type :=
  match c with
  | FsStat _ => Stats
  | FsReadFile _ _ => string
  | FsReaddir _ => list Dirent
  | GitCheckIsRepo _ => bool
  | GitRemote _ _ => option string
  | GitRevparse _ _ => string
  | GitLog _ _ => LogResult
  | GitCommit _ _ => CommitResult
  | GitCatFile _ _ => string
  | _ => unit
  end.

(** The outside world: the answer to a call, given the calls made so far. *)
Definition Env : Type := forall (history : list Call) (c : Call), Outcome (ret_ty c).
Existing Class Env.

(** Constants of [@constants/constants]. *)
Class Constants : Type := mkConstants {
  EFS_VOL_PATH_STAGING : string;
  EFS_VOL_PATH_STAGING_LITE : string;
  ISOMER_GITHUB_ORG_NAME : string;
  STAGING_BRANCH : string;
  STAGING_LITE_BRANCH : string;
  (** message of [new NotFoundError()] built without an argument *)
  NOT_FOUND_DEFAULT_MESSAGE : string
}.

(** How a call of a function ends: it returns a value, or it throws. *)
Inductive Completion (A : Type) : Type :=
| Returns (value : A)
| Throws (reason : Thrown).
Arguments Returns {A} value.
Arguments Throws {A} reason.

(** [ALLOWED_FILE_EXTENSIONS] as [GitFileSystemService.ts] imports it from
    [utils/file-upload-utils.js].  That module declares the list
    ([pdf], [png], [jpg], [gif], [tif], [bmp], [ico]) for its own use and
    exports [validateAndSanitizeFileUpload] and [scanFileForVirus] only: the
    imported binding is [undefined], written [None]. *)
Definition ALLOWED_FILE_EXTENSIONS : option (list string) := None.

(** [array.includes(x)], where [array] may be [undefined]: reading a property
    of [undefined] throws a [TypeError]. *)
Definition array_includes (array : option (list string)) (x : string)
  : Completion bool :=
  match array with
  | Some elements => Returns (existsb (String.eqb x) elements)
  | None =>
      Throws (ThrownError "Cannot read properties of undefined (reading 'includes')")
  end.

(** [CleanOptions] of simple-git *)
Definition CleanOptions_FORCE : string := "f".
Definition CleanOptions_RECURSIVE : string := "d".

(* ===================================================================== *)
(** ** Asynchronous computations and [ResultAsync] *)
(* ===================================================================== *)

(** The calls issued so far and the closure variable [oldStateSha] that the
    mutating operations assign in their first step and read in their last. *)
Record St : Type := mkSt {
  trace : list Call;
  oldStateSha : string
}.

Definition start : St := {| trace := []; oldStateSha := "" |}.

Definition Async (A : Type) : Type := St -> A * St.

Definition ResultAsync (T E : Type) : Type := Async (Result T E).

Definition assignOldStateSha (sha : string) : Async unit :=
  fun s => (tt, {| trace := trace s; oldStateSha := sha |}).

Definition seq {A B} (m : Async A) (k : Async B) : Async B :=
  fun s => k (snd (m s)).

Notation "m ';;' k" := (seq m k) (at level 61, right associativity).

(** Method-call chaining: [m |>> andThen f] reads [m.andThen(f)]. *)
Notation "m '|>>' f" := (f m) (at level 50, left associativity, only parsing).

Definition okAsync {T E} (v : T) : ResultAsync T E := fun s => (ok v, s).
Definition errAsync {T E} (e : E) : ResultAsync T E := fun s => (err e, s).

Definition andThen {T U E} (f : T -> ResultAsync U E) (m : ResultAsync T E)
  : ResultAsync U E :=
  fun s =>
    match m s with
    | (ok v, s1) => f v s1
    | (err e, s1) => (err e, s1)
    end.

Definition orElse {T E F} (f : E -> ResultAsync T F) (m : ResultAsync T E)
  : ResultAsync T F :=
  fun s =>
    match m s with
    | (ok v, s1) => (ok v, s1)
    | (err e, s1) => f e s1
    end.

Definition map {T U E} (f : T -> U) (m : ResultAsync T E) : ResultAsync U E :=
  fun s =>
    match m s with
    | (ok v, s1) => (ok (f v), s1)
    | (err e, s1) => (err e, s1)
    end.

(** TypeScript widens the error type of a chain to a union without a trace in
    the code; [widen] is that injection into [false | E]. *)
Definition widen {T E} (m : ResultAsync T E) : ResultAsync T (bool + E) :=
  fun s =>
    match m s with
    | (ok v, s1) => (ok v, s1)
    | (err e, s1) => (err (inr e), s1)
    end.

(** [combineResultList]: the first error in list order, or all the values. *)
Fixpoint combineResultList {T E} (rs : list (Result T E)) : Result (list T) E :=
  match rs with
  | [] => ok []
  | err e :: _ => err e
  | ok v :: rest =>
      match combineResultList rest with
      | ok vs => ok (v :: vs)
      | err e => err e
      end
  end.

(** All the chains of the list run to their end ([Promise.all] waits for every
    one of them, and none rejects); their calls are taken one chain after the
    other, in list order. *)
Fixpoint runAll {T E} (ms : list (ResultAsync T E)) : Async (list (Result T E)) :=
  fun s =>
    match ms with
    | [] => ([], s)
    | m :: rest =>
        let (r, s1) := m s in
        let (rs, s2) := runAll rest s1 in
        (r :: rs, s2)
    end.

Definition combine {T E} (ms : list (ResultAsync T E)) : ResultAsync (list T) E :=
  fun s => let (rs, s1) := runAll ms s in (combineResultList rs, s1).

(** [combine] of a pair of chains with different value types. *)
Definition combine2 {A B E} (ma : ResultAsync A E) (mb : ResultAsync B E)
  : ResultAsync (A * B) E :=
  fun s =>
    let (ra, s1) := ma s in
    let (rb, s2) := mb s1 in
    (match ra, rb with
     | err e, _ => err e
     | ok _, err e => err e
     | ok a, ok b => ok (a, b)
     end, s2).

(** [ResultAsync.fromPromise(promise, errorFn)] *)
Definition fromPromise {T E} (promise : Async (Outcome T)) (errorFn : Thrown -> E)
  : ResultAsync T E :=
  fun s =>
    match promise s with
    | (Resolved v, s1) => (ok v, s1)
    | (Rejected reason, s1) => (err (errorFn reason), s1)
    end.

(** Two tasks chained on one simple-git instance ([git.reset(..).clean(..)]):
    once a task has failed the tasks queued behind it are not attempted, and
    the chain rejects with that failure. *)
Definition thenTask {A B} (first : Async (Outcome A)) (next : Async (Outcome B))
  : Async (Outcome B) :=
  fun s =>
    match first s with
    | (Resolved _, s1) => next s1
    | (Rejected reason, s1) => (Rejected reason, s1)
    end.

(** An expression statement: evaluated, its value dropped. *)
Definition discard {A B} (_ : A) (continue : B) : B := continue.

(** [error instanceof Error] and [error.message] *)
Definition instanceofError (t : Thrown) : bool :=
  match t with ThrownOther => false | _ => true end.

Definition thrown_message (t : Thrown) : string :=
  match t with
  | ThrownGitError m | ThrownError m => m
  | ThrownOther => EmptyString
  end.

(** The double quote, which the messages of the service embed. *)
Definition dq : string := String (byte 34) EmptyString.

(* ===================================================================== *)
(** ** Values returned by the service *)
(* ===================================================================== *)

Module GitHubCommitData.
Record author_t : Type := mkAuthor {
  name : string;
  email : string;
  date : string
}.
Record t : Type := mk {
  author : author_t;
  message : string;
  sha : string
}.
End GitHubCommitData.

Module GitCommitResult.
Record t : Type := mk { newSha : string }.
End GitCommitResult.

Module GitFile.
Record t : Type := mk { content : string; sha : string }.
End GitFile.

Module MediaFileOutput.
Record t : Type := mk {
  name : string;
  sha : string;
  mediaUrl : string;
  mediaPath : string;
  type : string
}.
End MediaFileOutput.

Module GitDirectoryItem.
Record t : Type := mk {
  name : string;
  type : string;
  sha : string;
  path : string;
  size : nat
}.
End GitDirectoryItem.

(* ===================================================================== *)
(** ** The service *)
(* ===================================================================== *)

Section Service.

Context {K : Constants} {env : Env}.

(** Issue a call: the oracle answers from the history, the call is logged. *)
Definition perform (c : Call) : Async (Outcome (ret_ty c)) :=
  fun s =>
    (env (trace s) c,
     {| trace := (trace s ++ [c])%list; oldStateSha := oldStateSha s |}).

Definition getEfsVolPathFromBranch (branchName : string) : string :=
  if branchName =? STAGING_LITE_BRANCH
  then EFS_VOL_PATH_STAGING_LITE
  else EFS_VOL_PATH_STAGING.

Definition getEfsVolPath (isStaging : bool) : string :=
  if isStaging then EFS_VOL_PATH_STAGING else EFS_VOL_PATH_STAGING_LITE.

Definition isGitInitialized (repoName : string) (isStaging : bool)
  : ResultAsync bool IsomerError :=
  let repoPath :=
    if isStaging
    then EFS_VOL_PATH_STAGING ++ "/" ++ repoName
    else EFS_VOL_PATH_STAGING_LITE ++ "/" ++ repoName in
  fromPromise (perform (GitCheckIsRepo repoPath))
    (fun error =>
       if instanceofGitError error
       then GitFileSystemError "Unable to determine if directory is Git repo"
       else GitFileSystemError "An unknown error occurred").

Definition isOriginRemoteCorrect (repoName : string) (isStaging : bool)
  : ResultAsync bool IsomerError :=
  let originUrl :=
    "git@github.com:" ++ ISOMER_GITHUB_ORG_NAME ++ "/" ++ repoName ++ ".git" in
  let repoPath :=
    if isStaging
    then EFS_VOL_PATH_STAGING ++ "/" ++ repoName
    else EFS_VOL_PATH_STAGING_LITE ++ "/" ++ repoName in
  fromPromise (perform (GitRemote repoPath ["get-url"; "origin"]))
    (fun error =>
       if instanceofGitError error
       then GitFileSystemError "Unable to determine origin remote URL"
       else GitFileSystemError "An unknown error occurred")
  |>> map (fun remoteUrl =>
             match remoteUrl with
             | Some url => negb (url =? "") && (trim url =? originUrl)
             | None => false
             end).

Definition getFilePathStats (repoName filePath : string) (isStaging : bool)
  : ResultAsync Stats IsomerError :=
  let efsVolPath :=
    if isStaging then EFS_VOL_PATH_STAGING else EFS_VOL_PATH_STAGING_LITE in
  fromPromise (perform (FsStat (efsVolPath ++ "/" ++ repoName ++ "/" ++ filePath)))
    (fun error =>
       if instanceofError error && includes (thrown_message error) "ENOENT"
       then NotFoundError "File/Directory does not exist"
       else if instanceofError error
       then GitFileSystemError "Unable to read file/directory"
       else GitFileSystemError "An unknown error occurred").

(** The two inner checks are called without their [isStaging] argument, which
    then takes its default, [true]. *)
Definition isValidGitRepo (repoName branchName : string)
  : ResultAsync bool IsomerError :=
  widen (getFilePathStats repoName "" (negb (branchName =? STAGING_LITE_BRANCH)))
  |>> andThen (fun stats =>
        if negb (isDirectory stats)
        then errAsync (inl false)
        else okAsync true)
  |>> orElse (fun error =>
        match error with
        | inr (NotFoundError _) => errAsync (inl false)
        | _ => errAsync error
        end)
  |>> andThen (fun _ => widen (isGitInitialized repoName true))
  |>> andThen (fun isGitInitialized =>
        if negb isGitInitialized
        then errAsync (inl false)
        else okAsync true)
  |>> andThen (fun _ => widen (isOriginRemoteCorrect repoName true))
  |>> andThen (fun isOriginRemoteCorrect =>
        if negb isOriginRemoteCorrect
        then errAsync (inl false)
        else okAsync true)
  |>> orElse (fun error =>
        match error with
        | inl _ => okAsync false
        | inr e => errAsync e
        end).

Definition ensureCorrectBranch (repoName branchName : string)
  : ResultAsync bool IsomerError :=
  let efsVolPath := getEfsVolPathFromBranch branchName in
  fromPromise
    (perform (GitRevparse (efsVolPath ++ "/" ++ repoName) ["--abbrev-ref"; "HEAD"]))
    (fun error =>
       if instanceofGitError error
       then GitFileSystemError "Unable to determine current branch"
       else GitFileSystemError "An unknown error occurred")
  |>> andThen (fun currentBranch =>
        if negb (currentBranch =? branchName)
        then
          fromPromise
            (perform (GitCheckout (efsVolPath ++ "/" ++ repoName) branchName))
            (fun error =>
               if instanceofGitError error
               then GitFileSystemError "Unable to checkout branch"
               else GitFileSystemError "An unknown error occurred")
          |>> andThen (fun _ => okAsync true)
        else okAsync true).

Definition getGitBlobHash (repoName filePath : string) (isStaging : bool)
  : ResultAsync string IsomerError :=
  let efsVolPath :=
    if isStaging then EFS_VOL_PATH_STAGING else EFS_VOL_PATH_STAGING_LITE in
  fromPromise
    (perform (GitRevparse (efsVolPath ++ "/" ++ repoName) ["HEAD:" ++ filePath]))
    (fun error =>
       if instanceofGitError error
       then GitFileSystemError "Unable to determine Git blob hash"
       else GitFileSystemError "An unknown error occurred").

Definition getGitLog (repoName branchName : string)
  : ResultAsync LogResult IsomerError :=
  let efsVolPath := getEfsVolPathFromBranch branchName in
  fromPromise
    (perform (GitLog (efsVolPath ++ "/" ++ repoName) [branchName]))
    (fun error =>
       if instanceofGitError error
       then GitFileSystemError "Unable to retrieve branch log info from disk"
       else GitFileSystemError "An unknown error occurred").

Definition rollback (repoName commitSha branchName : string)
  : ResultAsync bool IsomerError :=
  let efsVolPath := getEfsVolPathFromBranch branchName in
  fromPromise
    (thenTask
       (perform (GitReset (efsVolPath ++ "/" ++ repoName) ["--hard"; commitSha]))
       (perform (GitClean (efsVolPath ++ "/" ++ repoName)
                   (CleanOptions_FORCE ++ CleanOptions_RECURSIVE))))
    (fun error =>
       if instanceofGitError error
       then GitFileSystemError "Unable to rollback to original state"
       else GitFileSystemError "An unknown error occurred")
  |>> andThen (fun _ => okAsync true).

Definition getLatestCommitOfBranch (repoName branchName : string)
  : ResultAsync GitHubCommitData.t IsomerError :=
  getGitLog repoName branchName
  |>> orElse (fun _ => getGitLog repoName ("origin/" ++ branchName))
  |>> andThen (fun logSummary =>
        match latest logSummary with
        | Some possibleCommit =>
            okAsync
              (GitHubCommitData.mk
                 (GitHubCommitData.mkAuthor
                    (author_name possibleCommit)
                    (author_email possibleCommit)
                    (date possibleCommit))
                 (message possibleCommit)
                 (hash possibleCommit))
        | None =>
            errAsync
              (GitFileSystemError "Unable to retrieve latest commit info from disk")
        end).

Definition notValidGitRepo (repoName : string) : IsomerError :=
  GitFileSystemError ("Folder " ++ dq ++ repoName ++ dq ++ " is not a valid Git repo").

Definition pull (repoName branchName : string) : ResultAsync string IsomerError :=
  let efsVolPath := getEfsVolPathFromBranch branchName in
  isValidGitRepo repoName branchName
  |>> andThen (fun isValid =>
        if negb isValid then errAsync (notValidGitRepo repoName)
        else
          ensureCorrectBranch repoName branchName
          |>> andThen (fun _ =>
                fromPromise
                  (perform (GitPull (efsVolPath ++ "/" ++ repoName)))
                  (fun error =>
                     if instanceofGitError error
                        && (includes (thrown_message error) "but no such ref was fetched."
                            || includes (thrown_message error) "error: cannot lock ref"
                            || includes (thrown_message error)
                                 "Cannot fast-forward your working tree"
                            || includes (thrown_message error)
                                 "Need to specify how to reconcile divergent branches")
                     then inl false
                     else if instanceofGitError error
                     then inr (GitFileSystemError "Unable to pull latest changes of repo")
                     else inr (GitFileSystemError "An unknown error occurred"))
                |>> map (fun _ => true)
                |>> orElse (fun error =>
                      match error with
                      | inl _ => okAsync true
                      | inr e => errAsync e
                      end)
                |>> map (fun _ => efsVolPath ++ "/" ++ repoName))).

Definition pushErrorFn (error : Thrown) : IsomerError :=
  if instanceofGitError error
  then GitFileSystemError "Unable to push latest changes of repo"
  else GitFileSystemError "An unknown error occurred".

Definition push (repoName branchName : string) (isForce : bool)
  : ResultAsync string IsomerError :=
  let efsVolPath := getEfsVolPathFromBranch branchName in
  isValidGitRepo repoName branchName
  |>> andThen (fun isValid =>
        if negb isValid then errAsync (notValidGitRepo repoName)
        else
          let gitOptions := split " " ("origin " ++ branchName) in
          ensureCorrectBranch repoName branchName
          |>> andThen (fun _ =>
                fromPromise
                  (if isForce
                   then perform (GitPush (efsVolPath ++ "/" ++ repoName)
                                   (gitOptions ++ ["--force"])%list)
                   else perform (GitPush (efsVolPath ++ "/" ++ repoName) gitOptions))
                  pushErrorFn)
          |>> orElse (fun _ =>
                (* Retry push once *)
                fromPromise
                  (if isForce
                   then perform (GitPush (efsVolPath ++ "/" ++ repoName) ["--force"])
                   else perform (GitPush (efsVolPath ++ "/" ++ repoName) []))
                  pushErrorFn)
          |>> map (fun _ => efsVolPath ++ "/" ++ repoName)).

Definition commitErrorFn (error : Thrown) : IsomerError :=
  if instanceofGitError error
  then GitFileSystemNeedsRollbackError "Unable to commit changes"
  else GitFileSystemNeedsRollbackError "An unknown error occurred".

Definition commit (repoName : string) (pathSpec : list string)
  (userId message branchName : string) (skipGitAdd : bool)
  : ResultAsync string IsomerError :=
  let efsVolPath := getEfsVolPathFromBranch branchName in
  isValidGitRepo repoName branchName
  |>> andThen (fun isValid =>
        if negb isValid then errAsync (notValidGitRepo repoName)
        else if (length pathSpec <? 1)%nat || (2 <? length pathSpec)%nat
        then
          errAsync
            (GitFileSystemError
               ("Invalid pathSpec length: " ++ string_of_nat (length pathSpec)
                ++ ". Expected 1 or 2"))
        else
          let commitMessageObj :=
            ([("message", message); ("userId", userId)]
             ++ (if (length pathSpec =? 1)%nat
                 then [("fileName", pop (split "/" (List.hd EmptyString pathSpec)))]
                 else []))%list in
          let commitMessage := JSON_stringify commitMessageObj in
          ensureCorrectBranch repoName branchName
          |>> andThen (fun _ =>
                if skipGitAdd
                then
                  (* This is necessary when we have performed a git mv *)
                  okAsync true
                else
                  (* the output of [git add] is dropped by the next step; the
                     two branches are given one type here *)
                  fromPromise
                    (perform (GitAdd (efsVolPath ++ "/" ++ repoName) pathSpec))
                    commitErrorFn
                  |>> map (fun _ => true))
          |>> andThen (fun _ =>
                fromPromise
                  (perform (GitCommit (efsVolPath ++ "/" ++ repoName) commitMessage))
                  commitErrorFn)
          |>> map (fun commitResult => commit_hash commitResult)).

(** The closure that ends each of the five mutating operations:
    [(error) => error instanceof GitFileSystemNeedsRollbackError
       ? this.rollback(repoName, oldStateSha, branchName)
           .andThen(() => errAsync(new GitFileSystemError(error.message)))
       : errAsync(error)]; [oldStateSha] is read when the closure runs. *)
Definition rollbackIfNeeded {T} (repoName branchName : string) (error : IsomerError)
  : ResultAsync T IsomerError :=
  if isNeedsRollbackError error
  then
    fun s =>
      (rollback repoName (oldStateSha s) branchName
       |>> andThen (fun _ => errAsync (GitFileSystemError (error_message error)))) s
  else errAsync error.

(** [create], up to its last [orElse]. *)
Definition create_chain (repoName userId content directoryName fileName : string)
  (encoding : Encoding) (branchName : string)
  : ResultAsync GitCommitResult.t IsomerError :=
  let efsVolPath := getEfsVolPathFromBranch branchName in
  let filePath :=
    if negb (directoryName =? "") then directoryName ++ "/" ++ fileName else fileName in
  let pathToEfsDir := efsVolPath ++ "/" ++ repoName ++ "/" ++ directoryName ++ "/" in
  let pathToEfsFile := efsVolPath ++ "/" ++ repoName ++ "/" ++ filePath in
  let encodedContent := content in
  assignOldStateSha "" ;;
  getLatestCommitOfBranch repoName branchName
  |>> andThen (fun latestCommit =>
        let sha := GitHubCommitData.sha latestCommit in
        if sha =? ""
        then errAsync (GitFileSystemError "An unknown error occurred")
        else assignOldStateSha sha ;; okAsync true)
  |>> andThen (fun _ =>
        getFilePathStats repoName directoryName
          (negb (branchName =? STAGING_LITE_BRANCH)))
  |>> andThen (fun stats =>
        if isDirectory stats then okAsync true
        else errAsync (NotFoundError NOT_FOUND_DEFAULT_MESSAGE))
  |>> orElse (fun error =>
        if isNotFoundError error
        then
          (* Create directory if it does not already exist *)
          fromPromise (perform (FsMkdir pathToEfsDir false))
            (fun _ => GitFileSystemError "An unknown error occurred")
          |>> map (fun _ => true)
        else errAsync error)
  |>> andThen (fun _ =>
        getFilePathStats repoName filePath
          (negb (branchName =? STAGING_LITE_BRANCH)))
  |>> andThen (fun stats =>
        if isFile stats
        then
          errAsync
            (ConflictError
               ("File " ++ filePath ++ " already exists in repo " ++ repoName))
        else okAsync true)
  |>> orElse (fun error =>
        if isNotFoundError error then okAsync true else errAsync error)
  |>> andThen (fun _ =>
        fromPromise (perform (FsWriteFile pathToEfsFile encodedContent encoding))
          (fun error =>
             if instanceofError error
             then GitFileSystemNeedsRollbackError (thrown_message error)
             else GitFileSystemNeedsRollbackError "An unknown error occurred"))
  |>> andThen (fun _ =>
        commit repoName [pathToEfsFile] userId ("Create file: " ++ filePath)
          branchName false)
  |>> map (fun commit => GitCommitResult.mk commit).

Definition create (repoName userId content directoryName fileName : string)
  (encoding : Encoding) (branchName : string)
  : ResultAsync GitCommitResult.t IsomerError :=
  create_chain repoName userId content directoryName fileName encoding branchName
  |>> orElse (rollbackIfNeeded repoName branchName).

Definition read (repoName filePath : string) (encoding : Encoding)
  : ResultAsync GitFile.t IsomerError :=
  let defaultEfsVolPath := EFS_VOL_PATH_STAGING in
  combine2
    (fromPromise
       (perform (FsReadFile (defaultEfsVolPath ++ "/" ++ repoName ++ "/" ++ filePath)
                   encoding))
       (fun error =>
          if instanceofError error && includes (thrown_message error) "ENOENT"
          then NotFoundError "File does not exist"
          else if instanceofError error
          then GitFileSystemError "Unable to read file"
          else GitFileSystemError "An unknown error occurred"))
    (getGitBlobHash repoName filePath true)
  |>> map (fun contentAndHash =>
             let '(content, sha) := contentAndHash in
             GitFile.mk content sha).

Definition getFileExtension (fileName : string) : Result string IsomerError :=
  let parts := split "." fileName in
  if (1 <? length parts)%nat
  then ok (List.nth (length parts - 1) parts EmptyString)
  else err (MediaTypeError "Unable to find file extension").

(** The [err(...)] of the first statement is built and dropped: no [return]
    precedes it.  The test of that statement is evaluated first, and throws
    when [ALLOWED_FILE_EXTENSIONS] is [undefined]. *)
Definition getMimeType (fileExtension : string)
  : Completion (Result string IsomerError) :=
  match array_includes ALLOWED_FILE_EXTENSIONS fileExtension with
  | Throws reason => Throws reason
  | Returns isAllowed =>
      Returns
        (discard
           (if negb isAllowed
            then Some (err (T := string)
                         (MediaTypeError "Unsupported file extension found"))
            else None)
           (if fileExtension =? "svg" then ok "image/svg+xml"
            else if fileExtension =? "ico" then ok "image/vnd.microsoft.icon"
            else if fileExtension =? "jpg" then ok "image/jpeg"
            else if fileExtension =? "tif" then ok "image/tiff"
            else ok ("image/" ++ fileExtension)))
  end.

(** [andThen] with a callback that may throw: the promise behind the chain
    is rejected then, and the chain never settles to a [Result]. *)
Definition andThenMayThrow {T U E} (f : T -> Completion (ResultAsync U E))
  (m : ResultAsync T E) : Async (Completion (Result U E)) :=
  fun s =>
    match m s with
    | (ok v, s1) =>
        match f v with
        | Returns next => let (r, s2) := next s1 in (Returns r, s2)
        | Throws reason => (Throws reason, s1)
        end
    | (err e, s1) => (Returns (err e), s1)
    end.

Definition readMediaFile (siteName directoryName fileName : string)
  : Async (Completion (Result MediaFileOutput.t IsomerError)) :=
  read siteName (directoryName ++ "/" ++ fileName) Base64
  |>> andThenMayThrow (fun file =>
        let fileType := "file" in
        match getFileExtension fileName with
        | err error => Returns (errAsync error)
        | ok fileExt =>
            match getMimeType fileExt with
            | Throws reason => Throws reason
            | Returns (err error) => Returns (errAsync error)
            | Returns (ok mimeType) =>
                let dataUrlPrefix := "data:" ++ mimeType ++ ";base64" in
                Returns
                  (okAsync
                     (MediaFileOutput.mk
                        fileName
                        (GitFile.sha file)
                        (dataUrlPrefix ++ "," ++ GitFile.content file)
                        (directoryName ++ "/" ++ fileName)
                        fileType))
            end
        end).

(** The callback of [directoryContents.map] in [listDirectoryContents]. *)
Definition readDirectoryItem (repoName directoryPath branchName : string)
  (directoryItem : Dirent) : ResultAsync GitDirectoryItem.t IsomerError :=
  let isDirectory := dirent_isDirectory directoryItem in
  let name := dirent_name directoryItem in
  let path := if directoryPath =? "" then name else directoryPath ++ "/" ++ name in
  let type := if isDirectory then "dir" else "file" in
  getGitBlobHash repoName path true
  |>> orElse (fun _ => okAsync "")
  |>> andThen (fun sha =>
        combine2 (okAsync sha)
          (getFilePathStats repoName path
             (negb (branchName =? STAGING_LITE_BRANCH))))
  |>> andThen (fun shaAndStats =>
        let '(sha, stats) := shaAndStats in
        okAsync
          (GitDirectoryItem.mk name type sha path
             (if type =? "dir" then 0 else size stats))).

Definition listDirectoryContents (repoName directoryPath branchName : string)
  : ResultAsync (list GitDirectoryItem.t) IsomerError :=
  let efsVolPath := getEfsVolPathFromBranch branchName in
  getFilePathStats repoName directoryPath (negb (branchName =? STAGING_LITE_BRANCH))
  |>> andThen (fun stats =>
        if negb (isDirectory stats)
        then
          errAsync
            (GitFileSystemError
               ("Path " ++ dq ++ directoryPath ++ dq
                ++ " is not a valid directory in repo " ++ dq ++ repoName ++ dq))
        else okAsync true)
  |>> andThen (fun _ =>
        fromPromise
          (perform (FsReaddir (efsVolPath ++ "/" ++ repoName ++ "/" ++ directoryPath)))
          (fun error =>
             if instanceofError error
             then GitFileSystemError "Unable to read directory"
             else GitFileSystemError "An unknown error occurred"))
  |>> andThen (fun directoryContents =>
        let resultAsyncs :=
          List.map (readDirectoryItem repoName directoryPath branchName)
            directoryContents in
        combine resultAsyncs)
  |>> andThen (fun directoryItems =>
        (* Note: The sha is empty if the file is not tracked by Git *)
        okAsync
          (List.filter (fun item => negb (GitDirectoryItem.sha item =? ""))
             directoryItems)).

(** [update], up to its last [orElse]. *)
Definition update_chain (repoName filePath fileContent oldSha userId branchName : string)
  : ResultAsync string IsomerError :=
  let efsVolPath := getEfsVolPathFromBranch branchName in
  assignOldStateSha "" ;;
  getLatestCommitOfBranch repoName branchName
  |>> andThen (fun latestCommit =>
        (* It is guaranteed that the latest commit contains the SHA hash *)
        assignOldStateSha (GitHubCommitData.sha latestCommit) ;; okAsync true)
  |>> andThen (fun _ =>
        getFilePathStats repoName filePath (negb (branchName =? STAGING_LITE_BRANCH)))
  |>> andThen (fun stats =>
        if negb (isFile stats)
        then
          errAsync
            (GitFileSystemError
               ("Path " ++ dq ++ filePath ++ dq
                ++ " is not a valid file in repo " ++ dq ++ repoName ++ dq))
        else okAsync true)
  |>> andThen (fun _ =>
        getGitBlobHash repoName filePath true
        |>> andThen (fun sha =>
              if negb (sha =? oldSha)
              then
                errAsync
                  (ConflictError "File has been changed recently, please try again")
              else okAsync sha))
  |>> andThen (fun _ =>
        fromPromise
          (perform (FsWriteFile (efsVolPath ++ "/" ++ repoName ++ "/" ++ filePath)
                      fileContent Utf8))
          (fun error =>
             if instanceofError error
             then GitFileSystemNeedsRollbackError "Unable to update file on disk"
             else GitFileSystemNeedsRollbackError "An unknown error occurred"))
  |>> andThen (fun _ =>
        let fileName := pop (split "/" filePath) in
        commit repoName [filePath] userId ("Update file: " ++ fileName)
          branchName false).

Definition update (repoName filePath fileContent oldSha userId branchName : string)
  : ResultAsync string IsomerError :=
  update_chain repoName filePath fileContent oldSha userId branchName
  |>> orElse (rollbackIfNeeded repoName branchName).

(** [delete], up to its last [orElse]. *)
Definition delete_chain (repoName path oldSha userId : string) (isDir : bool)
  (branchName : string) : ResultAsync string IsomerError :=
  let efsVolPath := getEfsVolPathFromBranch branchName in
  assignOldStateSha "" ;;
  getLatestCommitOfBranch repoName branchName
  |>> andThen (fun latestCommit =>
        if GitHubCommitData.sha latestCommit =? ""
        then
          errAsync
            (GitFileSystemError
               ("Unable to find latest commit of repo: " ++ repoName
                ++ " on branch " ++ dq ++ branchName ++ dq))
        else assignOldStateSha (GitHubCommitData.sha latestCommit) ;; okAsync true)
  |>> andThen (fun _ =>
        getFilePathStats repoName path (negb (branchName =? STAGING_LITE_BRANCH)))
  |>> andThen (fun stats =>
        if isDir && negb (isDirectory stats)
        then
          errAsync
            (GitFileSystemError
               ("Path " ++ dq ++ path ++ dq
                ++ " is not a valid directory in repo " ++ dq ++ repoName ++ dq))
        else if negb isDir && negb (isFile stats)
        then
          errAsync
            (GitFileSystemError
               ("Path " ++ dq ++ path ++ dq
                ++ " is not a valid file in repo " ++ dq ++ repoName ++ dq))
        else okAsync true)
  |>> andThen (fun _ =>
        if isDir
        then
          (* If it's a directory, skip the blob hash verification *)
          okAsync (T := bool + string) (inl true)
        else
          getGitBlobHash repoName path true
          |>> andThen (fun sha =>
                if negb (sha =? oldSha)
                then
                  errAsync
                    (ConflictError "File has been changed recently, please try again")
                else okAsync (inr sha)))
  |>> andThen (fun _ =>
        let deletePromise :=
          if isDir
          then perform (FsRm (efsVolPath ++ "/" ++ repoName ++ "/" ++ path) true)
          else perform (FsRm (efsVolPath ++ "/" ++ repoName ++ "/" ++ path) false) in
        fromPromise deletePromise
          (fun error =>
             if instanceofError error
             then
               GitFileSystemNeedsRollbackError
                 ("Unable to delete " ++ (if isDir then "directory" else "file")
                  ++ " on disk")
             else GitFileSystemNeedsRollbackError "An unknown error occurred"))
  |>> andThen (fun _ =>
        commit repoName [path] userId
          ("Delete "
           ++ (if isDir then "directory: " ++ path
               else "file: " ++ pop (split "/" path)))
          branchName false).

Definition delete (repoName path oldSha userId : string) (isDir : bool)
  (branchName : string) : ResultAsync string IsomerError :=
  delete_chain repoName path oldSha userId isDir branchName
  |>> orElse (rollbackIfNeeded repoName branchName).

(** The check shared by [renameSinglePath] and [moveFiles]: the path is
    expected to be absent. *)
Definition expectAbsent (repoName path branchName : string)
  : ResultAsync bool IsomerError :=
  getFilePathStats repoName path (negb (branchName =? STAGING_LITE_BRANCH))
  |>> andThen (fun _ =>
        errAsync (T := unit) (ConflictError "File path already exists"))
  |>> map (fun _ => true)
  |>> orElse (fun error =>
        if isNotFoundError error then okAsync true else errAsync error).

(** [message || fallback] *)
Definition orDefault (message : option string) (fallback : string) : string :=
  match message with
  | Some m => if m =? "" then fallback else m
  | None => fallback
  end.

(** [renameSinglePath], up to its last [orElse]. *)
Definition renameSinglePath_chain (repoName oldPath newPath userId branchName : string)
  (message : option string) : ResultAsync string IsomerError :=
  let efsVolPath := getEfsVolPathFromBranch branchName in
  assignOldStateSha "" ;;
  getLatestCommitOfBranch repoName branchName
  |>> andThen (fun latestCommit =>
        (* It is guaranteed that the latest commit contains the SHA hash *)
        assignOldStateSha (GitHubCommitData.sha latestCommit) ;; okAsync true)
  |>> andThen (fun _ =>
        getFilePathStats repoName oldPath (negb (branchName =? STAGING_LITE_BRANCH)))
  |>> andThen (fun _ =>
        (* We expect to see an error here, since the new path should not exist *)
        expectAbsent repoName newPath branchName)
  |>> andThen (fun _ =>
        fromPromise
          (perform (GitMv (efsVolPath ++ "/" ++ repoName) oldPath newPath))
          (fun error =>
             if instanceofGitError error
             then
               GitFileSystemNeedsRollbackError
                 ("Unable to rename " ++ oldPath ++ " to " ++ newPath)
             else GitFileSystemNeedsRollbackError "An unknown error occurred"))
  |>> andThen (fun _ =>
        commit repoName [oldPath; newPath] userId
          (orDefault message ("Renamed " ++ oldPath ++ " to " ++ newPath))
          branchName true).

Definition renameSinglePath (repoName oldPath newPath userId branchName : string)
  (message : option string) : ResultAsync string IsomerError :=
  renameSinglePath_chain repoName oldPath newPath userId branchName message
  |>> orElse (rollbackIfNeeded repoName branchName).

(** The callback of [targetFiles.map] in [moveFiles]. *)
Definition moveOneFile (repoName oldPath newPath branchName targetFile : string)
  : ResultAsync unit IsomerError :=
  let efsVolPath := getEfsVolPathFromBranch branchName in
  (* We expect to see an error here, since the new path should not exist *)
  expectAbsent repoName (newPath ++ "/" ++ targetFile) branchName
  |>> andThen (fun _ =>
        fromPromise
          (perform
             (FsRename
                (efsVolPath ++ "/" ++ repoName ++ "/" ++ oldPath ++ "/" ++ targetFile)
                (efsVolPath ++ "/" ++ repoName ++ "/" ++ newPath ++ "/" ++ targetFile)))
          (fun error =>
             if instanceofGitError error
             then
               GitFileSystemNeedsRollbackError
                 ("Unable to move " ++ targetFile ++ " to " ++ newPath)
             else GitFileSystemNeedsRollbackError "An unknown error occurred")).

(** [moveFiles], up to its last [orElse]. *)
Definition moveFiles_chain (repoName oldPath newPath userId : string)
  (targetFiles : list string) (branchName : string) (message : option string)
  : ResultAsync string IsomerError :=
  let efsVolPath := getEfsVolPathFromBranch branchName in
  assignOldStateSha "" ;;
  getLatestCommitOfBranch repoName branchName
  |>> andThen (fun latestCommit =>
        (* It is guaranteed that the latest commit contains the SHA hash *)
        assignOldStateSha (GitHubCommitData.sha latestCommit) ;; okAsync true)
  |>> andThen (fun _ =>
        getFilePathStats repoName oldPath (negb (branchName =? STAGING_LITE_BRANCH)))
  |>> andThen (fun stats =>
        if negb (isDirectory stats)
        then
          errAsync
            (GitFileSystemError
               ("Path " ++ dq ++ oldPath ++ dq
                ++ " is not a valid directory in repo " ++ dq ++ repoName ++ dq))
        else okAsync true)
  |>> andThen (fun _ =>
        (* Ensure that the new path exists *)
        fromPromise
          (perform (FsMkdir (efsVolPath ++ "/" ++ repoName ++ "/" ++ newPath) true))
          (fun error =>
             if instanceofError error
             then GitFileSystemNeedsRollbackError ("Unable to create " ++ newPath)
             else GitFileSystemNeedsRollbackError "An unknown error occurred"))
  |>> andThen (fun _ =>
        combine
          (List.map (moveOneFile repoName oldPath newPath branchName) targetFiles))
  |>> andThen (fun _ =>
        commit repoName [oldPath; newPath] userId
          (orDefault message
             ("Moved selected files from " ++ oldPath ++ " to " ++ newPath))
          branchName false).

Definition moveFiles (repoName oldPath newPath userId : string)
  (targetFiles : list string) (branchName : string) (message : option string)
  : ResultAsync string IsomerError :=
  moveFiles_chain repoName oldPath newPath userId targetFiles branchName message
  |>> orElse (rollbackIfNeeded repoName branchName).

Definition updateRepoState (repoName branchName sha : string)
  : ResultAsync unit IsomerError :=
  let efsVolPath := getEfsVolPathFromBranch branchName in
  isValidGitRepo repoName branchName
  |>> andThen (fun isValid =>
        if negb isValid then errAsync (notValidGitRepo repoName)
        else
          ensureCorrectBranch repoName branchName
          |>> andThen (fun _ =>
                fromPromise
                  (perform (GitCatFile (efsVolPath ++ "/" ++ repoName) ["-t"; sha]))
                  (fun error =>
                     (* An error is thrown if the SHA does not exist in the branch *)
                     if instanceofGitError error
                     then BadRequestError "The provided SHA is invalid"
                     else GitFileSystemError "An unknown error occurred"))
          |>> andThen (fun _ =>
                fromPromise
                  (perform (GitReset (efsVolPath ++ "/" ++ repoName) ["--hard"; sha]))
                  (fun error =>
                     if instanceofGitError error
                     then
                       GitFileSystemError
                         ("Unable to update repo state to commit SHA " ++ sha)
                     else GitFileSystemError "An unknown error occurred"))
          |>> andThen (fun _ => push repoName branchName true)
          |>> map (fun _ => tt)).

End Service.

(* ===================================================================== *)
(** ** The mutating operations as one family *)
(* ===================================================================== *)

(** A call to one of the five mutating methods, with its arguments. *)
Inductive Mutation : Type :=
| Create (repoName userId content directoryName fileName : string)
    (encoding : Encoding) (branchName : string)
| Update (repoName filePath fileContent oldSha userId branchName : string)
| Delete (repoName path oldSha userId : string) (isDir : bool) (branchName : string)
| RenameSinglePath (repoName oldPath newPath userId branchName : string)
    (message : option string)
| MoveFiles (repoName oldPath newPath userId : string) (targetFiles : list string)
    (branchName : string) (message : option string).

Definition repoNameOf (op : Mutation) : string :=
  match op with
  | Create repoName _ _ _ _ _ _ => repoName
  | Update repoName _ _ _ _ _ => repoName
  | Delete repoName _ _ _ _ _ => repoName
  | RenameSinglePath repoName _ _ _ _ _ => repoName
  | MoveFiles repoName _ _ _ _ _ _ => repoName
  end.

Definition branchNameOf (op : Mutation) : string :=
  match op with
  | Create _ _ _ _ _ _ branchName => branchName
  | Update _ _ _ _ _ branchName => branchName
  | Delete _ _ _ _ _ branchName => branchName
  | RenameSinglePath _ _ _ _ branchName _ => branchName
  | MoveFiles _ _ _ _ _ branchName _ => branchName
  end.

(** The value of a success is dropped: the operations differ in it. *)
Definition forget {T E} (m : ResultAsync T E) : ResultAsync unit E :=
  map (fun _ => tt) m.

Section Family.

Context {K : Constants} {env : Env}.

(** The operation up to its last [orElse]. *)
Definition chainOf (op : Mutation) : ResultAsync unit IsomerError :=
  match op with
  | Create repoName userId content directoryName fileName encoding branchName =>
      forget (create_chain repoName userId content directoryName fileName
                encoding branchName)
  | Update repoName filePath fileContent oldSha userId branchName =>
      forget (update_chain repoName filePath fileContent oldSha userId branchName)
  | Delete repoName path oldSha userId isDir branchName =>
      forget (delete_chain repoName path oldSha userId isDir branchName)
  | RenameSinglePath repoName oldPath newPath userId branchName message =>
      forget (renameSinglePath_chain repoName oldPath newPath userId branchName
                message)
  | MoveFiles repoName oldPath newPath userId targetFiles branchName message =>
      forget (moveFiles_chain repoName oldPath newPath userId targetFiles
                branchName message)
  end.

(** The whole operation. *)
Definition execute (op : Mutation) : ResultAsync unit IsomerError :=
  match op with
  | Create repoName userId content directoryName fileName encoding branchName =>
      forget (create repoName userId content directoryName fileName
                encoding branchName)
  | Update repoName filePath fileContent oldSha userId branchName =>
      forget (update repoName filePath fileContent oldSha userId branchName)
  | Delete repoName path oldSha userId isDir branchName =>
      forget (delete repoName path oldSha userId isDir branchName)
  | RenameSinglePath repoName oldPath newPath userId branchName message =>
      forget (renameSinglePath repoName oldPath newPath userId branchName message)
  | MoveFiles repoName oldPath newPath userId targetFiles branchName message =>
      forget (moveFiles repoName oldPath newPath userId targetFiles
                branchName message)
  end.


End Family.

(* ===================================================================== *)
(** ** Observing a computation *)
(* ===================================================================== *)

(** Run a computation from a history of calls, with the closure variable
    unset; the result and the history afterwards. *)
Definition run {A} (m : Async A) (h : list Call) : A * list Call :=
  let (a, s) := m {| trace := h; oldStateSha := "" |} in (a, trace s).

(** The computation neither reads nor writes [oldStateSha]. *)
Definition varfree {A} (m : Async A) : Prop :=
  forall s,
    m s = (fst (run m (trace s)),
           {| trace := snd (run m (trace s)); oldStateSha := oldStateSha s |}).

(** The computation only appends calls, and each of them satisfies [p]. *)
Definition issues {A} (p : Call -> bool) (m : Async A) : Prop :=
  forall s,
    exists new,
      trace (snd (m s)) = (trace s ++ new)%list /\ forallb p new = true.

(** Calls that change the working tree on disk. *)
Definition isDiskMutation (c : Call) : bool :=
  match c with
  | FsMkdir _ _ | FsWriteFile _ _ _ | FsRm _ _ | FsRename _ _ | GitMv _ _ _ => true
  | _ => false
  end.

(** The two commands of [rollback]. *)
Definition isRollbackCall (c : Call) : bool :=
  match c with
  | GitReset _ _ | GitClean _ _ => true
  | _ => false
  end.

Definition isFsWriteFile (c : Call) : bool :=
  match c with FsWriteFile _ _ _ => true | _ => false end.

Definition isGitAdd (c : Call) : bool :=
  match c with GitAdd _ _ => true | _ => false end.

Definition isGitCommit (c : Call) : bool :=
  match c with GitCommit _ _ => true | _ => false end.

Definition isGitPush (c : Call) : bool :=
  match c with GitPush _ _ => true | _ => false end.

Definition isGitReset (c : Call) : bool :=
  match c with GitReset _ _ => true | _ => false end.

(** [git rev-parse HEAD:<path>], the blob hash lookup. *)
Definition isBlobHashLookup (c : Call) : bool :=
  match c with
  | GitRevparse _ [arg] => prefix "HEAD:" arg
  | _ => false
  end.

(** Calls that only read the disk and the repository. *)
Definition isReadOnly (c : Call) : bool :=
  match c with
  | FsStat _ | FsReadFile _ _ | FsReaddir _ | GitCheckIsRepo _ | GitRemote _ _
  | GitRevparse _ _ | GitLog _ _ | GitCatFile _ _ => true
  | _ => false
  end.

(** The path under which [readDirectoryItem] looks an entry up. *)
Definition itemPath (directoryPath name : string) : string :=
  if directoryPath =? "" then name else directoryPath ++ "/" ++ name.

(** The four failures of [git pull] that the comments of [pull] list as safe
    to ignore. *)
Definition knownPullErrors : list string :=
  ["but no such ref was fetched.";
   "error: cannot lock ref";
   "Cannot fast-forward your working tree";
   "Need to specify how to reconcile divergent branches"].

Definition isKnownPullError (t : Thrown) : bool :=
  instanceofGitError t
  && existsb (fun text => includes (thrown_message t) text) knownPullErrors.

(** The message of a failed [rollback]. *)
Definition rollbackFailure (t : Thrown) : IsomerError :=
  if instanceofGitError t
  then GitFileSystemError "Unable to rollback to original state"
  else GitFileSystemError "An unknown error occurred".

Section Readiness.

Context {K : Constants} {env : Env}.

(** The failure was raised after a call that changes the disk, and
    [oldStateSha] then holds the SHA of the latest commit read first. *)
Definition rollbackReady (repoName branchName : string) (h : list Call) (s1 : St)
  : Prop :=
  (exists latestCommit h0,
      run (getLatestCommitOfBranch repoName branchName) h = (ok latestCommit, h0)
      /\ oldStateSha s1 = GitHubCommitData.sha latestCommit)
  /\ exists new,
      trace s1 = (h ++ new)%list /\ existsb isDiskMutation new = true.

End Readiness.

(* ===================================================================== *)
(** ** Further observations *)
(* ===================================================================== *)

Definition isGitCheckout (c : Call) : bool :=
  match c with GitCheckout _ _ => true | _ => false end.

(** Calls of the checks that open an operation: reads, and the checkout of
    [ensureCorrectBranch]. *)
Definition isCheck (c : Call) : bool := isReadOnly c || isGitCheckout c.

(** The calls [commit] may issue. *)
Definition isCommitCall (c : Call) : bool :=
  isCheck c || isGitAdd c || isGitCommit c.

Definition isStaged (c : Call) : bool := isGitAdd c || isGitCommit c.

Definition isFsRename (c : Call) : bool :=
  match c with FsRename _ _ => true | _ => false end.

Definition isGitMv (c : Call) : bool :=
  match c with GitMv _ _ _ => true | _ => false end.

(** The calls [renameSinglePath] may issue. *)
Definition isRenameCall (c : Call) : bool :=
  isCheck c || isGitMv c || isGitCommit c || isRollbackCall c.

(** The calls of the checks and moves of [moveFiles] that follow its [mkdir]. *)
Definition isMoveCall (c : Call) : bool := isReadOnly c || isFsRename c.

Section Moves.

Context {K : Constants} {env : Env}.

(** Among the calls [moves], made after the calls [past], the target was
    looked for at its new place; when it was found absent there, its rename
    is among the calls that follow that look. *)
Definition movedIfAbsent (repoName oldPath newPath branchName : string)
  (past moves : list Call) (targetFile : string) : Prop :=
  let efsVolPath := getEfsVolPathFromBranch branchName in
  let stat :=
    FsStat (efsVolPath ++ "/" ++ repoName ++ "/" ++ newPath ++ "/" ++ targetFile) in
  let rename :=
    FsRename
      (efsVolPath ++ "/" ++ repoName ++ "/" ++ oldPath ++ "/" ++ targetFile)
      (efsVolPath ++ "/" ++ repoName ++ "/" ++ newPath ++ "/" ++ targetFile) in
  exists before after,
    moves = (before ++ stat :: after)%list
    /\ forall reason,
        env (past ++ before)%list stat = Rejected reason ->
        instanceofError reason && includes (thrown_message reason) "ENOENT" = true ->
        In rename after.

End Moves.

(* ===================================================================== *)
(** ** The lock file of Git, and the guard of the route handlers *)
(* ===================================================================== *)

(** What [next] is called with by [handleGitFileLock] of [routeHandler.ts]:
    the error of the service, or a [LockedError]. *)
Inductive NextArg : Type :=
| ServiceError (error : IsomerError)
| LockedError (message : string).

Section Lock.

Context {K : Constants} {env : Env}.

Definition hasGitFileLock (repoName : string) (isStaging : bool)
  : ResultAsync bool IsomerError :=
  let gitFileLockPath := ".git/index.lock" in
  getFilePathStats repoName gitFileLockPath isStaging
  |>> andThen (fun _ => okAsync true)
  |>> orElse (fun error =>
        if isNotFoundError error then okAsync false else errAsync error).

(** The value returned, with the arguments [next] was called with. *)
Definition handleGitFileLock (repoName : string) : Async (bool * list NextArg) :=
  fun s =>
    let (result, s1) := hasGitFileLock repoName true s in
    match result with
    | err error => ((false, [ServiceError error]), s1)
    | ok isGitLocked =>
        if isGitLocked
        then
          ((false,
            [LockedError
               ("Someone else is currently modifying repo " ++ repoName
                ++ ". Please try again later.")]), s1)
        else ((true, []), s1)
    end.

End Lock.

(** [isRepoWhitelisted] of [RepoService.ts]; the list is the value of the
    configuration key [featureFlags.ggsWhitelistedRepos]. *)
Definition isRepoWhitelisted (WHITELISTED_GIT_SERVICE_REPOS repoName : string) : bool :=
  existsb (String.eqb repoName) (split "," WHITELISTED_GIT_SERVICE_REPOS).

(* ===================================================================== *)
(** ** Cloning *)
(* ===================================================================== *)

(** [git clone] is not among the calls above.  [cloneBranch] and [clone] are
    run over a history of events: the calls of the service, and the clones. *)
Inductive Event : Type :=
| Service (c : Call)
| GitClone (repoPath localPath : string) (options : list string).

Definition event_ty (e : Event) : Type :=
  match e with
  | Service c => ret_ty c
  | GitClone _ _ _ => unit
  end.

(** The outside world, answering an event from the events so far. *)
Definition World : Type :=
  forall (history : list Event) (e : Event), Outcome (event_ty e).
Existing Class World.

(** The chains of [ResultAsync], over a history of events. *)
Module Wide.

Definition Async (A : Type) : Type := list Event -> A * list Event.

Definition ResultAsync (T E : Type) : Type := Async (Result T E).

Definition okAsync {T E} (v : T) : ResultAsync T E := fun s => (ok v, s).
Definition errAsync {T E} (e : E) : ResultAsync T E := fun s => (err e, s).

Definition andThen {T U E} (f : T -> ResultAsync U E) (m : ResultAsync T E)
  : ResultAsync U E :=
  fun s =>
    match m s with
    | (ok v, s1) => f v s1
    | (err e, s1) => (err e, s1)
    end.

Definition orElse {T E F} (f : E -> ResultAsync T F) (m : ResultAsync T E)
  : ResultAsync T F :=
  fun s =>
    match m s with
    | (ok v, s1) => (ok v, s1)
    | (err e, s1) => f e s1
    end.

Definition map {T U E} (f : T -> U) (m : ResultAsync T E) : ResultAsync U E :=
  fun s =>
    match m s with
    | (ok v, s1) => (ok (f v), s1)
    | (err e, s1) => (err e, s1)
    end.

Definition combine2 {A B E} (ma : ResultAsync A E) (mb : ResultAsync B E)
  : ResultAsync (A * B) E :=
  fun s =>
    let (ra, s1) := ma s in
    let (rb, s2) := mb s1 in
    (match ra, rb with
     | err e, _ => err e
     | ok _, err e => err e
     | ok a, ok b => ok (a, b)
     end, s2).

Definition fromPromise {T E} (promise : Async (Outcome T)) (errorFn : Thrown -> E)
  : ResultAsync T E :=
  fun s =>
    match promise s with
    | (Resolved v, s1) => (ok v, s1)
    | (Rejected reason, s1) => (err (errorFn reason), s1)
    end.

Definition thenTask {A B} (first : Async (Outcome A)) (next : Async (Outcome B))
  : Async (Outcome B) :=
  fun s =>
    match first s with
    | (Resolved _, s1) => next s1
    | (Rejected reason, s1) => (Rejected reason, s1)
    end.

End Wide.

Section Cloning.

Context {K : Constants} {world : World}.

(** The oracle of the service inside the world, after the events [past]. *)
Definition restrict (past : list Event) : Env :=
  fun history c => world (past ++ List.map Service history)%list (Service c).

(** An operation of the service, run in the world. *)
Definition inWorld {A} (m : Env -> Async A) : Wide.Async A :=
  fun past =>
    let (a, s) := m (restrict past) start in
    (a, (past ++ List.map Service (trace s))%list).

Definition occur (e : Event) : Wide.Async (Outcome (event_ty e)) :=
  fun past => (world past e, (past ++ [e])%list).

(** [isGitInitialized] and [isOriginRemoteCorrect] are called without their
    [isStaging] argument, which then takes its default, [true]. *)
Definition cloneBranch (repoName : string) (isStaging : bool)
  : Wide.ResultAsync string IsomerError :=
  let originUrl :=
    "git@github.com:" ++ ISOMER_GITHUB_ORG_NAME ++ "/" ++ repoName ++ ".git" in
  let efsVolPath := getEfsVolPath isStaging in
  let branch := if isStaging then STAGING_BRANCH else STAGING_LITE_BRANCH in
  inWorld (fun env => getFilePathStats (env := env) repoName "" isStaging)
  |>> Wide.andThen (fun stats => Wide.okAsync (isDirectory stats))
  |>> Wide.orElse (fun error =>
        if isNotFoundError error then Wide.okAsync false else Wide.errAsync error)
  |>> Wide.andThen (fun isDirectory =>
        if negb isDirectory
        then
          let clonePromise :=
            if isStaging
            then
              Wide.thenTask
                (occur (GitClone originUrl (efsVolPath ++ "/" ++ repoName) []))
                (occur (Service (GitCheckout (efsVolPath ++ "/" ++ repoName) branch)))
            else
              occur (GitClone originUrl (efsVolPath ++ "/" ++ repoName)
                       ["--branch"; branch; "--single-branch"]) in
          Wide.fromPromise clonePromise
            (fun error =>
               if instanceofGitError error
               then
                 GitFileSystemError
                   (if isStaging
                    then "Unable to clone whole repo for " ++ repoName
                    else "Unable to clone staging lite branch for " ++ repoName)
               else GitFileSystemError "An unknown error occurred")
          |>> Wide.map (fun _ => efsVolPath ++ "/" ++ repoName)
        else
          inWorld (fun env => isGitInitialized (env := env) repoName true)
          |>> Wide.andThen (fun isGitInitialized =>
                if negb isGitInitialized
                then
                  Wide.errAsync
                    (GitFileSystemError
                       ("An existing folder " ++ dq ++ repoName ++ dq ++ " exists "
                        ++ (if isStaging then "in staging" else "in staging lite")
                        ++ " but is not a Git repo"))
                else Wide.okAsync true)
          |>> Wide.andThen (fun _ =>
                inWorld (fun env => isOriginRemoteCorrect (env := env) repoName true))
          |>> Wide.andThen (fun isOriginRemoteCorrect =>
                if negb isOriginRemoteCorrect
                then
                  Wide.errAsync
                    (GitFileSystemError
                       ("An existing folder " ++ dq ++ repoName ++ dq ++ " exists "
                        ++ (if isStaging then "in staging" else "in staging lite")
                        ++ " but is not the correct Git repo"))
                else Wide.okAsync (efsVolPath ++ "/" ++ repoName))).

(** Clone repository from upstream Git hosting provider *)
Definition clone (repoName : string) : Wide.ResultAsync string IsomerError :=
  Wide.combine2 (cloneBranch repoName true) (cloneBranch repoName false)
  |>> Wide.andThen (fun paths =>
        let '(stagingPath, _) := paths in
        (* staging lite path not needed, promises are resolved in order *)
        Wide.okAsync stagingPath).

End Cloning.

Definition isGitClone (e : Event) : bool :=
  match e with GitClone _ _ _ => true | _ => false end.
(* ===================================================================== *)
(** ** Sample deployments, used to run the service on concrete inputs *)
(* ===================================================================== *)

Definition sampleConstants : Constants :=
  {| EFS_VOL_PATH_STAGING := "/efs/repos";
     EFS_VOL_PATH_STAGING_LITE := "/efs/repos-lite";
     ISOMER_GITHUB_ORG_NAME := "isomerpages";
     STAGING_BRANCH := "staging";
     STAGING_LITE_BRANCH := "staging-lite";
     NOT_FOUND_DEFAULT_MESSAGE := "Not Found" |}.

Definition enoent : Thrown :=
  ThrownError "ENOENT: no such file or directory".

Definition sampleLog : LogResult :=
  {| latest := Some {| hash := "c0ffee";
                       date := "2023-10-01";
                       message := "Initial commit";
                       author_name := "isomer";
                       author_email := "isomer@open.gov.sg" |} |}.

(** The site [my-site] cloned on both volumes.  Two files are committed,
    [pages/a.md] (blob [b10b]) and [images/logo] (blob [10g0]);
    [pages/draft.md] is on disk and was never committed.  Every Git command
    succeeds. *)
Definition healthy : Env :=
  fun _ c =>
    match c return Outcome (ret_ty c) with
    | FsStat p =>
        if existsb (String.eqb p)
             ["/efs/repos/my-site/"; "/efs/repos-lite/my-site/";
              "/efs/repos/my-site/pages"; "/efs/repos-lite/my-site/pages";
              "/efs/repos/my-site/images"; "/efs/repos-lite/my-site/images"]
        then Resolved (mkStats true false 0)
        else if existsb (String.eqb p)
                  ["/efs/repos/my-site/pages/a.md";
                   "/efs/repos-lite/my-site/pages/a.md";
                   "/efs/repos/my-site/pages/draft.md";
                   "/efs/repos/my-site/images/logo"]
        then Resolved (mkStats false true 5)
        else Rejected enoent
    | FsMkdir _ _ => Resolved tt
    | FsWriteFile _ _ _ => Resolved tt
    | FsReadFile p _ =>
        if p =? "/efs/repos/my-site/pages/a.md" then Resolved "hello"
        else if p =? "/efs/repos/my-site/images/logo" then Resolved "iVBORw0KGgo="
        else Rejected enoent
    | FsRm _ _ => Resolved tt
    | FsRename _ _ => Resolved tt
    | FsReaddir p =>
        if p =? "/efs/repos/my-site/pages"
        then Resolved [mkDirent "a.md" false; mkDirent "draft.md" false]
        else Resolved []
    | GitCheckIsRepo _ => Resolved true
    | GitRemote _ _ => Resolved (Some "git@github.com:isomerpages/my-site.git")
    | GitRevparse _ args =>
        match args with
        | [arg] =>
            if arg =? "HEAD:pages/a.md" then Resolved "b10b"
            else if arg =? "HEAD:images/logo" then Resolved "10g0"
            else Rejected (ThrownGitError "fatal: path does not exist in HEAD")
        | _ => Resolved "staging"
        end
    | GitCheckout _ _ => Resolved tt
    | GitLog _ _ => Resolved sampleLog
    | GitReset _ _ => Resolved tt
    | GitClean _ _ => Resolved tt
    | GitPull _ => Resolved tt
    | GitPush _ _ => Resolved tt
    | GitAdd _ _ => Resolved tt
    | GitCommit _ _ => Resolved (mkCommitResult "5ha2")
    | GitMv _ _ _ => Resolved tt
    | GitCatFile _ _ => Resolved "commit"
    end.

(** The staging-lite working tree is a plain directory, not a repository
    (the clone of the lite branch was interrupted); staging is intact. *)
Definition liteNotARepo : Env :=
  fun h c =>
    match c return Outcome (ret_ty c) with
    | GitCheckIsRepo cwd =>
        if cwd =? "/efs/repos-lite/my-site" then Resolved false else Resolved true
    | GitRemote cwd args =>
        if cwd =? "/efs/repos-lite/my-site"
        then Rejected (ThrownGitError "fatal: not a git repository")
        else healthy h (GitRemote cwd args)
    | other => healthy h other
    end.

(** The working trees are clones of another site. *)
Definition wrongOrigin : Env :=
  fun h c =>
    match c return Outcome (ret_ty c) with
    | GitRemote _ _ => Resolved (Some "git@github.com:isomerpages/other-site.git")
    | other => healthy h other
    end.

(** [git pull] finds divergent branches. *)
Definition divergentPull : Env :=
  fun h c =>
    match c return Outcome (ret_ty c) with
    | GitPull _ =>
        Rejected
          (ThrownGitError
             "fatal: Need to specify how to reconcile divergent branches.")
    | other => healthy h other
    end.

(** [git pull] cannot reach the remote. *)
Definition offlinePull : Env :=
  fun h c =>
    match c return Outcome (ret_ty c) with
    | GitPull _ =>
        Rejected (ThrownGitError "fatal: Could not read from remote repository.")
    | other => healthy h other
    end.

(** The first push of a history is rejected, a later one goes through. *)
Definition flakyPush : Env :=
  fun h c =>
    match c return Outcome (ret_ty c) with
    | GitPush cwd args =>
        if existsb isGitPush h then Resolved tt
        else Rejected (ThrownGitError "error: failed to push some refs")
    | other => healthy h other
    end.

(** Every push is rejected. *)
Definition rejectedPush : Env :=
  fun h c =>
    match c return Outcome (ret_ty c) with
    | GitPush _ _ => Rejected (ThrownGitError "error: failed to push some refs")
    | other => healthy h other
    end.

(** Git knows no object of the SHA asked for. *)
Definition unknownSha : Env :=
  fun h c =>
    match c return Outcome (ret_ty c) with
    | GitCatFile _ _ => Rejected (ThrownGitError "fatal: Not a valid object name")
    | other => healthy h other
    end.

(** Git cannot tell the current branch. *)
Definition branchUnknown : Env :=
  fun h c =>
    match c return Outcome (ret_ty c) with
    | GitRevparse cwd args =>
        match args with
        | [_] => healthy h (GitRevparse cwd args)
        | _ => Rejected (ThrownGitError "fatal: ambiguous argument HEAD")
        end
    | other => healthy h other
    end.

(** [git commit] fails; the rollback goes through. *)
Definition commitFails : Env :=
  fun h c =>
    match c return Outcome (ret_ty c) with
    | GitCommit _ _ => Rejected (ThrownGitError "error: unable to write new index")
    | other => healthy h other
    end.

(** [git commit] fails, and so does the [git reset] of the rollback. *)
Definition commitAndResetFail : Env :=
  fun h c =>
    match c return Outcome (ret_ty c) with
    | GitCommit _ _ => Rejected (ThrownGitError "error: unable to write new index")
    | GitReset _ _ => Rejected (ThrownGitError "fatal: unable to write new index file")
    | other => healthy h other
    end.

(** The calls of [isValidGitRepo] on the staging branch of [my-site], and
    those of the branch check that follows. *)
Definition validated : list Call :=
  [FsStat "/efs/repos/my-site/";
   GitCheckIsRepo "/efs/repos/my-site";
   GitRemote "/efs/repos/my-site" ["get-url"; "origin"]].

Definition onStaging : list Call :=
  (validated ++ [GitRevparse "/efs/repos/my-site" ["--abbrev-ref"; "HEAD"]])%list.

(** A new page, an existing page and a page in a directory still to be made. *)
Definition createNewPage : Mutation :=
  Create "my-site" "u1" "hello" "pages" "b.md" Utf8 "staging".

Definition createExistingPage : Mutation :=
  Create "my-site" "u1" "hello" "pages" "a.md" Utf8 "staging".

(** The local branch has no log of its own; the log of the branch of the
    remote is there. *)
Definition localBranchUnknown : Env :=
  fun h c =>
    match c return Outcome (ret_ty c) with
    | GitLog cwd args =>
        match args with
        | [ref] =>
            if prefix "origin/" ref then Resolved sampleLog
            else Rejected (ThrownGitError "fatal: ambiguous argument")
        | _ => Rejected (ThrownGitError "fatal: ambiguous argument")
        end
    | other => healthy h other
    end.

(** Git has no log to show, for the branch or for the branch of the remote. *)
Definition noLog : Env :=
  fun h c =>
    match c return Outcome (ret_ty c) with
    | GitLog _ _ => Rejected (ThrownGitError "fatal: bad default revision")
    | other => healthy h other
    end.

(** The latest entry of the log carries an empty hash. *)
Definition blankHash : Env :=
  fun h c =>
    match c return Outcome (ret_ty c) with
    | GitLog _ _ =>
        Resolved {| latest := Some {| hash := "";
                                      date := "2023-10-01";
                                      message := "Initial commit";
                                      author_name := "isomer";
                                      author_email := "isomer@open.gov.sg" |} |}
    | other => healthy h other
    end.

(** Git is in the middle of an operation on the staging working tree. *)
Definition stagingLocked : Env :=
  fun h c =>
    match c return Outcome (ret_ty c) with
    | FsStat p =>
        if p =? "/efs/repos/my-site/.git/index.lock"
        then Resolved (mkStats false true 0)
        else healthy h (FsStat p)
    | other => healthy h other
    end.

(** The calls of the service among the events. *)
Definition callsOf (past : list Event) : list Call :=
  flat_map (fun e => match e with Service c => [c] | GitClone _ _ _ => [] end) past.

(** The disk and the repositories of an oracle of the service; every clone
    goes through. *)
Definition worldOf (env : Env) : World :=
  fun past e =>
    match e return Outcome (event_ty e) with
    | Service c => env (callsOf past) c
    | GitClone _ _ _ => Resolved tt
    end.

Definition settled : World := worldOf healthy.

(** The same as [settled], out of reach of the remote: no clone goes
    through. *)
Definition offline : World :=
  fun past e =>
    match e return Outcome (event_ty e) with
    | Service c => healthy (callsOf past) c
    | GitClone _ _ _ =>
        Rejected (ThrownGitError "fatal: unable to access the remote repository")
    end.

(** The picture [images/logo.png] is on disk in the staging working tree and
    committed there (blob [10g0]). *)
Definition withPicture : Env :=
  fun h c =>
    match c return Outcome (ret_ty c) with
    | FsReadFile p enc =>
        if p =? "/efs/repos/my-site/images/logo.png" then Resolved "iVBORw0KGgo="
        else healthy h (FsReadFile p enc)
    | GitRevparse cwd args =>
        match args with
        | [arg] =>
            if arg =? "HEAD:images/logo.png" then Resolved "10g0"
            else healthy h (GitRevparse cwd args)
        | _ => healthy h (GitRevparse cwd args)
        end
    | other => healthy h other
    end.

(** The two working trees have diverged: [pages/a.md] was changed and
    committed on staging-lite, where its blob is now [n3w]; on staging it is
    still [b10b]. *)
Definition liteDiverged : Env :=
  fun h c =>
    match c return Outcome (ret_ty c) with
    | GitRevparse cwd args =>
        match args with
        | [arg] =>
            if (cwd =? "/efs/repos-lite/my-site") && (arg =? "HEAD:pages/a.md")
            then Resolved "n3w"
            else healthy h (GitRevparse cwd args)
        | _ => healthy h (GitRevparse cwd args)
        end
    | other => healthy h other
    end.

(** [pages/draft.md] was committed on staging (blob [d4af]).  In the
    staging-lite working tree a file of that name was put on disk and never
    committed: [HEAD] of staging-lite has no such path. *)
Definition liteDraft : Env :=
  fun h c =>
    match c return Outcome (ret_ty c) with
    | FsStat p =>
        if p =? "/efs/repos-lite/my-site/pages/draft.md"
        then Resolved (mkStats false true 7)
        else healthy h (FsStat p)
    | FsReaddir p =>
        if p =? "/efs/repos-lite/my-site/pages"
        then Resolved [mkDirent "a.md" false; mkDirent "draft.md" false]
        else healthy h (FsReaddir p)
    | GitRevparse cwd args =>
        match args with
        | [arg] =>
            if arg =? "HEAD:pages/draft.md"
            then
              if cwd =? "/efs/repos/my-site" then Resolved "d4af"
              else Rejected (ThrownGitError "fatal: path does not exist in HEAD")
            else healthy h (GitRevparse cwd args)
        | _ => healthy h (GitRevparse cwd args)
        end
    | other => healthy h other
    end.

(** The object store of the repository holds the commit [c0ffee], the head
    of staging, and the commit [fea7], made on another branch and no
    ancestor of staging; Git knows no other commit. *)
Definition featureCommit : Env :=
  fun h c =>
    match c return Outcome (ret_ty c) with
    | GitCatFile cwd args =>
        if existsb (fun sha => existsb (String.eqb sha) args) ["c0ffee"; "fea7"]
        then Resolved "commit"
        else Rejected (ThrownGitError "fatal: Not a valid object name")
    | other => healthy h other
    end.

(* ===================================================================== *)
(** ** Reasoning about chains *)
(* ===================================================================== *)

Section Properties.

Context {K : Constants} {env : Env}.

(** *** Operations that leave [oldStateSha] alone *)

Lemma varfree_at {A} (m : Async A) (v : string) (h : list Call) :
  varfree m ->
  m {| trace := h; oldStateSha := v |}
  = (fst (run m h), {| trace := snd (run m h); oldStateSha := v |}).
Proof. intros Hm. apply (Hm {| trace := h; oldStateSha := v |}). Qed.

Lemma varfree_intro {A} (m : Async A) :
  (forall h v, exists a h', m {| trace := h; oldStateSha := v |}
                            = (a, {| trace := h'; oldStateSha := v |})
                            /\ m {| trace := h; oldStateSha := "" |}
                               = (a, {| trace := h'; oldStateSha := "" |})) ->
  varfree m.
Proof.
  intros H [h v]. destruct (H h v) as (a & h' & E1 & E2).
  unfold run. cbn [trace oldStateSha]. rewrite E1, E2. reflexivity.
Qed.

Lemma varfree_elim {A} (m : Async A) :
  varfree m ->
  forall h v, exists a h', m {| trace := h; oldStateSha := v |}
                            = (a, {| trace := h'; oldStateSha := v |})
                            /\ m {| trace := h; oldStateSha := "" |}
                               = (a, {| trace := h'; oldStateSha := "" |}).
Proof.
  intros Hm h v. exists (fst (run m h)), (snd (run m h)). split.
  - apply varfree_at, Hm.
  - apply varfree_at, Hm.
Qed.

Ltac vf_combinator :=
  apply varfree_intro; intros ?h ?v;
  repeat match goal with
         | H : varfree ?m |- context [?m {| trace := ?h; oldStateSha := ?v |}] =>
             let a := fresh "a" in
             let h' := fresh "h" in
             let E1 := fresh "E" in
             let E2 := fresh "E" in
             destruct (varfree_elim m H h v) as (a & h' & E1 & E2);
             rewrite ?E1, ?E2; clear E1 E2
         | H : forall x, varfree (?f x)
           |- context [?f ?x {| trace := ?h; oldStateSha := ?v |}] =>
             let a := fresh "a" in
             let h' := fresh "h" in
             let E1 := fresh "E" in
             let E2 := fresh "E" in
             destruct (varfree_elim (f x) (H x) h v) as (a & h' & E1 & E2);
             rewrite ?E1, ?E2; clear E1 E2
         | |- context [match ?r with ok _ => _ | err _ => _ end] => destruct r
         | |- context [match ?r with Resolved _ => _ | Rejected _ => _ end] => destruct r
         end;
  eauto.

Lemma varfree_okAsync {T E} (v : T) : varfree (okAsync (E := E) v).
Proof. intros s. destruct s; reflexivity. Qed.

Lemma varfree_errAsync {T E} (e : E) : varfree (errAsync (T := T) e).
Proof. intros s. destruct s; reflexivity. Qed.

Lemma varfree_perform (c : Call) : varfree (perform c).
Proof. intros s. destruct s; reflexivity. Qed.

Lemma varfree_fromPromise {T E} (p : Async (Outcome T)) (f : Thrown -> E) :
  varfree p -> varfree (fromPromise p f).
Proof. intros Hp. unfold fromPromise. vf_combinator. Qed.

Lemma varfree_thenTask {A B} (p : Async (Outcome A)) (q : Async (Outcome B)) :
  varfree p -> varfree q -> varfree (thenTask p q).
Proof. intros Hp Hq. unfold thenTask. vf_combinator. Qed.

Lemma varfree_andThen {T U E} (f : T -> ResultAsync U E) (m : ResultAsync T E) :
  varfree m -> (forall v, varfree (f v)) -> varfree (andThen f m).
Proof. intros Hm Hf. unfold andThen. vf_combinator. Qed.

Lemma varfree_orElse {T E F} (f : E -> ResultAsync T F) (m : ResultAsync T E) :
  varfree m -> (forall e, varfree (f e)) -> varfree (orElse f m).
Proof. intros Hm Hf. unfold orElse. vf_combinator. Qed.

Lemma varfree_map {T U E} (f : T -> U) (m : ResultAsync T E) :
  varfree m -> varfree (map f m).
Proof. intros Hm. unfold map. vf_combinator. Qed.

Lemma varfree_widen {T E} (m : ResultAsync T E) : varfree m -> varfree (widen m).
Proof. intros Hm. unfold widen. vf_combinator. Qed.

Lemma varfree_combine2 {A B E} (ma : ResultAsync A E) (mb : ResultAsync B E) :
  varfree ma -> varfree mb -> varfree (combine2 ma mb).
Proof. intros Ha Hb. unfold combine2. vf_combinator. Qed.

Lemma varfree_runAll {T E} (ms : list (ResultAsync T E)) :
  Forall varfree ms -> varfree (runAll ms).
Proof.
  induction 1 as [|m ms Hm _ IH]; cbn [runAll].
  - intros s. destruct s; reflexivity.
  - vf_combinator.
Qed.

Lemma varfree_combine {T E} (ms : list (ResultAsync T E)) :
  Forall varfree ms -> varfree (combine ms).
Proof.
  intros H. pose proof (varfree_runAll ms H) as Hr.
  unfold combine. vf_combinator.
Qed.


(** *** The calls an operation may issue *)

Lemma issues_ret {A} (p : Call -> bool) (a : A) : issues p (fun s => (a, s)).
Proof. intros s. exists []. cbn. rewrite app_nil_r. auto. Qed.

Lemma issues_bind {A B} (p : Call -> bool) (m : Async A) (k : A -> Async B) :
  issues p m -> (forall a, issues p (k a)) ->
  issues p (fun s => let (a, s1) := m s in k a s1).
Proof.
  intros Hm Hk s. destruct (Hm s) as (n1 & E1 & F1).
  destruct (m s) as [a s1]. cbn [snd] in E1.
  destruct (Hk a s1) as (n2 & E2 & F2).
  exists (n1 ++ n2)%list. rewrite E2, E1, app_assoc, forallb_app, F1, F2. auto.
Qed.

Lemma issues_ext {A} (p : Call -> bool) (m m' : Async A) :
  (forall s, m s = m' s) -> issues p m' -> issues p m.
Proof. intros E H s. rewrite E. apply H. Qed.

Lemma issues_weaken {A} (p q : Call -> bool) (m : Async A) :
  (forall c, p c = true -> q c = true) -> issues p m -> issues q m.
Proof.
  intros Hpq Hm s. destruct (Hm s) as (new & E & F). exists new. split; auto.
  rewrite forallb_forall in *. auto.
Qed.

Lemma issues_okAsync {T E} p (v : T) : issues p (okAsync (E := E) v).
Proof. apply issues_ret. Qed.

Lemma issues_errAsync {T E} p (e : E) : issues p (errAsync (T := T) e).
Proof. apply issues_ret. Qed.

Lemma issues_assign p (sha : string) : issues p (assignOldStateSha sha).
Proof. intros s. exists []. cbn. rewrite app_nil_r. auto. Qed.

Lemma issues_perform p (c : Call) : p c = true -> issues p (perform c).
Proof. intros H s. exists [c]. cbn. rewrite H. auto. Qed.

Lemma issues_seq {A B} p (m : Async A) (k : Async B) :
  issues p m -> issues p k -> issues p (m ;; k).
Proof.
  intros Hm Hk. apply issues_ext with (m' := fun s => let (a, s1) := m s in k s1).
  - intros s. unfold seq. destruct (m s); reflexivity.
  - apply issues_bind; auto.
Qed.

Lemma issues_fromPromise {T E} p (q : Async (Outcome T)) (f : Thrown -> E) :
  issues p q -> issues p (fromPromise q f).
Proof.
  intros Hq.
  apply issues_ext with
    (m' := fun s => let (a, s1) := q s in
                    (fun s2 => (match a with
                                | Resolved v => ok v
                                | Rejected t => err (f t)
                                end, s2)) s1).
  - intros s. unfold fromPromise. destruct (q s) as [[v|t] s1]; reflexivity.
  - apply issues_bind; auto. intros a. apply issues_ret.
Qed.

Lemma issues_thenTask {A B} p (q : Async (Outcome A)) (r : Async (Outcome B)) :
  issues p q -> issues p r -> issues p (thenTask q r).
Proof.
  intros Hq Hr.
  apply issues_ext with
    (m' := fun s => let (a, s1) := q s in
                    (match a with
                     | Resolved _ => r
                     | Rejected t => fun s2 => (Rejected t, s2)
                     end) s1).
  - intros s. unfold thenTask. destruct (q s) as [[v|t] s1]; reflexivity.
  - apply issues_bind; auto. intros [v|t]; auto. apply issues_ret.
Qed.

Lemma issues_andThen {T U E} p (f : T -> ResultAsync U E) (m : ResultAsync T E) :
  issues p m -> (forall v, issues p (f v)) -> issues p (andThen f m).
Proof.
  intros Hm Hf.
  apply issues_ext with
    (m' := fun s => let (a, s1) := m s in
                    (match a return ResultAsync U E with ok v => f v | err e => errAsync e end) s1).
  - intros s. unfold andThen. destruct (m s) as [[v|e] s1]; reflexivity.
  - apply issues_bind; auto. intros [v|e]; auto. apply issues_ret.
Qed.

Lemma issues_orElse {T E F} p (f : E -> ResultAsync T F) (m : ResultAsync T E) :
  issues p m -> (forall e, issues p (f e)) -> issues p (orElse f m).
Proof.
  intros Hm Hf.
  apply issues_ext with
    (m' := fun s => let (a, s1) := m s in
                    (match a return ResultAsync T F with ok v => okAsync v | err e => f e end) s1).
  - intros s. unfold orElse. destruct (m s) as [[v|e] s1]; reflexivity.
  - apply issues_bind; auto. intros [v|e]; auto. apply issues_ret.
Qed.

Lemma issues_map {T U E} p (f : T -> U) (m : ResultAsync T E) :
  issues p m -> issues p (map f m).
Proof.
  intros Hm.
  apply issues_ext with
    (m' := fun s => let (a, s1) := m s in
                    (fun s2 => (match a with ok v => ok (f v) | err e => err e end, s2)) s1).
  - intros s. unfold map. destruct (m s) as [[v|e] s1]; reflexivity.
  - apply issues_bind; auto. intros a. apply issues_ret.
Qed.

Lemma issues_widen {T E} p (m : ResultAsync T E) : issues p m -> issues p (widen m).
Proof.
  intros Hm.
  apply issues_ext with
    (m' := fun s => let (a, s1) := m s in
                    (fun s2 => (match a return Result T (bool + E) with ok v => ok v | err e => err (inr e) end, s2)) s1).
  - intros s. unfold widen. destruct (m s) as [[v|e] s1]; reflexivity.
  - apply issues_bind; auto. intros a. apply issues_ret.
Qed.

Lemma issues_combine2 {A B E} p (ma : ResultAsync A E) (mb : ResultAsync B E) :
  issues p ma -> issues p mb -> issues p (combine2 ma mb).
Proof.
  intros Ha Hb.
  apply issues_ext with
    (m' := fun s => let (ra, s1) := ma s in
                    (fun s1 => let (rb, s2) := mb s1 in
                       (fun s3 => (match ra, rb with
                                   | err e, _ => err e
                                   | ok _, err e => err e
                                   | ok a, ok b => ok (a, b)
                                   end, s3)) s2) s1).
  - intros s. unfold combine2. destruct (ma s) as [ra s1]. destruct (mb s1); reflexivity.
  - apply issues_bind; auto. intros ra. apply issues_bind; auto. intros rb.
    apply issues_ret.
Qed.

Lemma issues_runAll {T E} p (ms : list (ResultAsync T E)) :
  Forall (issues p) ms -> issues p (runAll ms).
Proof.
  induction 1 as [|m ms Hm _ IH].
  - apply issues_ret.
  - apply issues_ext with
      (m' := fun s => let (r, s1) := m s in
                      (fun s1 => let (rs, s2) := runAll ms s1 in
                                 (fun s3 => (r :: rs, s3)) s2) s1).
    + intros s. cbn [runAll]. destruct (m s) as [r s1]. destruct (runAll ms s1); reflexivity.
    + apply issues_bind; auto. intros r. apply issues_bind; auto. intros rs.
      apply issues_ret.
Qed.

Lemma issues_combine {T E} p (ms : list (ResultAsync T E)) :
  Forall (issues p) ms -> issues p (combine ms).
Proof.
  intros H.
  apply issues_ext with
    (m' := fun s => let (rs, s1) := runAll ms s in
                    (fun s2 => (combineResultList rs, s2)) s1).
  - intros s. unfold combine. destruct (runAll ms s); reflexivity.
  - apply issues_bind. + apply issues_runAll, H. + intros rs. apply issues_ret.
Qed.

Lemma issues_readVar {A} p (f : string -> Async A) :
  (forall v, issues p (f v)) -> issues p (fun s => f (oldStateSha s) s).
Proof. intros H s. apply (H (oldStateSha s) s). Qed.

Lemma issues_run {A} p (m : Async A) (h : list Call) :
  issues p m ->
  exists new, snd (run m h) = (h ++ new)%list /\ forallb p new = true.
Proof.
  intros H. destruct (H {| trace := h; oldStateSha := "" |}) as (new & E & F).
  exists new. split; auto. unfold run.
  destruct (m {| trace := h; oldStateSha := "" |}). exact E.
Qed.


Lemma Forall_map_all {A B} (P : B -> Prop) (f : A -> B) (l : list A) :
  (forall x, P (f x)) -> Forall P (List.map f l).
Proof. intros H. induction l; cbn; constructor; auto. Qed.

(** *** Automation over the combinators *)

Create HintDb chains discriminated.

Lemma issues_rollback_calls p repoName commitSha branchName :
  (forall cwd args, p (GitReset cwd args) = true) ->
  (forall cwd mode, p (GitClean cwd mode) = true) ->
  issues p (rollback repoName commitSha branchName).
Proof.
  intros Hr Hc. unfold rollback. cbv zeta.
  apply issues_andThen; [|intros; apply issues_okAsync].
  apply issues_fromPromise, issues_thenTask; apply issues_perform; auto.
Qed.

Lemma issues_rollbackIfNeeded {T} p repoName branchName error :
  (forall cwd args, p (GitReset cwd args) = true) ->
  (forall cwd mode, p (GitClean cwd mode) = true) ->
  issues p (rollbackIfNeeded (T := T) repoName branchName error).
Proof.
  intros Hr Hc. unfold rollbackIfNeeded.
  destruct (isNeedsRollbackError error); [|apply issues_errAsync].
  intros s.
  apply (issues_andThen p
           (fun _ : bool =>
              errAsync (T := T) (GitFileSystemError (error_message error)))
           (rollback repoName (oldStateSha s) branchName)).
  - apply issues_rollback_calls; auto.
  - intros; apply issues_errAsync.
Qed.

Ltac head_of t :=
  match t with
  | ?f _ => head_of f
  | _ => t
  end.

Ltac chain_step :=
  match goal with
  | |- forall _, _ => intro; cbv beta
  | H : varfree ?m |- varfree ?m => exact H
  | |- varfree (okAsync _) => apply varfree_okAsync
  | |- varfree (errAsync _) => apply varfree_errAsync
  | |- varfree (perform ?c) => exact (varfree_perform c)
  | |- varfree (fromPromise _ _) => apply varfree_fromPromise
  | |- varfree (thenTask _ _) => apply varfree_thenTask
  | |- varfree (andThen _ _) => apply varfree_andThen
  | |- varfree (orElse _ _) => apply varfree_orElse
  | |- varfree (map _ _) => apply varfree_map
  | |- varfree (widen _) => apply varfree_widen
  | |- varfree (combine2 _ _) => apply varfree_combine2
  | |- varfree (combine _) => apply varfree_combine
  | |- issues _ (okAsync _) => apply issues_okAsync
  | |- issues _ (errAsync _) => apply issues_errAsync
  | |- issues _ (assignOldStateSha _) => apply issues_assign
  | |- issues ?p (perform ?c) => apply (issues_perform p c); reflexivity
  | |- issues _ (_ ;; _) => apply issues_seq
  | |- issues _ (fromPromise _ _) => apply issues_fromPromise
  | |- issues _ (thenTask _ _) => apply issues_thenTask
  | |- issues _ (andThen _ _) => apply issues_andThen
  | |- issues _ (orElse _ _) => apply issues_orElse
  | |- issues _ (map _ _) => apply issues_map
  | |- issues _ (widen _) => apply issues_widen
  | |- issues _ (combine2 _ _) => apply issues_combine2
  | |- issues _ (combine _) => apply issues_combine
  | |- issues _ (rollbackIfNeeded _ _ _) =>
      apply issues_rollbackIfNeeded; intros; reflexivity
  | |- Forall _ (List.map _ _) => apply Forall_map_all
  | |- varfree (if ?b then _ else _) => destruct b
  | |- varfree (match ?x with _ => _ end) => destruct x
  | |- issues _ (if ?b then _ else _) => destruct b
  | |- issues _ (match ?x with _ => _ end) => destruct x
  | |- issues _ ?m => let f := head_of m in unfold f; cbv beta iota zeta
  end.

Ltac chain_auto := cbv beta iota zeta; repeat chain_step; auto with chains.

(** *** The operations of the service *)

Lemma varfree_getFilePathStats repoName filePath isStaging :
  varfree (getFilePathStats repoName filePath isStaging).
Proof. unfold getFilePathStats. chain_auto. Qed.

Lemma varfree_isGitInitialized repoName isStaging :
  varfree (isGitInitialized repoName isStaging).
Proof. unfold isGitInitialized. chain_auto. Qed.

Lemma varfree_isOriginRemoteCorrect repoName isStaging :
  varfree (isOriginRemoteCorrect repoName isStaging).
Proof. unfold isOriginRemoteCorrect. chain_auto. Qed.

#[local] Hint Resolve varfree_getFilePathStats varfree_isGitInitialized
  varfree_isOriginRemoteCorrect : chains.

Lemma varfree_isValidGitRepo repoName branchName :
  varfree (isValidGitRepo repoName branchName).
Proof. unfold isValidGitRepo. chain_auto. Qed.

Lemma varfree_ensureCorrectBranch repoName branchName :
  varfree (ensureCorrectBranch repoName branchName).
Proof. unfold ensureCorrectBranch. chain_auto. Qed.

Lemma varfree_getGitBlobHash repoName filePath isStaging :
  varfree (getGitBlobHash repoName filePath isStaging).
Proof. unfold getGitBlobHash. chain_auto. Qed.

Lemma varfree_getGitLog repoName branchName :
  varfree (getGitLog repoName branchName).
Proof. unfold getGitLog. chain_auto. Qed.

#[local] Hint Resolve varfree_isValidGitRepo varfree_ensureCorrectBranch
  varfree_getGitBlobHash varfree_getGitLog : chains.

Lemma varfree_rollback repoName commitSha branchName :
  varfree (rollback repoName commitSha branchName).
Proof. unfold rollback. chain_auto. Qed.

Lemma varfree_getLatestCommitOfBranch repoName branchName :
  varfree (getLatestCommitOfBranch repoName branchName).
Proof. unfold getLatestCommitOfBranch. chain_auto. Qed.

Lemma varfree_push repoName branchName isForce :
  varfree (push repoName branchName isForce).
Proof. unfold push. chain_auto. Qed.

Lemma varfree_commit repoName pathSpec userId message branchName skipGitAdd :
  varfree (commit repoName pathSpec userId message branchName skipGitAdd).
Proof. unfold commit. chain_auto. Qed.

Lemma varfree_expectAbsent repoName path branchName :
  varfree (expectAbsent repoName path branchName).
Proof. unfold expectAbsent. chain_auto. Qed.

#[local] Hint Resolve varfree_rollback varfree_getLatestCommitOfBranch
  varfree_push varfree_commit varfree_expectAbsent : chains.

Lemma varfree_moveOneFile repoName oldPath newPath branchName targetFile :
  varfree (moveOneFile repoName oldPath newPath branchName targetFile).
Proof. unfold moveOneFile. chain_auto. Qed.

Lemma varfree_readDirectoryItem repoName directoryPath branchName directoryItem :
  varfree (readDirectoryItem repoName directoryPath branchName directoryItem).
Proof. unfold readDirectoryItem. chain_auto. Qed.

#[local] Hint Resolve varfree_moveOneFile varfree_readDirectoryItem : chains.

(** What each operation may issue. *)

Lemma issues_isValidGitRepo repoName branchName :
  issues isReadOnly (isValidGitRepo repoName branchName).
Proof.
  unfold isValidGitRepo, getFilePathStats, isGitInitialized, isOriginRemoteCorrect.
  chain_auto.
Qed.

Lemma issues_ensureCorrectBranch repoName branchName :
  issues (fun c => isReadOnly c || match c with GitCheckout _ _ => true | _ => false end)
    (ensureCorrectBranch repoName branchName).
Proof. unfold ensureCorrectBranch. chain_auto. Qed.


(** *** Symbolic execution of a chain *)

Ltac chain_cbv :=
  cbv beta iota zeta delta
    [seq andThen orElse map widen okAsync errAsync assignOldStateSha
     fst snd trace oldStateSha rollbackIfNeeded isNeedsRollbackError
     isNotFoundError]; cbn [negb].

Ltac chain_cbv_in H :=
  cbv beta iota zeta delta
    [seq andThen orElse map widen okAsync errAsync assignOldStateSha
     fst snd trace oldStateSha rollbackIfNeeded isNeedsRollbackError
     isNotFoundError] in H; cbn [negb] in H.

(** Replace the run of a sub-operation from a state by its [run] from the
    history of that state. *)
Ltac sub_run :=
  match goal with
  | |- context [?m {| trace := ?h; oldStateSha := ?v |}] =>
      rewrite (varfree_at m v h ltac:(chain_auto))
  end.

Ltac sub_run_in H :=
  match type of H with
  | context [?m {| trace := ?h; oldStateSha := ?v |}] =>
      rewrite (varfree_at m v h ltac:(chain_auto)) in H
  end.

(** Down to the calls: the small operations are unfolded as well. *)
Ltac prim_cbv :=
  cbv beta iota zeta delta
    [seq andThen orElse map widen okAsync errAsync assignOldStateSha
     fst snd trace oldStateSha rollbackIfNeeded isNeedsRollbackError
     isNotFoundError fromPromise thenTask perform combine2
     getFilePathStats getGitBlobHash getGitLog getLatestCommitOfBranch
     expectAbsent isGitInitialized isOriginRemoteCorrect];
  cbn [negb].

Ltac prim_cbv_in H :=
  cbv beta iota zeta delta
    [seq andThen orElse map widen okAsync errAsync assignOldStateSha
     fst snd trace oldStateSha rollbackIfNeeded isNeedsRollbackError
     isNotFoundError fromPromise thenTask perform combine2
     getFilePathStats getGitBlobHash getGitLog getLatestCommitOfBranch
     expectAbsent isGitInitialized isOriginRemoteCorrect] in H;
  cbn [negb] in H.

(** Case analysis on the answer of the oracle to the next call. *)
Ltac ask_env :=
  match goal with
  | H : context [match env ?h ?c with Resolved _ => _ | Rejected _ => _ end] |- _ =>
      let E := fresh "Eenv" in
      destruct (env h c) eqn:E; prim_cbv_in H
  | |- context [match env ?h ?c with Resolved _ => _ | Rejected _ => _ end] =>
      let E := fresh "Eenv" in
      destruct (env h c) eqn:E; prim_cbv
  end.
(* ===================================================================== *)
(** ** Media files *)
(* ===================================================================== *)

Lemma read_error_class repoName filePath encoding s e s' :
  read repoName filePath encoding s = (err e, s') ->
  (exists m, e = NotFoundError m) \/ (exists m, e = GitFileSystemError m).
Proof.
  unfold read. prim_cbv. intros H.
  repeat ask_env;
    repeat match type of H with
           | context [if ?b then _ else _] => destruct b
           end;
    inversion H; subst; eauto.
Qed.

(** [getMimeType] throws before it looks at the extension. *)
Lemma getMimeType_throws fileExtension :
  getMimeType fileExtension
  = Throws (ThrownError "Cannot read properties of undefined (reading 'includes')").
Proof. reflexivity. Qed.

Lemma issues_readMediaFile siteName directoryName fileName :
  issues isReadOnly (readMediaFile siteName directoryName fileName).
Proof.
  assert (Hread : issues isReadOnly
                    (read siteName (directoryName ++ "/" ++ fileName) Base64))
    by chain_auto.
  intros s. unfold readMediaFile, andThenMayThrow.
  destruct (Hread s) as (new & Htrace & Hnew).
  destruct (read siteName (directoryName ++ "/" ++ fileName) Base64 s)
    as [[file|e] s1]; cbn [snd] in Htrace |- *; [|eauto].
  destruct (getFileExtension fileName) as [fileExt|error];
    [rewrite getMimeType_throws|]; cbn [errAsync snd]; eauto.
Qed.

(* ===================================================================== *)
(** ** Repository validation and [commit] *)
(* ===================================================================== *)

Lemma run_issues {A} p (m : Async A) h r h' :
  issues p m -> run m h = (r, h') ->
  exists new, h' = (h ++ new)%list /\ forallb p new = true.
Proof.
  intros Hi Hr. destruct (issues_run p m h Hi) as (new & E & F).
  rewrite Hr in E. eauto.
Qed.

Lemma forallb_weaken {A} (p q : A -> bool) (l : list A) :
  (forall x, p x = true -> q x = true) -> forallb p l = true -> forallb q l = true.
Proof. intros H. rewrite !forallb_forall. auto. Qed.

(** [isValidGitRepo] fails with a [GitFileSystemError] only. *)
Lemma isValidGitRepo_error_class repoName branchName h e h' :
  run (isValidGitRepo repoName branchName) h = (err e, h') ->
  exists m, e = GitFileSystemError m.
Proof.
  unfold run, isValidGitRepo. prim_cbv. intros H.
  repeat (ask_env
          || match type of H with
             | context [if ?b then _ else _] => destruct b; prim_cbv_in H
             end);
    inversion H; subst; eauto.
Qed.

(** [isValidGitRepo] answers [true] exactly when the root of the working
    tree of the branch is a directory, and Git, asked in the staging working
    tree whatever the branch, reports a repository whose origin is the
    canonical URL of the site. *)
Lemma isValidGitRepo_true_iff repoName branchName h h' :
  let root :=
    FsStat ((if negb (branchName =? STAGING_LITE_BRANCH)
             then EFS_VOL_PATH_STAGING
             else EFS_VOL_PATH_STAGING_LITE) ++ "/" ++ repoName ++ "/" ++ "") in
  let isRepo := GitCheckIsRepo (EFS_VOL_PATH_STAGING ++ "/" ++ repoName) in
  let remote :=
    GitRemote (EFS_VOL_PATH_STAGING ++ "/" ++ repoName) ["get-url"; "origin"] in
  let originUrl :=
    "git@github.com:" ++ ISOMER_GITHUB_ORG_NAME ++ "/" ++ repoName ++ ".git" in
  run (isValidGitRepo repoName branchName) h = (ok true, h')
  <-> exists stats url,
      env h root = Resolved stats
      /\ isDirectory stats = true
      /\ env (h ++ [root])%list isRepo = Resolved true
      /\ env ((h ++ [root]) ++ [isRepo])%list remote = Resolved (Some url)
      /\ negb (url =? "") && (trim url =? originUrl) = true
      /\ h' = (((h ++ [root]) ++ [isRepo]) ++ [remote])%list.
Proof.
  intros root isRepo remote originUrl. split.
  - unfold run, isValidGitRepo. prim_cbv.
    fold root. fold isRepo. fold remote. fold originUrl.
    destruct (env h root) as [stats|t1] eqn:E1; prim_cbv.
    + destruct (isDirectory stats) eqn:Ed; prim_cbv; [|discriminate].
      fold isRepo.
      destruct (env (h ++ [root])%list isRepo) as [[|]|t2] eqn:E2; prim_cbv;
        try discriminate.
      fold remote.
      destruct (env ((h ++ [root]) ++ [isRepo])%list remote) as [[url|]|t3] eqn:E3;
        prim_cbv; try discriminate.
      fold originUrl.
      destruct (negb (url =? "") && (trim url =? originUrl)) eqn:Eu; prim_cbv;
        [|discriminate].
      intros H. inversion H. exists stats, url. auto 10.
    + destruct (instanceofError t1 && includes (thrown_message t1) "ENOENT");
        prim_cbv; [discriminate|].
      destruct (instanceofError t1); prim_cbv; discriminate.
  - intros (stats & url & E1 & Ed & E2 & E3 & Eu & ->).
    unfold run, isValidGitRepo. prim_cbv.
    fold root. rewrite E1. prim_cbv. rewrite Ed. prim_cbv.
    fold isRepo. rewrite E2. prim_cbv.
    fold remote. rewrite E3. prim_cbv.
    fold originUrl. rewrite Eu. reflexivity.
Qed.

(** C6. A [commit] whose [pathSpec] has no entry or more than two fails with
    a [GitFileSystemError] and runs neither [git add] nor [git commit]; with
    one or two entries, a valid repository on the right branch is committed
    to and the hash of the new commit is returned. *)
Theorem commit_pathSpec_length
  repoName pathSpec userId message branchName skipGitAdd h :
  (length pathSpec < 1 \/ 2 < length pathSpec ->
   (exists m new,
       run (commit repoName pathSpec userId message branchName skipGitAdd) h
       = (err (GitFileSystemError m), (h ++ new)%list)
       /\ forallb (fun c => negb (isGitAdd c) && negb (isGitCommit c)) new = true)
   /\ (forall h1,
          run (isValidGitRepo repoName branchName) h = (ok true, h1) ->
          run (commit repoName pathSpec userId message branchName skipGitAdd) h
          = (err (GitFileSystemError
                    ("Invalid pathSpec length: " ++ string_of_nat (length pathSpec)
                     ++ ". Expected 1 or 2")), h1)))
  /\ (length pathSpec = 1 \/ length pathSpec = 2 ->
      forall h1 onBranch h2 result,
        run (isValidGitRepo repoName branchName) h = (ok true, h1) ->
        run (ensureCorrectBranch repoName branchName) h1 = (ok onBranch, h2) ->
        let cwd := getEfsVolPathFromBranch branchName ++ "/" ++ repoName in
        let commitMessage :=
          JSON_stringify
            ([("message", message); ("userId", userId)]
             ++ (if (length pathSpec =? 1)%nat
                 then [("fileName", pop (split "/" (List.hd EmptyString pathSpec)))]
                 else []))%list in
        let staged :=
          if skipGitAdd then h2 else (h2 ++ [GitAdd cwd pathSpec])%list in
        (skipGitAdd = false -> env h2 (GitAdd cwd pathSpec) = Resolved tt) ->
        env staged (GitCommit cwd commitMessage) = Resolved result ->
        run (commit repoName pathSpec userId message branchName skipGitAdd) h
        = (ok (commit_hash result), (staged ++ [GitCommit cwd commitMessage])%list)).
Proof.
  split.
  - intros Hlen.
    assert (Hguard : ((length pathSpec <? 1)%nat || (2 <? length pathSpec)%nat) = true).
    { apply orb_true_iff. rewrite !Nat.ltb_lt. exact Hlen. }
    split.
    + unfold run at 1. unfold commit. chain_cbv. sub_run.
      destruct (run (isValidGitRepo repoName branchName) h) as [[valid|e] h1] eqn:Ev;
        chain_cbv.
      * destruct (run_issues _ _ _ _ _ (issues_isValidGitRepo repoName branchName) Ev)
          as (new & -> & Hnew).
        assert (Hq : forallb (fun c => negb (isGitAdd c) && negb (isGitCommit c)) new
                     = true).
        { revert Hnew. apply forallb_weaken. intros []; cbn; congruence. }
        destruct valid; chain_cbv.
        -- rewrite Hguard. chain_cbv. eauto.
        -- unfold notValidGitRepo. eauto.
      * destruct (run_issues _ _ _ _ _ (issues_isValidGitRepo repoName branchName) Ev)
          as (new & -> & Hnew).
        destruct (isValidGitRepo_error_class _ _ _ _ _ Ev) as [m ->].
        exists m, new. split; auto.
        revert Hnew. apply forallb_weaken. intros []; cbn; congruence.
    + intros h1 Ev. unfold run at 1. unfold commit. chain_cbv. sub_run.
      rewrite Ev. chain_cbv. rewrite Hguard. reflexivity.
  - intros Hlen h1 onBranch h2 result Ev Eb cwd commitMessage staged Hadd Hcommit.
    assert (Hguard : ((length pathSpec <? 1)%nat || (2 <? length pathSpec)%nat) = false).
    { apply orb_false_iff. rewrite !Nat.ltb_ge. lia. }
    unfold run at 1. unfold commit. chain_cbv. sub_run.
    rewrite Ev. chain_cbv. rewrite Hguard. sub_run. rewrite Eb. chain_cbv.
    subst staged. destruct skipGitAdd; prim_cbv.
    + fold cwd. fold commitMessage. rewrite Hcommit. reflexivity.
    + fold cwd. rewrite (Hadd eq_refl). prim_cbv. fold cwd. fold commitMessage.
      rewrite Hcommit. reflexivity.
Qed.

(* ===================================================================== *)
(** ** Branch and remote synchronisation *)
(* ===================================================================== *)

Lemma issues_ensureCorrectBranch_noPush repoName branchName :
  issues (fun c => negb (isGitPush c) && negb (isRollbackCall c))
    (ensureCorrectBranch repoName branchName).
Proof. unfold ensureCorrectBranch. chain_auto. Qed.

Lemma ensureCorrectBranch_error_class repoName branchName h e h' :
  run (ensureCorrectBranch repoName branchName) h = (err e, h') ->
  exists m, e = GitFileSystemError m.
Proof.
  unfold run, ensureCorrectBranch. prim_cbv. intros H.
  repeat (ask_env
          || match type of H with
             | context [if ?b then _ else _] => destruct b; prim_cbv_in H
             end);
    inversion H; subst; eauto.
Qed.

Lemma pull_condition reason :
  instanceofGitError reason
  && (includes (thrown_message reason) "but no such ref was fetched."
      || includes (thrown_message reason) "error: cannot lock ref"
      || includes (thrown_message reason) "Cannot fast-forward your working tree"
      || includes (thrown_message reason)
           "Need to specify how to reconcile divergent branches")
  = isKnownPullError reason.
Proof.
  unfold isKnownPullError, knownPullErrors. cbn [existsb].
  destruct (instanceofGitError reason); cbn [andb]; [|reflexivity].
  repeat match goal with
         | |- context [includes ?s ?t] => destruct (includes s t)
         end; reflexivity.
Qed.

(** C5. On a valid repository whose branch is checked out, a [git pull] that
    fails with one of the four known errors makes [pull] succeed with the
    path of the working tree; any other failure of [git pull] comes back as a
    [GitFileSystemError]. *)
Theorem pull_known_errors repoName branchName h h1 onBranch h2 reason :
  run (isValidGitRepo repoName branchName) h = (ok true, h1) ->
  run (ensureCorrectBranch repoName branchName) h1 = (ok onBranch, h2) ->
  let cwd := getEfsVolPathFromBranch branchName ++ "/" ++ repoName in
  env h2 (GitPull cwd) = Rejected reason ->
  (isKnownPullError reason = true ->
   run (pull repoName branchName) h = (ok cwd, (h2 ++ [GitPull cwd])%list))
  /\ (isKnownPullError reason = false ->
      exists m,
        run (pull repoName branchName) h
        = (err (GitFileSystemError m), (h2 ++ [GitPull cwd])%list)).
Proof.
  intros Ev Eb cwd Hpull.
  assert (Hrun : run (pull repoName branchName) h
                 = (if isKnownPullError reason then ok cwd
                    else if instanceofGitError reason
                    then err (GitFileSystemError "Unable to pull latest changes of repo")
                    else err (GitFileSystemError "An unknown error occurred"),
                    (h2 ++ [GitPull cwd])%list)).
  { unfold run at 1. unfold pull. chain_cbv. sub_run. rewrite Ev. chain_cbv.
    sub_run. rewrite Eb. prim_cbv. fold cwd. rewrite Hpull.
    rewrite pull_condition.
    destruct (isKnownPullError reason); [reflexivity|].
    destruct (instanceofGitError reason); reflexivity. }
  split; intros Hk; rewrite Hrun, Hk; [reflexivity|].
  destruct (instanceofGitError reason); eauto.
Qed.

Lemma split_no_separator sep s :
  includes s (String sep EmptyString) = false -> split sep s = [s].
Proof.
  induction s as [|c s IH]; cbn [split]; [reflexivity|].
  intros H. cbn [includes prefix] in H.
  destruct (ascii_dec sep c) as [->|Hne].
  - destruct s; discriminate.
  - destruct (Ascii.eqb_spec c sep) as [->|_]; [congruence|].
    rewrite IH; [reflexivity|]. destruct s; cbn [includes prefix] in *; auto.
Qed.

Lemma gitOptions_plain branchName :
  includes branchName " " = false ->
  split " " ("origin " ++ branchName) = ["origin"; branchName].
Proof.
  intros H. cbn. rewrite (split_no_separator " "%char branchName H). reflexivity.
Qed.

(** [push] where the branch check goes through.  It validates the repository first: on an invalid one it fails
    with a [GitFileSystemError] and pushes nothing.  On a valid repository
    whose branch is checked out, it pushes [origin <branch>], with [--force]
    exactly when [isForce] is set; a failed push is followed by one more push
    with the same force flag and no third one; the path of the working tree
    is returned as soon as a push succeeds, and a [GitFileSystemError] when
    both have failed.  Validation and the branch check issue no push of their
    own. *)
Theorem push_retries_once repoName branchName (isForce : bool) h :
  let cwd := getEfsVolPathFromBranch branchName ++ "/" ++ repoName in
  let gitOptions := split " " ("origin " ++ branchName) in
  let first :=
    GitPush cwd (if isForce then (gitOptions ++ ["--force"])%list else gitOptions) in
  let retry := GitPush cwd (if isForce then ["--force"] else []) in
  (forall h1,
      run (isValidGitRepo repoName branchName) h = (ok false, h1) ->
      run (push repoName branchName isForce) h = (err (notValidGitRepo repoName), h1)
      /\ exists before, h1 = (h ++ before)%list
                        /\ forallb (fun c => negb (isGitPush c)) before = true)
  /\ (forall h1 onBranch h2,
         run (isValidGitRepo repoName branchName) h = (ok true, h1) ->
         run (ensureCorrectBranch repoName branchName) h1 = (ok onBranch, h2) ->
         (exists before, h2 = (h ++ before)%list
                         /\ forallb (fun c => negb (isGitPush c)) before = true)
         /\ (includes branchName " " = false -> gitOptions = ["origin"; branchName])
         /\ match env h2 first with
            | Resolved _ =>
                run (push repoName branchName isForce) h
                = (ok cwd, (h2 ++ [first])%list)
            | Rejected _ =>
                match env (h2 ++ [first])%list retry with
                | Resolved _ =>
                    run (push repoName branchName isForce) h
                    = (ok cwd, (h2 ++ [first; retry])%list)
                | Rejected _ =>
                    exists m,
                      run (push repoName branchName isForce) h
                      = (err (GitFileSystemError m), (h2 ++ [first; retry])%list)
                end
            end).
Proof.
  intros cwd gitOptions first retry. split.
  { intros h1 Ev. split.
    - unfold run at 1. unfold push. chain_cbv. sub_run. rewrite Ev. reflexivity.
    - destruct (run_issues _ _ _ _ _ (issues_isValidGitRepo repoName branchName) Ev)
        as (n1 & -> & F1).
      exists n1. split; [reflexivity|].
      revert F1. apply forallb_weaken. intros []; cbn; congruence. }
  intros h1 onBranch h2 Ev Eb. split; [|split].
  - destruct (run_issues _ _ _ _ _ (issues_isValidGitRepo repoName branchName) Ev)
      as (n1 & -> & F1).
    destruct (run_issues _ _ _ _ _
                (issues_ensureCorrectBranch_noPush repoName branchName) Eb)
      as (n2 & -> & F2).
    exists (n1 ++ n2)%list. rewrite app_assoc. split; [reflexivity|].
    rewrite forallb_app. apply andb_true_iff. split.
    + revert F1. apply forallb_weaken. intros []; cbn; congruence.
    + revert F2. apply forallb_weaken. intros c Hc.
      apply andb_true_iff in Hc. tauto.
  - intros Hsp. apply gitOptions_plain, Hsp.
  - assert (Hrun :
      run (push repoName branchName isForce) h
      = match env h2 first with
        | Resolved _ => (ok cwd, (h2 ++ [first])%list)
        | Rejected t1 =>
            match env (h2 ++ [first])%list retry with
            | Resolved _ => (ok cwd, ((h2 ++ [first]) ++ [retry])%list)
            | Rejected t2 => (err (pushErrorFn t2), ((h2 ++ [first]) ++ [retry])%list)
            end
        end).
    { unfold run at 1. unfold push. chain_cbv. sub_run. rewrite Ev. chain_cbv.
      sub_run. rewrite Eb. subst first retry gitOptions. fold cwd.
      destruct isForce; prim_cbv; fold cwd;
        repeat match goal with
               | |- context [match env ?hh ?c with Resolved _ => _ | Rejected _ => _ end]
                 => destruct (env hh c)
               end; reflexivity. }
    rewrite Hrun.
    destruct (env h2 first); [reflexivity|].
    destruct (env (h2 ++ [first])%list retry) as [|t2];
      rewrite <- app_assoc; cbn [app]; [reflexivity|].
    unfold pushErrorFn. destruct (instanceofGitError t2); eauto.
Qed.

(** When the branch check itself fails, the [orElse] of [push] still runs its
    retry: one push, without [origin <branch>], decides the result. *)
Lemma push_after_failed_branch_check
  repoName branchName (isForce : bool) h h1 e h2 :
  run (isValidGitRepo repoName branchName) h = (ok true, h1) ->
  run (ensureCorrectBranch repoName branchName) h1 = (err e, h2) ->
  let cwd := getEfsVolPathFromBranch branchName ++ "/" ++ repoName in
  let retry := GitPush cwd (if isForce then ["--force"] else []) in
  run (push repoName branchName isForce) h
  = (match env h2 retry with
     | Resolved _ => ok cwd
     | Rejected t => err (pushErrorFn t)
     end, (h2 ++ [retry])%list).
Proof.
  intros Ev Eb cwd retry.
  unfold run at 1. unfold push. chain_cbv. sub_run. rewrite Ev. chain_cbv.
  sub_run. rewrite Eb. subst retry. fold cwd.
  destruct isForce; prim_cbv; fold cwd;
    match goal with
    | |- context [match env ?hh ?c with Resolved _ => _ | Rejected _ => _ end]
      => destruct (env hh c)
    end; reflexivity.
Qed.

(** On a valid repository whose branch is checked out, [updateRepoState]
    first asks Git for the type of the object [sha]; no reset and no push
    comes before.  When that command fails with a [GitError] the result is
    the [BadRequestError] and no call follows: no reset, no push.  When Git
    knows the SHA the branch is reset hard to it and, the reset done, the
    operation ends as [push] with the force flag does. *)
Theorem updateRepoState_validates_sha repoName branchName sha h h1 onBranch h2 :
  run (isValidGitRepo repoName branchName) h = (ok true, h1) ->
  run (ensureCorrectBranch repoName branchName) h1 = (ok onBranch, h2) ->
  let cwd := getEfsVolPathFromBranch branchName ++ "/" ++ repoName in
  let catFile := GitCatFile cwd ["-t"; sha] in
  let reset := GitReset cwd ["--hard"; sha] in
  (exists before, h2 = (h ++ before)%list
                  /\ forallb (fun c => negb (isGitPush c) && negb (isRollbackCall c))
                       before = true)
  /\ match env h2 catFile with
     | Rejected reason =>
         run (updateRepoState repoName branchName sha) h
         = (err (if instanceofGitError reason
                 then BadRequestError "The provided SHA is invalid"
                 else GitFileSystemError "An unknown error occurred"),
            (h2 ++ [catFile])%list)
     | Resolved _ =>
         match env (h2 ++ [catFile])%list reset with
         | Rejected _ =>
             exists m,
               run (updateRepoState repoName branchName sha) h
               = (err (GitFileSystemError m), (h2 ++ [catFile; reset])%list)
         | Resolved _ =>
             run (updateRepoState repoName branchName sha) h
             = (match fst (run (push repoName branchName true)
                             (h2 ++ [catFile; reset])%list) with
                | ok _ => ok tt
                | err e => err e
                end,
                snd (run (push repoName branchName true) (h2 ++ [catFile; reset])%list))
         end
     end.
Proof.
  intros Ev Eb cwd catFile reset. split.
  - destruct (run_issues _ _ _ _ _ (issues_isValidGitRepo repoName branchName) Ev)
      as (n1 & -> & F1).
    destruct (run_issues _ _ _ _ _
                (issues_ensureCorrectBranch_noPush repoName branchName) Eb)
      as (n2 & -> & F2).
    exists (n1 ++ n2)%list. rewrite app_assoc. split; [reflexivity|].
    rewrite forallb_app, F2, andb_true_r.
    revert F1. apply forallb_weaken. intros []; cbn; congruence.
  - assert (Hrun :
      run (updateRepoState repoName branchName sha) h
      = match env h2 catFile with
        | Rejected reason =>
            (err (if instanceofGitError reason
                  then BadRequestError "The provided SHA is invalid"
                  else GitFileSystemError "An unknown error occurred"),
             (h2 ++ [catFile])%list)
        | Resolved _ =>
            match env (h2 ++ [catFile])%list reset with
            | Rejected reason =>
                (err (if instanceofGitError reason
                      then GitFileSystemError
                             ("Unable to update repo state to commit SHA " ++ sha)
                      else GitFileSystemError "An unknown error occurred"),
                 ((h2 ++ [catFile]) ++ [reset])%list)
            | Resolved _ =>
                (match fst (run (push repoName branchName true)
                              ((h2 ++ [catFile]) ++ [reset])%list) with
                 | ok _ => ok tt
                 | err e => err e
                 end,
                 snd (run (push repoName branchName true)
                        ((h2 ++ [catFile]) ++ [reset])%list))
            end
        end).
    { unfold run at 1. unfold updateRepoState. chain_cbv. sub_run. rewrite Ev.
      chain_cbv. sub_run. rewrite Eb. prim_cbv. fold cwd. fold catFile.
      destruct (env h2 catFile) as [v|reason]; prim_cbv; [|reflexivity].
      fold cwd. fold catFile. fold reset.
      destruct (env (h2 ++ [catFile])%list reset) as [v'|reason]; prim_cbv;
        [|reflexivity].
      sub_run. fold cwd. fold catFile. fold reset.
      destruct (run (push repoName branchName true) _) as [[p|e] h3]; reflexivity. }
    rewrite Hrun. destruct (env h2 catFile) as [v|reason]; [|reflexivity].
    destruct (env (h2 ++ [catFile])%list reset) as [v'|reason];
      rewrite <- app_assoc; cbn [app]; [reflexivity|].
    destruct (instanceofGitError reason); eauto.
Qed.

(* ===================================================================== *)
(** ** Optimistic concurrency of [update] and [delete] *)
(* ===================================================================== *)

Lemma issues_getLatestCommitOfBranch repoName branchName :
  issues isReadOnly (getLatestCommitOfBranch repoName branchName).
Proof. chain_auto. Qed.

Lemma issues_getFilePathStats repoName filePath isStaging :
  issues isReadOnly (getFilePathStats repoName filePath isStaging).
Proof. chain_auto. Qed.

Lemma issues_getGitBlobHash repoName filePath isStaging :
  issues isReadOnly (getGitBlobHash repoName filePath isStaging).
Proof. chain_auto. Qed.

Lemma issues_delete_directory repoName path oldSha userId branchName :
  issues (fun c => negb (isBlobHashLookup c))
    (delete repoName path oldSha userId true branchName).
Proof. chain_auto. Qed.

(** Three read-only steps in a row. *)
Lemma read_only_prefix {A B C} (m1 : Async A) (m2 : Async B) (m3 : Async C)
  h r1 h1 r2 h2 r3 h3 :
  issues isReadOnly m1 -> issues isReadOnly m2 -> issues isReadOnly m3 ->
  run m1 h = (r1, h1) -> run m2 h1 = (r2, h2) -> run m3 h2 = (r3, h3) ->
  exists new, h3 = (h ++ new)%list /\ forallb isReadOnly new = true.
Proof.
  intros I1 I2 I3 E1 E2 E3.
  destruct (run_issues _ _ _ _ _ I1 E1) as (n1 & -> & F1).
  destruct (run_issues _ _ _ _ _ I2 E2) as (n2 & -> & F2).
  destruct (run_issues _ _ _ _ _ I3 E3) as (n3 & -> & F3).
  exists (n1 ++ n2 ++ n3)%list. rewrite !app_assoc. split; [reflexivity|].
  rewrite !forallb_app, F1, F2, F3. reflexivity.
Qed.

(** The blob SHA that [update] and [delete] compare with [oldSha] is the one
    [getGitBlobHash] finds in the staging working tree, whatever the branch.
    When the latest commit is known and the path is a file whose blob SHA
    there differs from [oldSha], [update], and [delete] of a file, fail with
    the [ConflictError] after read-only calls alone: nothing is written,
    removed, staged or committed.  [delete] of a directory never looks a blob
    SHA up and its run does not depend on [oldSha]. *)
Theorem stale_sha_is_a_conflict repoName path oldSha userId branchName h :
  (forall fileContent latestCommit h1 stats h2 sha h3,
      run (getLatestCommitOfBranch repoName branchName) h = (ok latestCommit, h1) ->
      run (getFilePathStats repoName path (negb (branchName =? STAGING_LITE_BRANCH))) h1
      = (ok stats, h2) ->
      isFile stats = true ->
      run (getGitBlobHash repoName path true) h2 = (ok sha, h3) ->
      sha <> oldSha ->
      run (update repoName path fileContent oldSha userId branchName) h
      = (err (ConflictError "File has been changed recently, please try again"), h3)
      /\ exists new, h3 = (h ++ new)%list /\ forallb isReadOnly new = true)
  /\ (forall latestCommit h1 stats h2 sha h3,
         run (getLatestCommitOfBranch repoName branchName) h = (ok latestCommit, h1) ->
         GitHubCommitData.sha latestCommit <> "" ->
         run (getFilePathStats repoName path (negb (branchName =? STAGING_LITE_BRANCH))) h1
         = (ok stats, h2) ->
         isFile stats = true ->
         run (getGitBlobHash repoName path true) h2 = (ok sha, h3) ->
         sha <> oldSha ->
         run (delete repoName path oldSha userId false branchName) h
         = (err (ConflictError "File has been changed recently, please try again"), h3)
         /\ exists new, h3 = (h ++ new)%list /\ forallb isReadOnly new = true)
  /\ ((exists new,
          snd (run (delete repoName path oldSha userId true branchName) h)
          = (h ++ new)%list
          /\ forallb (fun c => negb (isBlobHashLookup c)) new = true)
      /\ forall otherSha,
          run (delete repoName path otherSha userId true branchName) h
          = run (delete repoName path oldSha userId true branchName) h).
Proof.
  split; [|split].
  - intros fileContent latestCommit h1 stats h2 sha h3 E1 E2 Hfile E3 Hne. split.
    + unfold run at 1. unfold update, update_chain. chain_cbv.
      sub_run. rewrite E1. chain_cbv.
      sub_run. rewrite E2. chain_cbv. rewrite Hfile. chain_cbv.
      sub_run. rewrite E3. chain_cbv.
      apply String.eqb_neq in Hne. rewrite Hne. chain_cbv. reflexivity.
    + eapply read_only_prefix; [| | |exact E1|exact E2|exact E3].
      * apply issues_getLatestCommitOfBranch.
      * apply issues_getFilePathStats.
      * apply issues_getGitBlobHash.
  - intros latestCommit h1 stats h2 sha h3 E1 Hsha E2 Hfile E3 Hne. split.
    + unfold run at 1. unfold delete, delete_chain. chain_cbv.
      sub_run. rewrite E1. chain_cbv.
      apply String.eqb_neq in Hsha. rewrite Hsha. chain_cbv.
      sub_run. rewrite E2. chain_cbv. rewrite Hfile. cbn [andb negb]. chain_cbv.
      sub_run. rewrite E3. chain_cbv.
      apply String.eqb_neq in Hne. rewrite Hne. chain_cbv. reflexivity.
    + eapply read_only_prefix; [| | |exact E1|exact E2|exact E3].
      * apply issues_getLatestCommitOfBranch.
      * apply issues_getFilePathStats.
      * apply issues_getGitBlobHash.
  - split.
    + apply issues_run, issues_delete_directory.
    + intros otherSha. reflexivity.
Qed.

(* ===================================================================== *)
(** ** Directory listing *)
(* ===================================================================== *)

Lemma combineResultList_ok {T E} (rs : list (Result T E)) vs :
  combineResultList rs = ok vs -> rs = List.map ok vs.
Proof.
  revert vs. induction rs as [|[v|e] rs IH]; cbn; intros vs H.
  - inversion H. reflexivity.
  - destruct (combineResultList rs) as [vs'|e]; inversion H; subst.
    cbn. f_equal. auto.
  - discriminate.
Qed.

Lemma runAll_Forall {T E} (P : Result T E -> Prop) (ms : list (ResultAsync T E)) :
  Forall (fun m => forall s, P (fst (m s))) ms ->
  forall s, Forall P (fst (runAll ms s)).
Proof.
  induction 1 as [|m ms Hm _ IH]; intros s; cbn [runAll].
  - constructor.
  - pose proof (Hm s) as H1. destruct (m s) as [r s1].
    pose proof (IH s1) as H2. destruct (runAll ms s1) as [rs s2].
    cbn in *. constructor; assumption.
Qed.

(** An entry that was read carries the name of its directory item, and an
    empty SHA when the blob hash lookup was rejected. *)
Lemma readDirectoryItem_ok repoName directoryPath branchName directoryItem s :
  match fst (readDirectoryItem repoName directoryPath branchName directoryItem s) with
  | ok item =>
      GitDirectoryItem.name item = dirent_name directoryItem
      /\ ((forall history, exists reason,
              env history
                (GitRevparse (EFS_VOL_PATH_STAGING ++ "/" ++ repoName)
                   ["HEAD:" ++ itemPath directoryPath (dirent_name directoryItem)])
              = Rejected reason) ->
          GitDirectoryItem.sha item = "")
  | err _ => True
  end.
Proof.
  destruct s as [h v]. unfold readDirectoryItem, itemPath. prim_cbv.
  match goal with
  | |- context [env ?hh (GitRevparse ?cwd ?args)] =>
      destruct (env hh (GitRevparse cwd args)) as [sha|reason] eqn:Elookup
  end; prim_cbv.
  - match goal with
    | |- context [env ?hh (FsStat ?p)] => destruct (env hh (FsStat p))
    end; prim_cbv; [|exact I].
    split; [reflexivity|]. intros Hun. destruct (Hun h) as [reason Hr].
    congruence.
  - match goal with
    | |- context [env ?hh (FsStat ?p)] => destruct (env hh (FsStat p))
    end; prim_cbv; [|exact I].
    split; reflexivity.
Qed.

(** Every entry that [listDirectoryContents] returns has a non-empty blob
    SHA, and a directory item whose blob hash lookup in the staging working
    tree is rejected at every moment is left out of the list. *)
Theorem listing_shows_tracked_entries_only
  repoName directoryPath branchName h items h' :
  run (listDirectoryContents repoName directoryPath branchName) h = (ok items, h') ->
  Forall (fun item => GitDirectoryItem.sha item <> "") items
  /\ forall name,
      (forall history, exists reason,
          env history
            (GitRevparse (EFS_VOL_PATH_STAGING ++ "/" ++ repoName)
               ["HEAD:" ++ itemPath directoryPath name])
          = Rejected reason) ->
      ~ In name (List.map GitDirectoryItem.name items).
Proof.
  unfold run, listDirectoryContents. chain_cbv. sub_run.
  destruct (run (getFilePathStats _ _ _) h) as [[stats|e] h1]; chain_cbv;
    [|discriminate].
  destruct (isDirectory stats); chain_cbv; [|discriminate].
  unfold fromPromise, perform. chain_cbv.
  match goal with
  | |- context [env ?hh (FsReaddir ?p)] =>
      destruct (env hh (FsReaddir p)) as [directoryContents|reason]
  end; chain_cbv; [|discriminate].
  unfold combine.
  pose proof (runAll_Forall
                (fun r =>
                   match r with
                   | ok item =>
                       exists directoryItem,
                         GitDirectoryItem.name item = dirent_name directoryItem
                         /\ ((forall history, exists reason,
                                 env history
                                   (GitRevparse (EFS_VOL_PATH_STAGING ++ "/" ++ repoName)
                                      ["HEAD:" ++ itemPath directoryPath
                                                    (dirent_name directoryItem)])
                                 = Rejected reason) ->
                             GitDirectoryItem.sha item = "")
                   | err _ => True
                   end)
                (List.map (readDirectoryItem repoName directoryPath branchName)
                   directoryContents)) as Hall.
  assert (Hitems :
            Forall
              (fun m : ResultAsync GitDirectoryItem.t IsomerError =>
                 forall s,
                   match fst (m s) with
                   | ok item =>
                       exists directoryItem,
                         GitDirectoryItem.name item = dirent_name directoryItem
                         /\ ((forall history, exists reason,
                                 env history
                                   (GitRevparse (EFS_VOL_PATH_STAGING ++ "/" ++ repoName)
                                      ["HEAD:" ++ itemPath directoryPath
                                                    (dirent_name directoryItem)])
                                 = Rejected reason) ->
                             GitDirectoryItem.sha item = "")
                   | err _ => True
                   end)
              (List.map (readDirectoryItem repoName directoryPath branchName)
                 directoryContents)).
  { apply Forall_map_all. intros directoryItem s.
    pose proof (readDirectoryItem_ok repoName directoryPath branchName directoryItem s)
      as Hitem.
    destruct (fst (readDirectoryItem _ _ _ _ s)); [|exact I].
    exists directoryItem. exact Hitem. }
  specialize (Hall Hitems). clear Hitems.
  match goal with
  | |- context [runAll ?ms ?s] =>
      specialize (Hall s); destruct (runAll ms s) as [rs s2]
  end.
  cbn [fst] in Hall. chain_cbv.
  destruct (combineResultList rs) as [directoryItems|e] eqn:Ec; chain_cbv;
    [|discriminate].
  apply combineResultList_ok in Ec. subst rs.
  intros H. inversion H; subst. clear H. split.
  - apply Forall_forall. intros item Hin. apply filter_In in Hin.
    destruct Hin as [_ Hsha]. apply negb_true_iff, String.eqb_neq in Hsha. exact Hsha.
  - intros name Hun Hin. apply in_map_iff in Hin.
    destruct Hin as (item & Hname & Hin). apply filter_In in Hin.
    destruct Hin as [Hin Hsha]. apply negb_true_iff, String.eqb_neq in Hsha.
    rewrite Forall_forall in Hall.
    specialize (Hall (ok item) (in_map ok _ _ Hin)). cbn in Hall.
    destruct Hall as (directoryItem & Hn & Hempty).
    apply Hsha, Hempty. rewrite <- Hn, Hname. exact Hun.
Qed.

(* ===================================================================== *)
(** ** Rollback of the mutating operations *)
(* ===================================================================== *)

(** *** Error classes of the steps that precede the disk mutation *)

Ltac classify_by_cases H :=
  repeat (ask_env
          || match type of H with
             | context [instanceofError ?t] =>
                 is_var t; destruct t;
                 cbn [instanceofError instanceofGitError thrown_message andb] in H;
                 prim_cbv_in H
             | context [instanceofGitError ?t] =>
                 is_var t; destruct t;
                 cbn [instanceofError instanceofGitError thrown_message andb] in H;
                 prim_cbv_in H
             | context [includes ?a ?b] =>
                 destruct (includes a b); prim_cbv_in H
             | context [match ?x with Some _ => _ | None => _ end] =>
                 destruct x; prim_cbv_in H
             end);
  inversion H; subst; eauto.

Lemma getLatestCommitOfBranch_error_class repoName branchName h e h' :
  run (getLatestCommitOfBranch repoName branchName) h = (err e, h') ->
  exists m, e = GitFileSystemError m.
Proof. unfold run. prim_cbv. intros H. classify_by_cases H. Qed.

Lemma getFilePathStats_error_class repoName filePath isStaging h e h' :
  run (getFilePathStats repoName filePath isStaging) h = (err e, h') ->
  e = NotFoundError "File/Directory does not exist"
  \/ exists m, e = GitFileSystemError m.
Proof. unfold run. prim_cbv. intros H. classify_by_cases H. Qed.

Lemma getGitBlobHash_error_class repoName filePath isStaging h e h' :
  run (getGitBlobHash repoName filePath isStaging) h = (err e, h') ->
  exists m, e = GitFileSystemError m.
Proof. unfold run. prim_cbv. intros H. classify_by_cases H. Qed.

Lemma expectAbsent_error_class repoName path branchName h e h' :
  run (expectAbsent repoName path branchName) h = (err e, h') ->
  e = ConflictError "File path already exists"
  \/ exists m, e = GitFileSystemError m.
Proof. unfold run. prim_cbv. intros H. classify_by_cases H. Qed.

(** *** Exploring the paths of a chain *)

(** Combinators and promises unfolded, the named operations kept. *)
Ltac mid_cbv :=
  cbv beta iota zeta delta
    [seq andThen orElse map widen okAsync errAsync assignOldStateSha
     fst snd trace oldStateSha rollbackIfNeeded isNeedsRollbackError
     isNotFoundError fromPromise thenTask perform forget];
  cbn [negb].

Ltac classify E :=
  first
    [ destruct (getLatestCommitOfBranch_error_class _ _ _ _ _ E) as [? ->]
    | destruct (getFilePathStats_error_class _ _ _ _ _ _ E) as [-> | [? ->]]
    | destruct (getGitBlobHash_error_class _ _ _ _ _ _ E) as [? ->]
    | destruct (expectAbsent_error_class _ _ _ _ _ _ E) as [-> | [? ->]]
    | idtac ].

(** The history after a run is the history before it, extended. *)
Ltac note_growth E :=
  match type of E with
  | run ?m ?h = (?r, ?h') =>
      let G := fresh "G" in
      first
        [ assert (G : issues isReadOnly m) by chain_auto
        | assert (G : issues (fun _ => true) m) by chain_auto ];
      destruct (run_issues _ m h r h' G E) as (? & -> & ?);
      clear G
  end.

Ltac explore_step :=
  first
    [ match goal with
      | |- context [?m {| trace := ?h; oldStateSha := ?v |}] =>
          rewrite (varfree_at m v h ltac:(chain_auto));
          let E := fresh "Erun" in
          destruct (run m h) as [[?|?] ?] eqn:E;
          [note_growth E | note_growth E; classify E];
          mid_cbv
      end
    | match goal with
      | |- context [match env ?h ?c with Resolved _ => _ | Rejected _ => _ end] =>
          let E := fresh "Eenv" in
          destruct (env h c) eqn:E; mid_cbv
      end
    | match goal with
      | |- context [(if ?b then _ else _) {| trace := _; oldStateSha := _ |}] =>
          destruct b eqn:?; mid_cbv
      end
    | match goal with
      | |- context [match (if ?b then _ else _) with
                    | GitFileSystemNeedsRollbackError _ => _
                    | _ => _
                    end] =>
          destruct b eqn:?; mid_cbv
      end
    | match goal with
      | |- context [match (if ?b then _ else _) with
                    | NotFoundError _ => _
                    | _ => _
                    end] =>
          destruct b eqn:?; mid_cbv
      end
    | match goal with
      | |- context [match ?e with
                    | GitFileSystemNeedsRollbackError _ => _
                    | _ => _
                    end] =>
          is_var e; destruct e; mid_cbv
      end ].

Ltac explore := mid_cbv; repeat explore_step.

(** A history that grew by calls of which one changes the disk. *)
Ltac solve_mutated :=
  repeat rewrite <- app_assoc;
  eexists; split; [reflexivity|];
  rewrite ?existsb_app; cbn [existsb isDiskMutation orb];
  repeat rewrite orb_true_r; reflexivity.

(** *** What a rollback-class failure of each chain tells *)

Ltac solve_ready :=
  intros Hleaf; inversion Hleaf; subst; clear Hleaf;
  split; [eauto | cbn [trace]; solve_mutated].

Lemma create_chain_needs_rollback
  repoName userId content directoryName fileName encoding branchName h m s1 :
  create_chain repoName userId content directoryName fileName encoding branchName
    {| trace := h; oldStateSha := "" |}
  = (err (GitFileSystemNeedsRollbackError m), s1) ->
  rollbackReady repoName branchName h s1.
Proof.
  unfold create_chain, rollbackReady. explore; try discriminate; solve_ready.
Qed.

Lemma update_chain_needs_rollback
  repoName filePath fileContent oldSha userId branchName h m s1 :
  update_chain repoName filePath fileContent oldSha userId branchName
    {| trace := h; oldStateSha := "" |}
  = (err (GitFileSystemNeedsRollbackError m), s1) ->
  rollbackReady repoName branchName h s1.
Proof.
  unfold update_chain, rollbackReady. explore; try discriminate; solve_ready.
Qed.

Lemma delete_chain_needs_rollback
  repoName path oldSha userId isDir branchName h m s1 :
  delete_chain repoName path oldSha userId isDir branchName
    {| trace := h; oldStateSha := "" |}
  = (err (GitFileSystemNeedsRollbackError m), s1) ->
  rollbackReady repoName branchName h s1.
Proof.
  unfold delete_chain, rollbackReady. explore; try discriminate; solve_ready.
Qed.

Lemma renameSinglePath_chain_needs_rollback
  repoName oldPath newPath userId branchName message h m s1 :
  renameSinglePath_chain repoName oldPath newPath userId branchName message
    {| trace := h; oldStateSha := "" |}
  = (err (GitFileSystemNeedsRollbackError m), s1) ->
  rollbackReady repoName branchName h s1.
Proof.
  unfold renameSinglePath_chain, rollbackReady.
  explore; try discriminate; solve_ready.
Qed.

Lemma moveFiles_chain_needs_rollback
  repoName oldPath newPath userId targetFiles branchName message h m s1 :
  moveFiles_chain repoName oldPath newPath userId targetFiles branchName message
    {| trace := h; oldStateSha := "" |}
  = (err (GitFileSystemNeedsRollbackError m), s1) ->
  rollbackReady repoName branchName h s1.
Proof.
  unfold moveFiles_chain, rollbackReady. explore; try discriminate; solve_ready.
Qed.

Lemma chainOf_needs_rollback op h m s1 :
  chainOf op {| trace := h; oldStateSha := "" |}
  = (err (GitFileSystemNeedsRollbackError m), s1) ->
  rollbackReady (repoNameOf op) (branchNameOf op) h s1.
Proof.
  destruct op; cbn [chainOf repoNameOf branchNameOf]; unfold forget, map;
    match goal with
    | |- context [?chain {| trace := h; oldStateSha := "" |}] =>
        destruct (chain {| trace := h; oldStateSha := "" |}) as [[v|e] s'] eqn:Echain
    end;
    intros H; inversion H; subst;
    eauto using create_chain_needs_rollback, update_chain_needs_rollback,
      delete_chain_needs_rollback, renameSinglePath_chain_needs_rollback,
      moveFiles_chain_needs_rollback.
Qed.

(** No chain resets or cleans by itself. *)
Lemma chainOf_never_rolls_back op :
  issues (fun c => negb (isRollbackCall c)) (chainOf op).
Proof. destruct op; cbn [chainOf]; chain_auto. Qed.

(** *** The closing [orElse] *)

Lemma rollbackIfNeeded_plain {T} repoName branchName e s :
  isNeedsRollbackError e = false ->
  rollbackIfNeeded (T := T) repoName branchName e s = (err e, s).
Proof. intros H. unfold rollbackIfNeeded. rewrite H. reflexivity. Qed.

Lemma rollbackIfNeeded_runs {T} repoName branchName m h sha :
  let cwd := getEfsVolPathFromBranch branchName ++ "/" ++ repoName in
  let reset := GitReset cwd ["--hard"; sha] in
  let clean := GitClean cwd "fd" in
  rollbackIfNeeded (T := T) repoName branchName (GitFileSystemNeedsRollbackError m)
    {| trace := h; oldStateSha := sha |}
  = match env h reset with
    | Rejected reason =>
        (err (rollbackFailure reason),
         {| trace := (h ++ [reset])%list; oldStateSha := sha |})
    | Resolved _ =>
        match env (h ++ [reset])%list clean with
        | Rejected reason =>
            (err (rollbackFailure reason),
             {| trace := (h ++ [reset; clean])%list; oldStateSha := sha |})
        | Resolved _ =>
            (err (GitFileSystemError m),
             {| trace := (h ++ [reset; clean])%list; oldStateSha := sha |})
        end
    end.
Proof.
  intros cwd reset clean. unfold rollbackIfNeeded, rollback. prim_cbv.
  fold cwd. change (CleanOptions_FORCE ++ CleanOptions_RECURSIVE) with "fd".
  fold reset. fold clean.
  destruct (env h reset); [|reflexivity].
  rewrite <- app_assoc. cbn [app].
  destruct (env (h ++ [reset])%list clean); reflexivity.
Qed.

Lemma execute_unfold op s :
  execute op s
  = orElse (rollbackIfNeeded (repoNameOf op) (branchNameOf op)) (chainOf op) s.
Proof.
  destruct op; cbn [execute chainOf repoNameOf branchNameOf];
    unfold create, update, delete, renameSinglePath, moveFiles, forget, orElse, map;
    match goal with
    | |- context [?chain s] =>
        match type of chain with
        | ResultAsync _ _ => destruct (chain s) as [[v|e] [h1 sha]]
        end
    end;
    try reflexivity;
    (destruct e;
     try reflexivity;
     rewrite !rollbackIfNeeded_runs;
     repeat match goal with
            | |- context [match env ?hh ?c with Resolved _ => _ | Rejected _ => _ end]
              => destruct (env hh c)
            end; reflexivity).
Qed.

Lemma run_execute op h :
  run (execute op) h
  = run (orElse (rollbackIfNeeded (repoNameOf op) (branchNameOf op)) (chainOf op)) h.
Proof. unfold run. rewrite execute_unfold. reflexivity. Qed.

Lemma forallb_existsb_negb {A} (p : A -> bool) (l : list A) :
  forallb (fun x => negb (p x)) l = true -> existsb p l = false.
Proof.
  induction l as [|x l IH]; cbn; [reflexivity|].
  intros H. apply andb_true_iff in H. destruct H as [Hx Hl].
  apply negb_true_iff in Hx. rewrite Hx, IH; auto.
Qed.

(** C1, as the code has it.  For each of [create], [update], [delete],
    [renameSinglePath] and [moveFiles]:
    - a failure reached before any call that changes the disk is the failure
      of the chain itself, returned as it is, and neither [git reset] nor
      [git clean] has run;
    - a rollback-class failure of the chain comes after a call that changes
      the disk, and is followed by [git reset --hard] to the SHA of the
      latest commit read when the operation started, and by [git clean] when
      that reset succeeded; when both succeed the caller gets a
      [GitFileSystemError] with the message of the original failure, and when
      one of them fails the caller gets the [GitFileSystemError] of the
      failed rollback. *)
Theorem rollback_follows_needs_rollback (op : Mutation) (h : list Call) :
  let repoName := repoNameOf op in
  let branchName := branchNameOf op in
  let cwd := getEfsVolPathFromBranch branchName ++ "/" ++ repoName in
  (forall e new,
      run (execute op) h = (err e, (h ++ new)%list) ->
      forallb (fun c => negb (isDiskMutation c)) new = true ->
      run (chainOf op) h = (err e, (h ++ new)%list)
      /\ forallb (fun c => negb (isRollbackCall c)) new = true)
  /\ (forall m h1,
         run (chainOf op) h = (err (GitFileSystemNeedsRollbackError m), h1) ->
         (exists new, h1 = (h ++ new)%list /\ existsb isDiskMutation new = true)
         /\ exists latestCommit h0,
           run (getLatestCommitOfBranch repoName branchName) h = (ok latestCommit, h0)
           /\ let reset := GitReset cwd ["--hard"; GitHubCommitData.sha latestCommit] in
              let clean := GitClean cwd "fd" in
              match env h1 reset with
              | Rejected reason =>
                  run (execute op) h
                  = (err (rollbackFailure reason), (h1 ++ [reset])%list)
              | Resolved _ =>
                  match env (h1 ++ [reset])%list clean with
                  | Rejected reason =>
                      run (execute op) h
                      = (err (rollbackFailure reason), (h1 ++ [reset; clean])%list)
                  | Resolved _ =>
                      run (execute op) h
                      = (err (GitFileSystemError m), (h1 ++ [reset; clean])%list)
                  end
              end).
Proof.
  intros repoName branchName cwd. split.
  - intros e new Hrun Hquiet. rewrite run_execute in Hrun.
    unfold run, orElse in Hrun |- *.
    destruct (chainOf op {| trace := h; oldStateSha := "" |}) as [[v|e0] s1] eqn:Echain;
      [discriminate|].
    destruct (isNeedsRollbackError e0) eqn:Eclass.
    + exfalso. destruct e0; try discriminate.
      destruct (chainOf_needs_rollback _ _ _ _ Echain) as [_ (n1 & Ht & Hm)].
      pose proof (issues_rollbackIfNeeded (T := unit) (fun _ => true)
                    (repoNameOf op) (branchNameOf op)
                    (GitFileSystemNeedsRollbackError message0)
                    (fun _ _ => eq_refl) (fun _ _ => eq_refl) s1) as (n2 & Ht2 & _).
      destruct (rollbackIfNeeded _ _ _ s1) as [r s2]. cbn [snd] in Ht2.
      inversion Hrun as [[Hr Htrace]]. rewrite Ht2, Ht, <- app_assoc in Htrace.
      apply app_inv_head in Htrace. subst new.
      apply forallb_existsb_negb in Hquiet.
      rewrite existsb_app, Hm in Hquiet. discriminate.
    + rewrite rollbackIfNeeded_plain in Hrun by exact Eclass.
      split; [exact Hrun|].
      pose proof (chainOf_never_rolls_back op {| trace := h; oldStateSha := "" |})
        as (n & Ht & Hn).
      rewrite Echain in Ht. cbn [snd trace] in Ht.
      inversion Hrun as [[He Htrace]]. rewrite Ht in Htrace.
      apply app_inv_head in Htrace. subst n. exact Hn.
  - intros m h1 Hchain. unfold run in Hchain.
    destruct (chainOf op {| trace := h; oldStateSha := "" |}) as [r [h1' sha]] eqn:Echain.
    cbn [trace] in Hchain. inversion Hchain; subst. clear Hchain.
    destruct (chainOf_needs_rollback _ _ _ _ Echain)
      as [(latestCommit & h0 & Hlatest & Hsha) Hmutated].
    cbn [oldStateSha] in Hsha. subst sha.
    split; [exact Hmutated|].
    exists latestCommit, h0. split; [exact Hlatest|].
    intros reset clean. rewrite run_execute. unfold run, orElse. rewrite Echain.
    rewrite rollbackIfNeeded_runs. fold repoName branchName cwd reset clean.
    destruct (env h1 reset); [|reflexivity].
    destruct (env (h1 ++ [reset])%list clean); reflexivity.
Qed.

(* ===================================================================== *)
(** ** [create] *)
(* ===================================================================== *)



(* ===================================================================== *)
(** ** File names and their extension *)
(* ===================================================================== *)

Lemma append_assoc (a b c : string) : (a ++ b) ++ c = a ++ (b ++ c).
Proof. induction a as [|x a IH]; cbn; [reflexivity|]. rewrite IH. reflexivity. Qed.

Lemma append_nil_r (a : string) : a ++ "" = a.
Proof. induction a as [|x a IH]; cbn; [reflexivity|]. rewrite IH. reflexivity. Qed.

Lemma length_append (a b : string) :
  String.length (a ++ b) = String.length a + String.length b.
Proof. induction a as [|x a IH]; cbn; [reflexivity|]. rewrite IH. reflexivity. Qed.

Lemma split_not_nil sep s : split sep s <> [].
Proof.
  destruct s as [|c s]; cbn [split]; [discriminate|].
  destruct (Ascii.eqb c sep); [discriminate|].
  destruct (split sep s); discriminate.
Qed.

(** Joining the parts with the separator gives the string back. *)
Lemma concat_split sep s :
  String.concat (String sep EmptyString) (split sep s) = s.
Proof.
  induction s as [|c s IH]; cbn [split]; [reflexivity|].
  destruct (Ascii.eqb_spec c sep) as [->|Hne].
  - pose proof (split_not_nil sep s) as Hnil.
    destruct (split sep s) as [|p ps] eqn:Es; [congruence|].
    cbn [String.concat]. cbn [String.concat] in IH. rewrite IH. reflexivity.
  - pose proof (split_not_nil sep s) as Hnil.
    destruct (split sep s) as [|p ps] eqn:Es; [congruence|].
    destruct ps as [|q qs]; cbn [String.concat] in *; rewrite <- IH; reflexivity.
Qed.

Lemma includes_char_cons sep c s :
  includes (String c s) (String sep EmptyString)
  = Ascii.eqb c sep || includes s (String sep EmptyString).
Proof.
  cbn [includes prefix].
  destruct (ascii_dec sep c) as [->|Hne].
  - rewrite Ascii.eqb_refl. destruct s; reflexivity.
  - destruct (Ascii.eqb_spec c sep) as [->|_]; [congruence|]. reflexivity.
Qed.

(** No part contains the separator. *)
Lemma split_parts_clean sep s :
  Forall (fun part => includes part (String sep EmptyString) = false) (split sep s).
Proof.
  induction s as [|c s IH]; cbn [split].
  - constructor; [reflexivity|constructor].
  - destruct (Ascii.eqb_spec c sep) as [->|Hne].
    + constructor; [reflexivity|exact IH].
    + destruct (split sep s) as [|p ps]; [repeat constructor|].
      * rewrite includes_char_cons.
        destruct (Ascii.eqb_spec c sep); [congruence|reflexivity].
      * inversion IH; subst. constructor; [|assumption].
        rewrite includes_char_cons.
        destruct (Ascii.eqb_spec c sep); [congruence|assumption].
Qed.

(** There are several parts exactly when the separator occurs. *)
Lemma split_several sep s :
  (1 <? length (split sep s))%nat = includes s (String sep EmptyString).
Proof.
  induction s as [|c s IH]; [reflexivity|].
  rewrite includes_char_cons. cbn [split].
  pose proof (split_not_nil sep s) as Hnil.
  destruct (Ascii.eqb_spec c sep) as [->|Hne]; cbn [orb].
  - destruct (split sep s) as [|p ps]; [congruence|reflexivity].
  - destruct (split sep s) as [|p ps]; [congruence|]. exact IH.
Qed.

Lemma concat_snoc sep (parts : list string) (final : string) :
  parts <> [] ->
  String.concat sep (parts ++ [final])%list
  = String.concat sep parts ++ sep ++ final.
Proof.
  induction parts as [|p ps IH]; [congruence|]. intros _.
  destruct ps as [|q qs]; [reflexivity|].
  change (String.concat sep ((p :: q :: qs) ++ [final])%list)
    with (p ++ sep ++ String.concat sep ((q :: qs) ++ [final])%list).
  rewrite IH by discriminate.
  change (String.concat sep (p :: q :: qs))
    with (p ++ sep ++ String.concat sep (q :: qs)).
  rewrite !append_assoc. reflexivity.
Qed.

(** X1. [getFileExtension] fails exactly on the names without a dot; on any
    other name it returns what follows the last dot: the name is a stem, a
    dot and the extension, and the extension holds no dot. *)
Theorem getFileExtension_after_last_dot fileName :
  (includes fileName "." = false ->
   getFileExtension fileName = err (MediaTypeError "Unable to find file extension"))
  /\ (includes fileName "." = true ->
      exists stem extension,
        getFileExtension fileName = ok extension
        /\ fileName = stem ++ "." ++ extension
        /\ includes extension "." = false).
Proof.
  unfold getFileExtension. rewrite (split_several "."%char fileName).
  split; intros Hdot; rewrite Hdot; [reflexivity|].
  pose proof (split_not_nil "."%char fileName) as Hnil.
  pose proof (concat_split "."%char fileName) as Hjoin.
  pose proof (split_parts_clean "."%char fileName) as Hclean.
  pose proof (split_several "."%char fileName) as Hlen. rewrite Hdot in Hlen.
  destruct (exists_last Hnil) as (parts & extension & Eparts).
  rewrite Eparts in *.
  assert (Hparts : parts <> []).
  { destruct parts; [discriminate Hlen|discriminate]. }
  exists (String.concat "." parts), extension. split; [|split].
  - f_equal. rewrite length_app. cbn [length].
    replace (length parts + 1 - 1) with (length parts) by lia.
    rewrite nth_middle. reflexivity.
  - rewrite <- Hjoin. apply concat_snoc, Hparts.
  - rewrite Forall_app in Hclean. destruct Hclean as [_ Hlast].
    inversion Hlast; assumption.
Qed.

(* ===================================================================== *)
(** ** Reading and validating: further properties *)
(* ===================================================================== *)

(** X2. [read] always issues two calls, the read of the file and then the
    blob hash lookup, both in the staging working tree.  A missing file is a
    [NotFoundError] whatever Git answers; with the file read, a failed lookup
    is a [GitFileSystemError]; content and SHA come back when both succeed. *)
Theorem read_reads_then_looks_up repoName filePath encoding h :
  let readFile :=
    FsReadFile (EFS_VOL_PATH_STAGING ++ "/" ++ repoName ++ "/" ++ filePath) encoding in
  let lookup :=
    GitRevparse (EFS_VOL_PATH_STAGING ++ "/" ++ repoName) ["HEAD:" ++ filePath] in
  snd (run (read repoName filePath encoding) h) = (h ++ [readFile; lookup])%list
  /\ (forall reason,
         env h readFile = Rejected reason ->
         instanceofError reason && includes (thrown_message reason) "ENOENT" = true ->
         fst (run (read repoName filePath encoding) h)
         = err (NotFoundError "File does not exist"))
  /\ (forall content reason,
         env h readFile = Resolved content ->
         env (h ++ [readFile])%list lookup = Rejected reason ->
         exists m,
           fst (run (read repoName filePath encoding) h) = err (GitFileSystemError m))
  /\ (forall content sha,
         env h readFile = Resolved content ->
         env (h ++ [readFile])%list lookup = Resolved sha ->
         fst (run (read repoName filePath encoding) h) = ok (GitFile.mk content sha)).
Proof.
  intros readFile lookup.
  unfold run, read. prim_cbv. fold readFile. fold lookup.
  split; [|split; [|split]].
  - destruct (env h readFile); destruct (env (h ++ [readFile])%list lookup);
      cbn [snd trace]; rewrite <- app_assoc; reflexivity.
  - intros reason E Hmissing. rewrite E, Hmissing.
    destruct (env (h ++ [readFile])%list lookup); reflexivity.
  - intros content reason E1 E2. rewrite E1, E2. cbn [fst].
    destruct (instanceofGitError reason); eauto.
  - intros content sha E1 E2. rewrite E1, E2. reflexivity.
Qed.

(** X3. [ensureCorrectBranch] asks Git for the current branch and checks the
    expected branch out exactly when the answer differs from it. *)
Theorem ensureCorrectBranch_checks_out_when_needed repoName branchName h current :
  let cwd := getEfsVolPathFromBranch branchName ++ "/" ++ repoName in
  let ask := GitRevparse cwd ["--abbrev-ref"; "HEAD"] in
  let checkout := GitCheckout cwd branchName in
  env h ask = Resolved current ->
  (current = branchName ->
   run (ensureCorrectBranch repoName branchName) h = (ok true, (h ++ [ask])%list))
  /\ (current <> branchName ->
      run (ensureCorrectBranch repoName branchName) h
      = (match env (h ++ [ask])%list checkout with
         | Resolved _ => ok true
         | Rejected reason =>
             err (if instanceofGitError reason
                  then GitFileSystemError "Unable to checkout branch"
                  else GitFileSystemError "An unknown error occurred")
         end, (h ++ [ask; checkout])%list)).
Proof.
  intros cwd ask checkout Hask.
  unfold run, ensureCorrectBranch. prim_cbv. fold cwd. fold ask. rewrite Hask.
  prim_cbv. split.
  - intros ->. rewrite String.eqb_refl. reflexivity.
  - intros Hne. apply String.eqb_neq in Hne. rewrite Hne. prim_cbv.
    fold cwd. fold ask. fold checkout.
    destruct (env (h ++ [ask])%list checkout);
      rewrite <- app_assoc; reflexivity.
Qed.

Lemma prefixed_differs (p s : string) :
  p <> "" -> (p ++ s =? s) = false.
Proof.
  intros Hp. apply String.eqb_neq. intros E.
  apply (f_equal String.length) in E. rewrite length_append in E.
  destruct p; [congruence|]. cbn in E. lia.
Qed.

(** What [getLatestCommitOfBranch] makes of a log. *)
Lemma getLatestCommitOfBranch_run repoName branchName h :
  let local :=
    GitLog (getEfsVolPathFromBranch branchName ++ "/" ++ repoName) [branchName] in
  let remote :=
    GitLog (getEfsVolPathFromBranch ("origin/" ++ branchName) ++ "/" ++ repoName)
      ["origin/" ++ branchName] in
  let answer (log : LogResult) : Result GitHubCommitData.t IsomerError :=
    match latest log with
    | Some c =>
        ok (GitHubCommitData.mk
              (GitHubCommitData.mkAuthor (author_name c) (author_email c) (date c))
              (message c) (hash c))
    | None => err (GitFileSystemError "Unable to retrieve latest commit info from disk")
    end in
  run (getLatestCommitOfBranch repoName branchName) h
  = match env h local with
    | Resolved log => (answer log, (h ++ [local])%list)
    | Rejected _ =>
        match env (h ++ [local])%list remote with
        | Resolved log => (answer log, (h ++ [local; remote])%list)
        | Rejected reason =>
            (err (if instanceofGitError reason
                  then GitFileSystemError "Unable to retrieve branch log info from disk"
                  else GitFileSystemError "An unknown error occurred"),
             (h ++ [local; remote])%list)
        end
    end.
Proof.
  intros local remote answer.
  unfold run. prim_cbv. fold local.
  destruct (env h local) as [log|reason]; prim_cbv.
  - subst answer. cbv beta. destruct (latest log); reflexivity.
  - fold remote.
    destruct (env (h ++ [local])%list remote) as [log|reason2]; prim_cbv;
      rewrite <- app_assoc; cbn [app]; [|reflexivity].
    subst answer. cbv beta. destruct (latest log); reflexivity.
Qed.

(** X4. [getLatestCommitOfBranch] reads the log of the branch and, only when
    that fails, the log of [origin/<branch>]; the SHA returned is the hash of
    the latest entry of the log that was read, and a log without a latest
    entry is an error.  For the staging-lite branch the second log is read in
    the staging working tree. *)
Theorem latest_commit_falls_back_to_origin repoName branchName h :
  let local :=
    GitLog (getEfsVolPathFromBranch branchName ++ "/" ++ repoName) [branchName] in
  let remote :=
    GitLog (getEfsVolPathFromBranch ("origin/" ++ branchName) ++ "/" ++ repoName)
      ["origin/" ++ branchName] in
  (forall log entry,
      env h local = Resolved log -> latest log = Some entry ->
      exists commitData,
        run (getLatestCommitOfBranch repoName branchName) h
        = (ok commitData, (h ++ [local])%list)
        /\ GitHubCommitData.sha commitData = hash entry)
  /\ (forall reason log entry,
         env h local = Rejected reason ->
         env (h ++ [local])%list remote = Resolved log -> latest log = Some entry ->
         exists commitData,
           run (getLatestCommitOfBranch repoName branchName) h
           = (ok commitData, (h ++ [local; remote])%list)
           /\ GitHubCommitData.sha commitData = hash entry)
  /\ (forall log,
         env h local = Resolved log -> latest log = None ->
         run (getLatestCommitOfBranch repoName branchName) h
         = (err (GitFileSystemError "Unable to retrieve latest commit info from disk"),
            (h ++ [local])%list))
  /\ (branchName = STAGING_LITE_BRANCH ->
      remote = GitLog (EFS_VOL_PATH_STAGING ++ "/" ++ repoName)
                 ["origin/" ++ STAGING_LITE_BRANCH]).
Proof.
  intros local remote.
  pose proof (getLatestCommitOfBranch_run repoName branchName h) as Hrun.
  cbv zeta in Hrun. fold local in Hrun. fold remote in Hrun.
  split; [|split; [|split]].
  - intros log entry E Hlatest. rewrite Hrun, E, Hlatest. eexists. split; reflexivity.
  - intros reason log entry E1 E2 Hlatest. rewrite Hrun, E1, E2, Hlatest.
    eexists. split; reflexivity.
  - intros log E Hlatest. rewrite Hrun, E, Hlatest. reflexivity.
  - intros ->. subst remote. unfold getEfsVolPathFromBranch.
    rewrite prefixed_differs by discriminate. reflexivity.
Qed.

(** X5. [isValidGitRepo] stops at the first check that fails and answers
    [false], never an error, when the root is absent or is no directory, when
    Git reports no repository, and when the origin is not the canonical URL;
    a failure of [stat] other than an absent path is an error. *)
Theorem isValidGitRepo_collapses_to_false repoName branchName h :
  let root :=
    FsStat ((if negb (branchName =? STAGING_LITE_BRANCH)
             then EFS_VOL_PATH_STAGING
             else EFS_VOL_PATH_STAGING_LITE) ++ "/" ++ repoName ++ "/" ++ "") in
  let isRepo := GitCheckIsRepo (EFS_VOL_PATH_STAGING ++ "/" ++ repoName) in
  let remote :=
    GitRemote (EFS_VOL_PATH_STAGING ++ "/" ++ repoName) ["get-url"; "origin"] in
  let originUrl :=
    "git@github.com:" ++ ISOMER_GITHUB_ORG_NAME ++ "/" ++ repoName ++ ".git" in
  (forall reason,
      env h root = Rejected reason ->
      run (isValidGitRepo repoName branchName) h
      = (if instanceofError reason && includes (thrown_message reason) "ENOENT"
         then ok false
         else if instanceofError reason
         then err (GitFileSystemError "Unable to read file/directory")
         else err (GitFileSystemError "An unknown error occurred"),
         (h ++ [root])%list))
  /\ (forall stats,
         env h root = Resolved stats -> isDirectory stats = false ->
         run (isValidGitRepo repoName branchName) h = (ok false, (h ++ [root])%list))
  /\ (forall stats,
         env h root = Resolved stats -> isDirectory stats = true ->
         env (h ++ [root])%list isRepo = Resolved false ->
         run (isValidGitRepo repoName branchName) h
         = (ok false, (h ++ [root; isRepo])%list))
  /\ (forall stats url,
         env h root = Resolved stats -> isDirectory stats = true ->
         env (h ++ [root])%list isRepo = Resolved true ->
         env (h ++ [root; isRepo])%list remote = Resolved url ->
         match url with
         | Some text => negb (text =? "") && (trim text =? originUrl)
         | None => false
         end = false ->
         run (isValidGitRepo repoName branchName) h
         = (ok false, (h ++ [root; isRepo; remote])%list)).
Proof.
  intros root isRepo remote originUrl.
  split; [|split; [|split]].
  - intros reason E. unfold run, isValidGitRepo. prim_cbv. fold root. rewrite E.
    prim_cbv.
    destruct (instanceofError reason && includes (thrown_message reason) "ENOENT");
      prim_cbv; [reflexivity|].
    destruct (instanceofError reason); reflexivity.
  - intros stats E Hd. unfold run, isValidGitRepo. prim_cbv. fold root.
    rewrite E. prim_cbv. rewrite Hd. reflexivity.
  - intros stats E Hd E2. unfold run, isValidGitRepo. prim_cbv. fold root.
    rewrite E. prim_cbv. rewrite Hd. prim_cbv. fold isRepo. rewrite E2.
    prim_cbv. rewrite <- app_assoc. reflexivity.
  - intros stats url E Hd E2 E3 Hurl. unfold run, isValidGitRepo. prim_cbv.
    fold root. rewrite E. prim_cbv. rewrite Hd. prim_cbv. fold isRepo.
    rewrite E2. prim_cbv. fold remote.
    replace ((h ++ [root]) ++ [isRepo])%list with (h ++ [root; isRepo])%list
      by (rewrite <- app_assoc; reflexivity).
    rewrite E3. prim_cbv. fold originUrl. rewrite Hurl. prim_cbv.
    rewrite <- app_assoc. reflexivity.
Qed.

(** X21. The operations that read change nothing: [read], [readMediaFile],
    [listDirectoryContents], [getLatestCommitOfBranch], [getGitLog],
    [isValidGitRepo] and [hasGitFileLock] only make calls that read the disk
    or the repository, whatever these answer. *)
Theorem reading_changes_nothing repoName path branchName :
  (forall encoding, issues isReadOnly (read repoName path encoding))
  /\ (forall fileName, issues isReadOnly (readMediaFile repoName path fileName))
  /\ issues isReadOnly (listDirectoryContents repoName path branchName)
  /\ issues isReadOnly (getLatestCommitOfBranch repoName branchName)
  /\ issues isReadOnly (getGitLog repoName branchName)
  /\ issues isReadOnly (isValidGitRepo repoName branchName)
  /\ (forall isStaging, issues isReadOnly (hasGitFileLock repoName isStaging)).
Proof.
  split; [intros; chain_auto|].
  split; [intros; apply issues_readMediaFile|].
  repeat split; intros; chain_auto.
Qed.

(* ===================================================================== *)
(** ** [pull], [push] and [commit]: further properties *)
(* ===================================================================== *)

(** X6. [pull] gives up before [git pull] when the repository is not valid
    or the branch check fails, and returns that failure; [push], whose retry
    catches every failure of its chain, still pushes once after a failed
    branch check.  A [git pull] that succeeds returns the working tree. *)
Theorem pull_gives_up_where_push_retries repoName branchName (isForce : bool) h :
  let cwd := getEfsVolPathFromBranch branchName ++ "/" ++ repoName in
  (forall h1,
      run (isValidGitRepo repoName branchName) h = (ok false, h1) ->
      run (pull repoName branchName) h = (err (notValidGitRepo repoName), h1))
  /\ (forall e h1,
         run (isValidGitRepo repoName branchName) h = (err e, h1) ->
         run (pull repoName branchName) h = (err e, h1))
  /\ (forall h1 e h2,
         run (isValidGitRepo repoName branchName) h = (ok true, h1) ->
         run (ensureCorrectBranch repoName branchName) h1 = (err e, h2) ->
         run (pull repoName branchName) h = (err e, h2)
         /\ snd (run (push repoName branchName isForce) h)
            = (h2 ++ [GitPush cwd (if isForce then ["--force"] else [])])%list)
  /\ (forall h1 onBranch h2 done,
         run (isValidGitRepo repoName branchName) h = (ok true, h1) ->
         run (ensureCorrectBranch repoName branchName) h1 = (ok onBranch, h2) ->
         env h2 (GitPull cwd) = Resolved done ->
         run (pull repoName branchName) h = (ok cwd, (h2 ++ [GitPull cwd])%list)).
Proof.
  intros cwd. split; [|split; [|split]].
  - intros h1 Ev. unfold run at 1. unfold pull. chain_cbv. sub_run. rewrite Ev.
    reflexivity.
  - intros e h1 Ev. unfold run at 1. unfold pull. chain_cbv. sub_run. rewrite Ev.
    reflexivity.
  - intros h1 e h2 Ev Eb. split.
    + unfold run at 1. unfold pull. chain_cbv. sub_run. rewrite Ev. chain_cbv.
      sub_run. rewrite Eb. reflexivity.
    + rewrite (push_after_failed_branch_check repoName branchName isForce
                 h h1 e h2 Ev Eb).
      reflexivity.
  - intros h1 onBranch h2 done Ev Eb Hpull.
    unfold run at 1. unfold pull. chain_cbv. sub_run. rewrite Ev. chain_cbv.
    sub_run. rewrite Eb. prim_cbv. fold cwd. rewrite Hpull. reflexivity.
Qed.

Lemma isCheck_of_isReadOnly l :
  forallb isReadOnly l = true -> forallb isCheck l = true.
Proof.
  apply forallb_weaken. intros c Hc. unfold isCheck. rewrite Hc. reflexivity.
Qed.

Lemma checks_stage_nothing l :
  forallb isCheck l = true ->
  forallb isCommitCall l = true
  /\ existsb isGitAdd l = false
  /\ existsb isGitCommit l = false
  /\ existsb isStaged l = false.
Proof.
  induction l as [|c l IH]; cbn [forallb existsb]; [auto|].
  intros H. apply andb_prop in H. destruct H as [Hc Hl].
  destruct (IH Hl) as (-> & -> & -> & ->).
  unfold isCommitCall, isStaged. rewrite Hc.
  destruct c; cbn in Hc |- *; try discriminate; auto.
Qed.

(** The calls of [commit], and what its result tells about them. *)
Lemma commit_calls
  repoName pathSpec userId message branchName (skipGitAdd : bool) h :
  exists new,
    snd (run (commit repoName pathSpec userId message branchName skipGitAdd) h)
    = (h ++ new)%list
    /\ forallb isCommitCall new = true
    /\ (skipGitAdd = true -> existsb isGitAdd new = false)
    /\ (forall e,
           fst (run (commit repoName pathSpec userId message branchName skipGitAdd) h)
           = err e ->
           isNeedsRollbackError e = existsb isStaged new)
    /\ (forall newSha,
           fst (run (commit repoName pathSpec userId message branchName skipGitAdd) h)
           = ok newSha ->
           existsb isGitCommit new = true).
Proof.
  unfold run at 1 2 3. unfold commit. chain_cbv. sub_run.
  destruct (run (isValidGitRepo repoName branchName) h) as [[[|]|e1] h1] eqn:Ev;
    destruct (run_issues _ _ _ _ _ (issues_isValidGitRepo repoName branchName) Ev)
      as (x & -> & Hx);
    apply isCheck_of_isReadOnly in Hx;
    try (destruct (isValidGitRepo_error_class _ _ _ _ _ Ev) as [m1 ->]);
    chain_cbv.
  2, 3: exists x; destruct (checks_stage_nothing x Hx) as (Ha & Hb & Hc & Hd);
        cbn [fst snd]; repeat split; auto; intros ? E; inversion E; subst;
        cbn [isNeedsRollbackError]; auto.
  destruct ((length pathSpec <? 1)%nat || (2 <? length pathSpec)%nat); chain_cbv.
  { exists x; destruct (checks_stage_nothing x Hx) as (Ha & Hb & Hc & Hd);
      cbn [fst snd]; repeat split; auto; intros ? E; inversion E; subst;
      cbn [isNeedsRollbackError]; auto. }
  sub_run.
  destruct (run (ensureCorrectBranch repoName branchName) (h ++ x)%list)
    as [[b|e2] h2] eqn:Eb;
    destruct (run_issues _ _ _ _ _ (issues_ensureCorrectBranch repoName branchName) Eb)
      as (y & -> & Hy);
    change (forallb isCheck y = true) in Hy;
    try (destruct (ensureCorrectBranch_error_class _ _ _ _ _ Eb) as [m2 ->]);
    assert (Hxy : forallb isCheck (x ++ y) = true)
      by (rewrite forallb_app, Hx, Hy; reflexivity);
    destruct (checks_stage_nothing _ Hxy) as (Ha & Hb & Hc & Hd);
    chain_cbv.
  2: { exists (x ++ y)%list. rewrite app_assoc. cbn [fst snd].
       repeat split; auto; intros ? E; inversion E; subst;
         cbn [isNeedsRollbackError]; auto. }
  destruct skipGitAdd; prim_cbv;
    repeat match goal with
           | |- context [match env ?hh ?c with Resolved _ => _ | Rejected _ => _ end]
             => destruct (env hh c); prim_cbv
           end;
    unfold commitErrorFn;
    repeat match goal with
           | |- context [instanceofGitError ?t] => destruct (instanceofGitError t)
           end;
    cbn [fst snd];
    repeat rewrite <- app_assoc; cbn [app];
    match goal with
    | |- exists new, (h ++ x ++ y ++ ?z)%list = _ /\ _ => exists (x ++ y ++ z)%list
    end;
    (split; [reflexivity|]);
    destruct (checks_stage_nothing x Hx) as (Hax & Hbx & Hcx & Hdx);
    destruct (checks_stage_nothing y Hy) as (Hay & Hby & Hcy & Hdy);
    rewrite ?forallb_app, ?existsb_app, Hax, Hbx, Hcx, Hdx, Hay, Hby, Hcy, Hdy;
    repeat split; auto; try discriminate;
      intros ? E; inversion E; subst; reflexivity.
Qed.

(** X7. [commit] issues checks, [git add] and [git commit] and nothing else,
    and no [git add] when told to skip it.  Its failure is of the rollback
    class exactly when [git add] or [git commit] was reached; a success has
    reached [git commit]. *)
Theorem commit_failure_classes
  repoName pathSpec userId message branchName (skipGitAdd : bool) h result h' :
  run (commit repoName pathSpec userId message branchName skipGitAdd) h = (result, h') ->
  exists new,
    h' = (h ++ new)%list
    /\ forallb isCommitCall new = true
    /\ (skipGitAdd = true -> existsb isGitAdd new = false)
    /\ match result with
       | err e => isNeedsRollbackError e = existsb isStaged new
       | ok _ => existsb isGitCommit new = true
       end.
Proof.
  intros Hrun.
  destruct (commit_calls repoName pathSpec userId message branchName skipGitAdd h)
    as (new & Htrace & Hcalls & Hskip & Herr & Hok).
  rewrite Hrun in Htrace, Herr, Hok. cbn [fst snd] in Htrace, Herr, Hok.
  exists new. split; [exact Htrace|]. split; [exact Hcalls|]. split; [exact Hskip|].
  destruct result as [newSha|e]; [exact (Hok newSha eq_refl)|exact (Herr e eq_refl)].
Qed.

(* ===================================================================== *)
(** ** The mutating operations: further properties *)
(* ===================================================================== *)

Lemma getGitBlobHash_ok repoName filePath isStaging h sha h' :
  let lookup :=
    GitRevparse (getEfsVolPath isStaging ++ "/" ++ repoName) ["HEAD:" ++ filePath] in
  run (getGitBlobHash repoName filePath isStaging) h = (ok sha, h') ->
  env h lookup = Resolved sha /\ h' = (h ++ [lookup])%list.
Proof.
  intros lookup. subst lookup. unfold run, getEfsVolPath. prim_cbv.
  match goal with
  | |- context [match env ?hh ?c with Resolved _ => _ | Rejected _ => _ end] =>
      destruct (env hh c) eqn:E
  end; prim_cbv; intros H; inversion H; subst; split; reflexivity.
Qed.

Lemma commit_ok_commits
  repoName pathSpec userId message branchName (skipGitAdd : bool) h newSha x :
  run (commit repoName pathSpec userId message branchName skipGitAdd) h
  = (ok newSha, (h ++ x)%list) ->
  existsb isGitCommit x = true.
Proof.
  intros E.
  destruct (commit_calls repoName pathSpec userId message branchName skipGitAdd h)
    as (new & Ht & _ & _ & _ & Hok).
  rewrite E in Ht, Hok. cbn [fst snd] in Ht, Hok.
  apply app_inv_head in Ht. subst new. eauto.
Qed.

(** A chain that succeeded has changed the disk and committed. *)
Ltac solve_done :=
  intros Hleaf; inversion Hleaf; subst; clear Hleaf; cbn [trace];
  match goal with
  | E : run (commit _ _ _ _ _ _) _ = (ok _, _) |- _ =>
      let Hc := fresh "Hcommitted" in
      pose proof (commit_ok_commits _ _ _ _ _ _ _ _ _ E) as Hc;
      repeat rewrite <- app_assoc;
      eexists; split; [reflexivity|];
      rewrite ?existsb_app, Hc; cbn [existsb isDiskMutation isGitCommit orb];
      repeat rewrite orb_true_r; split; reflexivity
  end.

Lemma chainOf_ok_done op h done s1 :
  chainOf op {| trace := h; oldStateSha := "" |} = (ok done, s1) ->
  exists new,
    trace s1 = (h ++ new)%list
    /\ existsb isDiskMutation new = true
    /\ existsb isGitCommit new = true.
Proof.
  destruct op; cbn [chainOf]; unfold forget.
  - unfold create_chain. explore; try discriminate; solve_done.
  - unfold update_chain. explore; try discriminate; solve_done.
  - unfold delete_chain. explore; try discriminate; solve_done.
  - unfold renameSinglePath_chain. explore; try discriminate; solve_done.
  - unfold moveFiles_chain. explore; try discriminate; solve_done.
Qed.

(** X8. None of the five mutating operations hands the rollback class to its
    caller; one that succeeds has changed the disk and committed, and has run
    neither [git reset] nor [git clean]. *)
Theorem mutations_hide_the_rollback_class (op : Mutation) (h : list Call) :
  (forall e, fst (run (execute op) h) = err e -> isNeedsRollbackError e = false)
  /\ (forall done h',
         run (execute op) h = (ok done, h') ->
         exists new,
           h' = (h ++ new)%list
           /\ existsb isDiskMutation new = true
           /\ existsb isGitCommit new = true
           /\ existsb isRollbackCall new = false).
Proof.
  split.
  - intros e. rewrite run_execute. unfold run, orElse.
    destruct (chainOf op {| trace := h; oldStateSha := "" |}) as [[v|e0] [h1 sha]];
      [discriminate|].
    destruct e0;
      try (rewrite rollbackIfNeeded_plain by reflexivity;
           intros H; inversion H; reflexivity).
    rewrite rollbackIfNeeded_runs.
    repeat match goal with
           | |- context [match env ?hh ?c with Resolved _ => _ | Rejected _ => _ end]
             => destruct (env hh c)
           end;
      cbn [fst]; intros H; inversion H; subst; try reflexivity;
      unfold rollbackFailure;
      match goal with
      | |- context [instanceofGitError ?t] => destruct (instanceofGitError t)
      end; reflexivity.
  - intros done h'. rewrite run_execute. unfold run, orElse.
    pose proof (chainOf_never_rolls_back op {| trace := h; oldStateSha := "" |})
      as (new & Ht & Hquiet).
    destruct (chainOf op {| trace := h; oldStateSha := "" |}) as [[v|e0] [h1 sha]]
      eqn:Echain.
    2: { destruct (rollbackIfNeeded _ _ e0 _) as [[?|?] ?] eqn:Er; [|discriminate].
         exfalso. revert Er. unfold rollbackIfNeeded.
         destruct (isNeedsRollbackError e0); [|discriminate].
         unfold andThen. destruct (rollback _ _ _ _) as [[?|?] ?]; discriminate. }
    cbn [snd trace] in Ht. subst h1. intros H. inversion H; subst. clear H.
    exists new. split; [reflexivity|].
    apply forallb_existsb_negb in Hquiet.
    destruct (chainOf_ok_done _ _ _ _ Echain) as (new' & Ht & Hm & Hc).
    cbn [trace] in Ht. apply app_inv_head in Ht. subst new'. auto.
Qed.

(** X9. An [update] that succeeds has made read-only checks, of which the
    last is the blob hash lookup in the staging working tree, answered by
    [oldSha]; it has then written the content once, as UTF-8, into the
    working tree of the branch, and committed [filePath] with the base name
    of the file in the message; the SHA returned is the one [commit] gave. *)
Theorem update_success_writes_then_commits
  repoName filePath fileContent oldSha userId branchName h newSha h' :
  let lookup :=
    GitRevparse (EFS_VOL_PATH_STAGING ++ "/" ++ repoName) ["HEAD:" ++ filePath] in
  let write :=
    FsWriteFile
      (getEfsVolPathFromBranch branchName ++ "/" ++ repoName ++ "/" ++ filePath)
      fileContent Utf8 in
  run (update repoName filePath fileContent oldSha userId branchName) h
  = (ok newSha, h') ->
  exists checks,
    forallb isReadOnly checks = true
    /\ env (h ++ checks)%list lookup = Resolved oldSha
    /\ run (commit repoName [filePath] userId
              ("Update file: " ++ pop (split "/" filePath)) branchName false)
         (h ++ checks ++ [lookup; write])%list
       = (ok newSha, h').
Proof.
  intros lookup write. unfold run at 1. unfold update, update_chain.
  explore; try discriminate; intros Hleaf; inversion Hleaf; subst; clear Hleaf.
  match goal with
  | E : run (getGitBlobHash _ _ _) _ = _ |- _ =>
      destruct (getGitBlobHash_ok _ _ _ _ _ _ E) as [Hlookup Hgrown]
  end.
  apply app_inv_head in Hgrown. subst. unfold getEfsVolPath in Hlookup.
  match goal with
  | Hsame : negb (_ =? oldSha) = false |- _ =>
      apply negb_false_iff, String.eqb_eq in Hsame; subst
  end.
  match goal with
  | Hx : forallb isReadOnly ?x = true, Hy : forallb isReadOnly ?y = true,
    Hl : env ((h ++ ?x) ++ ?y)%list _ = _ |- _ =>
      exists (x ++ y)%list; split; [rewrite forallb_app, Hx, Hy; reflexivity|]
  end.
  split; [rewrite app_assoc; exact Hlookup|].
  match goal with
  | E : run (commit _ _ _ _ _ _) _ = _ |- _ =>
      repeat rewrite <- app_assoc in E; cbn [app] in E
  end.
  repeat rewrite <- app_assoc. cbn [app]. assumption.
Qed.

(** X10. [delete] fails on a path of the other kind after read-only calls
    alone.  When it succeeds it has made read-only checks, the last of them
    the blob hash lookup answered by [oldSha] for a file, has removed the
    path, recursively and by force exactly for a directory, and has
    committed [path]. *)
Theorem delete_checks_kind_then_removes
  repoName path oldSha userId (isDir : bool) branchName h :
  let isStaging := negb (branchName =? STAGING_LITE_BRANCH) in
  let lookup :=
    GitRevparse (EFS_VOL_PATH_STAGING ++ "/" ++ repoName) ["HEAD:" ++ path] in
  let remove :=
    FsRm (getEfsVolPathFromBranch branchName ++ "/" ++ repoName ++ "/" ++ path) isDir in
  (forall latestCommit h1 stats h2,
      run (getLatestCommitOfBranch repoName branchName) h = (ok latestCommit, h1) ->
      GitHubCommitData.sha latestCommit <> "" ->
      run (getFilePathStats repoName path isStaging) h1 = (ok stats, h2) ->
      (if isDir then isDirectory stats else isFile stats) = false ->
      run (delete repoName path oldSha userId isDir branchName) h
      = (err (GitFileSystemError
                (if isDir
                 then "Path " ++ dq ++ path ++ dq
                      ++ " is not a valid directory in repo " ++ dq ++ repoName ++ dq
                 else "Path " ++ dq ++ path ++ dq
                      ++ " is not a valid file in repo " ++ dq ++ repoName ++ dq)),
         h2)
      /\ exists new, h2 = (h ++ new)%list /\ forallb isReadOnly new = true)
  /\ (forall newSha h',
         run (delete repoName path oldSha userId isDir branchName) h = (ok newSha, h') ->
         exists checks,
           forallb isReadOnly checks = true
           /\ (isDir = false ->
               exists before,
                 checks = (before ++ [lookup])%list
                 /\ env (h ++ before)%list lookup = Resolved oldSha)
           /\ run (commit repoName [path] userId
                     ("Delete "
                      ++ (if isDir then "directory: " ++ path
                          else "file: " ++ pop (split "/" path)))
                     branchName false)
                (h ++ checks ++ [remove])%list
              = (ok newSha, h')).
Proof.
  intros isStaging lookup remove. split.
  - intros latestCommit h1 stats h2 E1 Hsha E2 Hkind. split.
    + unfold run at 1. unfold delete, delete_chain. chain_cbv.
      sub_run. rewrite E1. chain_cbv.
      apply String.eqb_neq in Hsha. rewrite Hsha. chain_cbv.
      sub_run. fold isStaging. rewrite E2. chain_cbv.
      destruct isDir; rewrite Hkind; reflexivity.
    + destruct (run_issues _ _ _ _ _
                  (issues_getLatestCommitOfBranch repoName branchName) E1)
        as (n1 & -> & F1).
      destruct (run_issues _ _ _ _ _
                  (issues_getFilePathStats repoName path isStaging) E2)
        as (n2 & -> & F2).
      exists (n1 ++ n2)%list. rewrite app_assoc, forallb_app, F1, F2. auto.
  - intros newSha h'. unfold run at 1. unfold delete, delete_chain.
    destruct isDir;
      explore; try discriminate; intros Hleaf; inversion Hleaf; subst; clear Hleaf.
    + match goal with
      | Hx : forallb isReadOnly ?x = true, Hy : forallb isReadOnly ?y = true,
        E : run (commit _ _ _ _ _ _) _ = _ |- _ =>
          exists (x ++ y)%list; split; [rewrite forallb_app, Hx, Hy; reflexivity|];
          split; [discriminate|];
          repeat rewrite <- app_assoc in E; cbn [app] in E;
          repeat rewrite <- app_assoc; cbn [app]; exact E
      end.
    + match goal with
      | E : run (getGitBlobHash _ _ _) _ = _ |- _ =>
          destruct (getGitBlobHash_ok _ _ _ _ _ _ E) as [Hlookup Hgrown]
      end.
      apply app_inv_head in Hgrown. subst. unfold getEfsVolPath in Hlookup.
      match goal with
      | Hsame : negb (_ =? oldSha) = false |- _ =>
          apply negb_false_iff, String.eqb_eq in Hsame; subst
      end.
      match goal with
      | Hx : forallb isReadOnly ?x = true, Hy : forallb isReadOnly ?y = true,
        Hl : env ((h ++ ?x) ++ ?y)%list _ = _,
        E : run (commit _ _ _ _ _ _) _ = _ |- _ =>
          exists ((x ++ y) ++ [lookup])%list;
          split; [rewrite !forallb_app, Hx, Hy; reflexivity|];
          split; [intros _; exists (x ++ y)%list; split;
                  [reflexivity | rewrite app_assoc; exact Hl]|];
          repeat rewrite <- app_assoc in E; cbn [app] in E;
          repeat rewrite <- app_assoc; cbn [app]; exact E
      end.
Qed.

(** X11. [renameSinglePath] moves with [git mv]: it never stages with
    [git add] and never writes, renames or removes through the file system.
    A failed look at the old path is returned as it is, an existing new path
    is a [ConflictError], and a success has run [git mv] of the two paths
    after read-only checks and committed both paths without [git add], under
    the message given or, when that is absent or empty, the default one. *)
Theorem renameSinglePath_moves_with_git
  repoName oldPath newPath userId branchName message h :
  let isStaging := negb (branchName =? STAGING_LITE_BRANCH) in
  let cwd := getEfsVolPathFromBranch branchName ++ "/" ++ repoName in
  (exists new,
      snd (run (renameSinglePath repoName oldPath newPath userId branchName message) h)
      = (h ++ new)%list
      /\ forallb isRenameCall new = true)
  /\ (forall latestCommit h1 e h2,
         run (getLatestCommitOfBranch repoName branchName) h = (ok latestCommit, h1) ->
         run (getFilePathStats repoName oldPath isStaging) h1 = (err e, h2) ->
         run (renameSinglePath repoName oldPath newPath userId branchName message) h
         = (err e, h2))
  /\ (forall latestCommit h1 oldStats h2 newStats h3,
         run (getLatestCommitOfBranch repoName branchName) h = (ok latestCommit, h1) ->
         run (getFilePathStats repoName oldPath isStaging) h1 = (ok oldStats, h2) ->
         run (getFilePathStats repoName newPath isStaging) h2 = (ok newStats, h3) ->
         run (renameSinglePath repoName oldPath newPath userId branchName message) h
         = (err (ConflictError "File path already exists"), h3))
  /\ (forall newSha h',
         run (renameSinglePath repoName oldPath newPath userId branchName message) h
         = (ok newSha, h') ->
         exists checks,
           forallb isReadOnly checks = true
           /\ run (commit repoName [oldPath; newPath] userId
                     (orDefault message ("Renamed " ++ oldPath ++ " to " ++ newPath))
                     branchName true)
                (h ++ checks ++ [GitMv cwd oldPath newPath])%list
              = (ok newSha, h')).
Proof.
  intros isStaging cwd. split; [|split; [|split]].
  - apply issues_run. chain_auto.
  - intros latestCommit h1 e h2 E1 E2.
    destruct (getFilePathStats_error_class _ _ _ _ _ _ E2) as [-> | [m ->]];
      unfold run at 1; unfold renameSinglePath, renameSinglePath_chain; chain_cbv;
      sub_run; rewrite E1; chain_cbv; sub_run; fold isStaging; rewrite E2;
      reflexivity.
  - intros latestCommit h1 oldStats h2 newStats h3 E1 E2 E3.
    unfold run at 1. unfold renameSinglePath, renameSinglePath_chain. chain_cbv.
    sub_run. rewrite E1. chain_cbv. sub_run. fold isStaging. rewrite E2. chain_cbv.
    unfold expectAbsent. chain_cbv. sub_run. fold isStaging. rewrite E3. reflexivity.
  - intros newSha h'. unfold run at 1. unfold renameSinglePath, renameSinglePath_chain.
    explore; try discriminate; intros Hleaf; inversion Hleaf; subst; clear Hleaf.
    match goal with
    | Hx : forallb isReadOnly ?x = true, Hy : forallb isReadOnly ?y = true,
      Hz : forallb isReadOnly ?z = true,
      E : run (commit _ _ _ _ _ _) _ = _ |- _ =>
        exists (x ++ y ++ z)%list;
        split; [rewrite !forallb_app, Hx, Hy, Hz; reflexivity|];
        repeat rewrite <- app_assoc in E; cbn [app] in E;
        repeat rewrite <- app_assoc; cbn [app]; exact E
    end.
Qed.

Lemma volume_of_branch branchName :
  (if negb (branchName =? STAGING_LITE_BRANCH)
   then EFS_VOL_PATH_STAGING
   else EFS_VOL_PATH_STAGING_LITE)
  = getEfsVolPathFromBranch branchName.
Proof.
  unfold getEfsVolPathFromBranch. destruct (branchName =? STAGING_LITE_BRANCH);
    reflexivity.
Qed.

(** Every target of [moveFiles] is looked at, whatever happened to the
    targets before it, and renamed when it is absent from its new place. *)
Lemma moveOneFile_calls repoName oldPath newPath branchName targetFile s :
  exists new,
    trace (snd (moveOneFile repoName oldPath newPath branchName targetFile s))
    = (trace s ++ new)%list
    /\ forallb isMoveCall new = true
    /\ movedIfAbsent repoName oldPath newPath branchName (trace s) new targetFile.
Proof.
  destruct s as [h v]. unfold moveOneFile, movedIfAbsent. prim_cbv.
  rewrite volume_of_branch.
  match goal with
  | |- context [match env ?hh ?c with Resolved _ => _ | Rejected _ => _ end] =>
      destruct (env hh c) as [stats|reason] eqn:Estat
  end; prim_cbv.
  - eexists. split; [reflexivity|]. split; [reflexivity|].
    exists [], []. split; [reflexivity|].
    intros reason Hr. rewrite app_nil_r, Estat in Hr. discriminate.
  - destruct (instanceofError reason && includes (thrown_message reason) "ENOENT")
      eqn:Eabsent; prim_cbv.
    + match goal with
      | |- context [match env ?hh ?c with Resolved _ => _ | Rejected _ => _ end] =>
          destruct (env hh c)
      end; prim_cbv;
        rewrite <- app_assoc; cbn [app];
        (eexists; split; [reflexivity|]; split; [reflexivity|];
         eexists [], _; split; [reflexivity|]; intros; left; reflexivity).
    + destruct (instanceofError reason) eqn:Eerror; prim_cbv;
        (eexists; split; [reflexivity|]; split; [reflexivity|];
         exists [], []; split; [reflexivity|];
         intros reason' Hr Habsent; rewrite app_nil_r, Estat in Hr;
         inversion Hr; subst; rewrite Eerror in Habsent; congruence).
Qed.

Lemma movedIfAbsent_later repoName oldPath newPath branchName past first moves
  targetFile :
  movedIfAbsent repoName oldPath newPath branchName (past ++ first)%list moves
    targetFile ->
  movedIfAbsent repoName oldPath newPath branchName past (first ++ moves)%list
    targetFile.
Proof.
  unfold movedIfAbsent. intros (before & after & -> & Hrename).
  exists (first ++ before)%list, after. split; [rewrite app_assoc; reflexivity|].
  intros reason Hr. apply Hrename. rewrite <- app_assoc. exact Hr.
Qed.

Lemma movedIfAbsent_sooner repoName oldPath newPath branchName past moves later
  targetFile :
  movedIfAbsent repoName oldPath newPath branchName past moves targetFile ->
  movedIfAbsent repoName oldPath newPath branchName past (moves ++ later)%list
    targetFile.
Proof.
  unfold movedIfAbsent. intros (before & after & -> & Hrename).
  exists before, (after ++ later)%list.
  split; [rewrite <- app_assoc; reflexivity|].
  intros reason Hr Habsent. apply in_or_app. left. exact (Hrename reason Hr Habsent).
Qed.

Lemma moveFiles_targets repoName oldPath newPath branchName targetFiles s :
  exists new,
    trace (snd (runAll (List.map (moveOneFile repoName oldPath newPath branchName)
                          targetFiles) s))
    = (trace s ++ new)%list
    /\ forallb isMoveCall new = true
    /\ Forall (movedIfAbsent repoName oldPath newPath branchName (trace s) new)
         targetFiles.
Proof.
  revert s. induction targetFiles as [|targetFile rest IH]; intros s; cbn [List.map runAll].
  - exists []. rewrite app_nil_r. auto.
  - destruct (moveOneFile_calls repoName oldPath newPath branchName targetFile s)
      as (n1 & T1 & F1 & I1).
    destruct (moveOneFile repoName oldPath newPath branchName targetFile s) as [r s1].
    destruct (IH s1) as (n2 & T2 & F2 & I2).
    destruct (runAll _ s1) as [rs s2]. cbn [snd] in *.
    exists (n1 ++ n2)%list. rewrite T2, T1, app_assoc, forallb_app, F1, F2.
    repeat split; auto. constructor.
    + apply movedIfAbsent_sooner. exact I1.
    + eapply Forall_impl; [|exact I2]. intros f Hf.
      apply movedIfAbsent_later. rewrite <- T1. exact Hf.
Qed.

Lemma moveFiles_targets_run repoName oldPath newPath branchName targetFiles h r h' :
  run (combine (List.map (moveOneFile repoName oldPath newPath branchName) targetFiles)) h
  = (r, h') ->
  exists new,
    h' = (h ++ new)%list
    /\ forallb isMoveCall new = true
    /\ Forall (movedIfAbsent repoName oldPath newPath branchName h new) targetFiles.
Proof.
  unfold run, combine.
  destruct (moveFiles_targets repoName oldPath newPath branchName targetFiles
              {| trace := h; oldStateSha := "" |}) as (new & T & F & I).
  destruct (runAll _ _) as [rs s1]. cbn [snd trace] in T, I.
  intros H. inversion H; subst. eauto.
Qed.

Lemma rollback_error_class repoName commitSha branchName h e h' :
  run (rollback repoName commitSha branchName) h = (err e, h') ->
  exists m, e = GitFileSystemError m.
Proof. unfold run, rollback. prim_cbv. intros H. classify_by_cases H. Qed.

Lemma commit_error_class
  repoName pathSpec userId message branchName (skipGitAdd : bool) h e h' :
  run (commit repoName pathSpec userId message branchName skipGitAdd) h = (err e, h') ->
  (exists m, e = GitFileSystemError m)
  \/ (exists m, e = GitFileSystemNeedsRollbackError m).
Proof.
  unfold run at 1. unfold commit, notValidGitRepo. chain_cbv. sub_run.
  destruct (run (isValidGitRepo repoName branchName) h) as [[[|]|e1] h1] eqn:Ev;
    try (destruct (isValidGitRepo_error_class _ _ _ _ _ Ev) as [m1 ->]);
    chain_cbv; try (intros H; inversion H; subst; eauto; fail).
  destruct ((length pathSpec <? 1)%nat || (2 <? length pathSpec)%nat); chain_cbv;
    try (intros H; inversion H; subst; eauto; fail).
  sub_run.
  destruct (run (ensureCorrectBranch repoName branchName) h1) as [[b|e2] h2] eqn:Eb;
    try (destruct (ensureCorrectBranch_error_class _ _ _ _ _ Eb) as [m2 ->]);
    chain_cbv; try (intros H; inversion H; subst; eauto; fail).
  destruct skipGitAdd; prim_cbv;
    repeat match goal with
           | |- context [match env ?hh ?c with Resolved _ => _ | Rejected _ => _ end]
             => destruct (env hh c); prim_cbv
           end;
    unfold commitErrorFn;
    repeat match goal with
           | |- context [instanceofGitError ?t] => destruct (instanceofGitError t)
           end;
    intros H; inversion H; subst; eauto.
Qed.

(** No step of a chain but the checks of the targets gives a conflict. *)
Ltac no_conflict :=
  match goal with
  | E : run (rollback _ _ _) _ = (err (ConflictError _), _) |- _ =>
      destruct (rollback_error_class _ _ _ _ _ _ E); discriminate
  | E : run (commit _ _ _ _ _ _) _ = (err (ConflictError _), _) |- _ =>
      destruct (commit_error_class _ _ _ _ _ _ _ _ _ E) as [[? ?]|[? ?]]; discriminate
  | H : (if ?b then _ else _) = ConflictError _ |- _ => destruct b; discriminate
  end.

(** X12. When [moveFiles] ends in a [ConflictError], the destination
    directory has been created, every target has been looked for at its new
    place, and every target found absent there has had its rename issued;
    after the [mkdir] only such looks and renames were made: nothing has been
    reset, cleaned or committed. *)
Theorem moveFiles_conflict_keeps_the_moves
  repoName oldPath newPath userId targetFiles branchName message h m h' :
  let efsVolPath := getEfsVolPathFromBranch branchName in
  let mkdir := FsMkdir (efsVolPath ++ "/" ++ repoName ++ "/" ++ newPath) true in
  run (moveFiles repoName oldPath newPath userId targetFiles branchName message) h
  = (err (ConflictError m), h') ->
  exists checks moves,
    h' = (h ++ checks ++ mkdir :: moves)%list
    /\ forallb isReadOnly checks = true
    /\ forallb isMoveCall moves = true
    /\ Forall (fun targetFile =>
                 In (FsStat (efsVolPath ++ "/" ++ repoName ++ "/" ++ newPath
                             ++ "/" ++ targetFile)) moves)
         targetFiles
    /\ Forall (fun targetFile =>
                 exists before after,
                   moves
                   = (before
                        ++ FsStat (efsVolPath ++ "/" ++ repoName ++ "/" ++ newPath
                                   ++ "/" ++ targetFile) :: after)%list
                   /\ forall reason,
                       env (h ++ checks ++ mkdir :: before)%list
                         (FsStat (efsVolPath ++ "/" ++ repoName ++ "/" ++ newPath
                                  ++ "/" ++ targetFile))
                       = Rejected reason ->
                       instanceofError reason
                       && includes (thrown_message reason) "ENOENT" = true ->
                       In (FsRename
                             (efsVolPath ++ "/" ++ repoName ++ "/" ++ oldPath
                              ++ "/" ++ targetFile)
                             (efsVolPath ++ "/" ++ repoName ++ "/" ++ newPath
                              ++ "/" ++ targetFile))
                          after)
         targetFiles.
Proof.
  intros efsVolPath mkdir. unfold run at 1. unfold moveFiles, moveFiles_chain.
  explore; try discriminate; intros Hleaf; inversion Hleaf; subst; clear Hleaf;
    try no_conflict.
  match goal with
  | E : run (combine _) _ = _ |- _ =>
      destruct (moveFiles_targets_run _ _ _ _ _ _ _ _ E) as (moves & Hgrown & Hm & Hall)
  end.
  apply app_inv_head in Hgrown. subst.
  match goal with
  | Hx : forallb isReadOnly ?x = true, Hy : forallb isReadOnly ?y = true
    |- context [((h ++ ?x) ++ ?y)%list] =>
      exists (x ++ y)%list, moves; split;
      [repeat rewrite <- app_assoc; reflexivity|];
      split; [rewrite forallb_app, Hx, Hy; reflexivity|]
  end.
  split; [assumption|]. split.
  - eapply Forall_impl; [|exact Hall]. cbv beta.
    intros f (before & after & -> & _). apply in_or_app. right. left. reflexivity.
  - eapply Forall_impl; [|exact Hall]. cbv beta.
    intros f (before & after & -> & Hrename). exists before, after.
    split; [reflexivity|]. intros reason Hr. apply Hrename.
    repeat rewrite <- app_assoc in *. cbn [app] in *. exact Hr.
Qed.

(** X20. No mutating operation goes on without the commit to roll back to:
    when the latest commit of the branch cannot be read, the operation ends
    with that failure and has made no other call; [create] and [delete]
    also end, before any other call, when the latest commit has an empty
    SHA. *)
Theorem no_mutation_without_a_rollback_point (h : list Call) :
  (forall op e h1,
      run (getLatestCommitOfBranch (repoNameOf op) (branchNameOf op)) h = (err e, h1) ->
      run (execute op) h = (err e, h1))
  /\ (forall repoName userId content directoryName fileName encoding branchName
             latestCommit h1,
         run (getLatestCommitOfBranch repoName branchName) h = (ok latestCommit, h1) ->
         GitHubCommitData.sha latestCommit = "" ->
         run (create repoName userId content directoryName fileName encoding branchName) h
         = (err (GitFileSystemError "An unknown error occurred"), h1))
  /\ (forall repoName path oldSha userId isDir branchName latestCommit h1,
         run (getLatestCommitOfBranch repoName branchName) h = (ok latestCommit, h1) ->
         GitHubCommitData.sha latestCommit = "" ->
         run (delete repoName path oldSha userId isDir branchName) h
         = (err (GitFileSystemError
                   ("Unable to find latest commit of repo: " ++ repoName
                    ++ " on branch " ++ dq ++ branchName ++ dq)), h1)).
Proof.
  split; [|split].
  - intros op e h1 E.
    destruct (getLatestCommitOfBranch_error_class _ _ _ _ _ E) as [m ->].
    destruct op; cbn [repoNameOf branchNameOf execute] in *;
      unfold run at 1;
      unfold forget, create, create_chain, update, update_chain, delete, delete_chain,
        renameSinglePath, renameSinglePath_chain, moveFiles, moveFiles_chain;
      chain_cbv; sub_run; rewrite E; reflexivity.
  - intros repoName userId content directoryName fileName encoding branchName
      latestCommit h1 E Hsha.
    unfold run at 1. unfold create, create_chain. chain_cbv. sub_run.
    rewrite E. chain_cbv. rewrite Hsha. reflexivity.
  - intros repoName path oldSha userId isDir branchName latestCommit h1 E Hsha.
    unfold run at 1. unfold delete, delete_chain. chain_cbv. sub_run.
    rewrite E. chain_cbv. rewrite Hsha. reflexivity.
Qed.

(* ===================================================================== *)
(** ** Listing and media: further properties *)
(* ===================================================================== *)

Lemma runAll_Forall2 {A T E} (f : A -> ResultAsync T E) (l : list A) s :
  Forall2 (fun a r => exists s0, r = fst (f a s0)) l (fst (runAll (List.map f l) s)).
Proof.
  revert s. induction l as [|a l IH]; intros s; cbn [List.map runAll].
  - constructor.
  - destruct (f a s) as [r s1] eqn:Efa. specialize (IH s1).
    destruct (runAll (List.map f l) s1) as [rs s2]. cbn [fst] in *.
    constructor; [|exact IH]. exists s. rewrite Efa. reflexivity.
Qed.

Lemma Forall2_map_ok {A T E} (P : A -> Result T E -> Prop) (l : list A) (vs : list T) :
  Forall2 P l (List.map ok vs) -> Forall2 (fun a v => P a (ok v)) l vs.
Proof.
  revert l. induction vs as [|v vs IH]; intros l H; inversion H; subst; constructor; auto.
Qed.

(** What an entry that was read says of its directory item. *)
Lemma readDirectoryItem_shape repoName directoryPath branchName directoryItem s item :
  fst (readDirectoryItem repoName directoryPath branchName directoryItem s) = ok item ->
  GitDirectoryItem.name item = dirent_name directoryItem
  /\ GitDirectoryItem.type item
     = (if dirent_isDirectory directoryItem then "dir" else "file")
  /\ GitDirectoryItem.path item = itemPath directoryPath (dirent_name directoryItem)
  /\ (dirent_isDirectory directoryItem = true -> GitDirectoryItem.size item = 0).
Proof.
  destruct s as [h v]. unfold readDirectoryItem, itemPath. prim_cbv.
  repeat match goal with
         | |- context [match env ?hh ?c with Resolved _ => _ | Rejected _ => _ end]
           => destruct (env hh c); prim_cbv
         | |- context [if instanceofError ?t && ?b then _ else _] =>
             destruct (instanceofError t && b); prim_cbv
         | |- context [if instanceofError ?t then _ else _] =>
             destruct (instanceofError t); prim_cbv
         end;
    intros H; inversion H; subst; cbn;
    repeat split; try reflexivity; intros ->; reflexivity.
Qed.

(** X13. A listing that succeeds has asked, after a read-only check, for the
    entries of the directory in the working tree of the branch; it has built
    one item per entry, in the order of the entries, that carries the name of
    the entry, its kind, its path from the root of the repository and size 0
    for a directory, and it returns the items whose SHA is not empty, in that
    order.  Every call it made is read-only. *)
Theorem listing_follows_the_directory
  repoName directoryPath branchName h items h' :
  let readdir :=
    FsReaddir (getEfsVolPathFromBranch branchName ++ "/" ++ repoName ++ "/"
               ++ directoryPath) in
  run (listDirectoryContents repoName directoryPath branchName) h = (ok items, h') ->
  (exists checks directoryContents all,
      forallb isReadOnly checks = true
      /\ env (h ++ checks)%list readdir = Resolved directoryContents
      /\ Forall2
           (fun directoryItem item =>
              GitDirectoryItem.name item = dirent_name directoryItem
              /\ GitDirectoryItem.type item
                 = (if dirent_isDirectory directoryItem then "dir" else "file")
              /\ GitDirectoryItem.path item
                 = itemPath directoryPath (dirent_name directoryItem)
              /\ (dirent_isDirectory directoryItem = true ->
                  GitDirectoryItem.size item = 0))
           directoryContents all
      /\ items = List.filter (fun item => negb (GitDirectoryItem.sha item =? "")) all)
  /\ exists new, h' = (h ++ new)%list /\ forallb isReadOnly new = true.
Proof.
  intros readdir Hrun. split.
  - revert Hrun. unfold run, listDirectoryContents. chain_cbv. sub_run.
    destruct (run (getFilePathStats _ _ _) h) as [[stats|e] h1] eqn:Es; chain_cbv;
      [|discriminate].
    destruct (run_issues _ _ _ _ _ (issues_getFilePathStats _ _ _) Es)
      as (checks & -> & Hchecks).
    destruct (isDirectory stats); chain_cbv; [|discriminate].
    unfold fromPromise, perform. chain_cbv. fold readdir.
    destruct (env (h ++ checks)%list readdir) as [directoryContents|reason] eqn:Er;
      chain_cbv; [|discriminate].
    unfold combine.
    match goal with
    | |- context [runAll (List.map ?f ?l) ?s] =>
        pose proof (runAll_Forall2 f l s) as Hall;
        destruct (runAll (List.map f l) s) as [rs s2]
    end.
    cbn [fst] in Hall. chain_cbv.
    destruct (combineResultList rs) as [all|e] eqn:Ec; chain_cbv; [|discriminate].
    apply combineResultList_ok in Ec. subst rs. apply Forall2_map_ok in Hall.
    intros H. inversion H; subst. clear H.
    exists checks, directoryContents, all. repeat split; auto.
    eapply Forall2_impl; [|exact Hall]. cbv beta.
    intros d item [s0 Hitem]. eapply readDirectoryItem_shape. symmetry. exact Hitem.
  - assert (Hi : issues isReadOnly (listDirectoryContents repoName directoryPath branchName)).
    { unfold listDirectoryContents. chain_auto. }
    exact (run_issues _ _ _ _ _ Hi Hrun).
Qed.

Lemma getFileExtension_by_dot fileName :
  getFileExtension fileName
  = if includes fileName "."
    then ok (List.nth (length (split "." fileName) - 1) (split "." fileName) EmptyString)
    else err (MediaTypeError "Unable to find file extension").
Proof.
  unfold getFileExtension. rewrite (split_several "."%char fileName). reflexivity.
Qed.

(** X14. [readMediaFile] reads the file in base64 before it looks at the
    name: its calls are those of [read], and a failure of [read] is returned
    as it is.  Once the file is read, a name without a dot is a
    [MediaTypeError], and a name with a dot makes the call throw the
    [TypeError] of [getMimeType], whatever the extension: [readMediaFile]
    never returns a media file. *)
Theorem readMediaFile_reads_then_types siteName directoryName fileName h :
  let filePath := directoryName ++ "/" ++ fileName in
  snd (run (readMediaFile siteName directoryName fileName) h)
  = snd (run (read siteName filePath Base64) h)
  /\ (forall e,
         fst (run (read siteName filePath Base64) h) = err e ->
         fst (run (readMediaFile siteName directoryName fileName) h) = Returns (err e))
  /\ (forall file,
         fst (run (read siteName filePath Base64) h) = ok file ->
         (includes fileName "." = false ->
          fst (run (readMediaFile siteName directoryName fileName) h)
          = Returns (err (MediaTypeError "Unable to find file extension")))
         /\ (includes fileName "." = true ->
             exists reason,
               fst (run (readMediaFile siteName directoryName fileName) h)
               = Throws reason
               /\ instanceofError reason = true
               /\ instanceofGitError reason = false))
  /\ (forall output,
         fst (run (readMediaFile siteName directoryName fileName) h)
         <> Returns (ok output)).
Proof.
  intros filePath. unfold run, readMediaFile, andThenMayThrow. fold filePath.
  destruct (read siteName filePath Base64 _) as [[file|e] s1]; cbn [fst snd].
  - rewrite getFileExtension_by_dot.
    destruct (includes fileName ".") eqn:Hdot; rewrite ?getMimeType_throws;
      cbn [errAsync fst snd].
    + split; [reflexivity|]. split; [discriminate|]. split; [|discriminate].
      intros file' Hfile. split; [discriminate|].
      intros _. eexists. repeat split.
    + split; [reflexivity|]. split; [discriminate|]. split; [|discriminate].
      intros file' Hfile. split; [reflexivity|discriminate].
  - split; [reflexivity|]. split; [|split; discriminate].
    intros e' Hsame. inversion Hsame. reflexivity.
Qed.

(* ===================================================================== *)
(** ** The lock file, the guard of the route handlers, the whitelist *)
(* ===================================================================== *)

(** X15. [hasGitFileLock] makes one call, [stat] of [.git/index.lock] in the
    working tree asked for: anything found there is a lock, an absent path is
    no lock, and another failure of [stat] is an error.  The guard
    [handleGitFileLock] looks at the staging working tree alone; it answers
    [true] without calling [next] exactly when the lock is absent, and
    otherwise calls [next] once, with a [LockedError] when the lock is there
    and with the error of the service when [stat] failed. *)
Theorem git_lock_guard repoName h :
  let lockOf (isStaging : bool) :=
    FsStat (getEfsVolPath isStaging ++ "/" ++ repoName ++ "/" ++ ".git/index.lock") in
  let statError (reason : Thrown) :=
    if instanceofError reason
    then GitFileSystemError "Unable to read file/directory"
    else GitFileSystemError "An unknown error occurred" in
  let isAbsent (reason : Thrown) :=
    instanceofError reason && includes (thrown_message reason) "ENOENT" in
  (forall isStaging,
      run (hasGitFileLock repoName isStaging) h
      = (match env h (lockOf isStaging) with
         | Resolved _ => ok true
         | Rejected reason =>
             if isAbsent reason then ok false else err (statError reason)
         end, (h ++ [lockOf isStaging])%list))
  /\ run (handleGitFileLock repoName) h
     = (match env h (lockOf true) with
        | Resolved _ =>
            (false,
             [LockedError
                ("Someone else is currently modifying repo " ++ repoName
                 ++ ". Please try again later.")])
        | Rejected reason =>
            if isAbsent reason then (true, [])
            else (false, [ServiceError (statError reason)])
        end, (h ++ [lockOf true])%list)
  /\ (fst (fst (run (handleGitFileLock repoName) h)) = true
      <-> snd (fst (run (handleGitFileLock repoName) h)) = []).
Proof.
  intros lockOf statError isAbsent.
  assert (Hlock : forall isStaging,
             run (hasGitFileLock repoName isStaging) h
             = (match env h (lockOf isStaging) with
                | Resolved _ => ok true
                | Rejected reason =>
                    if isAbsent reason then ok false else err (statError reason)
                end, (h ++ [lockOf isStaging])%list)).
  { intros isStaging. unfold run, hasGitFileLock, getEfsVolPath. prim_cbv.
    subst lockOf statError isAbsent. unfold getEfsVolPath. cbv beta.
    destruct (env h _) as [stats|reason]; prim_cbv; [reflexivity|].
    destruct (instanceofError reason && includes (thrown_message reason) "ENOENT");
      prim_cbv; [reflexivity|].
    destruct (instanceofError reason); reflexivity. }
  assert (Hguard :
            run (handleGitFileLock repoName) h
            = (match env h (lockOf true) with
               | Resolved _ =>
                   (false,
                    [LockedError
                       ("Someone else is currently modifying repo " ++ repoName
                        ++ ". Please try again later.")])
               | Rejected reason =>
                   if isAbsent reason then (true, [])
                   else (false, [ServiceError (statError reason)])
               end, (h ++ [lockOf true])%list)).
  { specialize (Hlock true). unfold run in Hlock |- *. unfold handleGitFileLock.
    destruct (hasGitFileLock repoName true _) as [result s1].
    inversion Hlock as [[Hresult Htrace]].
    destruct (env h (lockOf true)) as [stats|reason]; [reflexivity|].
    destruct (isAbsent reason); reflexivity. }
  split; [exact Hlock|]. split; [exact Hguard|].
  rewrite Hguard. cbn [fst].
  destruct (env h (lockOf true)) as [stats|reason];
    [|destruct (isAbsent reason)]; cbn [fst snd]; split; (reflexivity || discriminate).
Qed.

Lemma split_after_clean sep (name rest : string) :
  includes name (String sep EmptyString) = false ->
  split sep (name ++ String sep rest) = name :: split sep rest.
Proof.
  induction name as [|c name IH]; intros Hclean.
  - cbn [append split]. rewrite Ascii.eqb_refl. reflexivity.
  - rewrite includes_char_cons in Hclean. apply orb_false_iff in Hclean.
    destruct Hclean as [Hc Hname].
    cbn [append split]. rewrite Hc, (IH Hname). reflexivity.
Qed.

Lemma split_concat sep (names : list string) :
  names <> [] ->
  Forall (fun name => includes name (String sep EmptyString) = false) names ->
  split sep (String.concat (String sep EmptyString) names) = names.
Proof.
  induction names as [|name rest IH]; [congruence|]. intros _ Hclean.
  inversion Hclean as [|? ? Hname Hrest]; subst.
  destruct rest as [|next rest].
  - cbn [String.concat]. apply split_no_separator. exact Hname.
  - change (String.concat (String sep EmptyString) (name :: next :: rest))
      with (name ++ String sep (String.concat (String sep EmptyString) (next :: rest))).
    rewrite split_after_clean by exact Hname.
    rewrite IH; [reflexivity|discriminate|exact Hrest].
Qed.

(** X16. A whitelist written as names joined by commas lets through exactly
    those names, none of them holding a comma; whatever the list, a name
    with a comma in it is never let through, and the empty list lets the
    empty name through. *)
Theorem isRepoWhitelisted_reads_the_list :
  (forall names repoName,
      names <> [] ->
      Forall (fun name => includes name "," = false) names ->
      isRepoWhitelisted (String.concat "," names) repoName
      = existsb (String.eqb repoName) names)
  /\ (forall whitelist repoName,
         includes repoName "," = true ->
         isRepoWhitelisted whitelist repoName = false)
  /\ isRepoWhitelisted "" "" = true.
Proof.
  split; [|split].
  - intros names repoName Hnames Hclean. unfold isRepoWhitelisted.
    rewrite (split_concat ","%char names Hnames Hclean). reflexivity.
  - intros whitelist repoName Hcomma. unfold isRepoWhitelisted.
    pose proof (split_parts_clean ","%char whitelist) as Hclean.
    induction Hclean as [|part parts Hpart _ IH]; cbn [existsb]; [reflexivity|].
    rewrite IH, orb_false_r. apply String.eqb_neq. intros ->. congruence.
  - reflexivity.
Qed.

End Properties.

(* ===================================================================== *)
(** ** Cloning *)
(* ===================================================================== *)

Section CloneProperties.

Context {K : Constants} {world : World}.

Ltac wide_cbv :=
  cbv beta iota zeta delta
    [Wide.andThen Wide.orElse Wide.map Wide.okAsync Wide.errAsync
     Wide.fromPromise Wide.thenTask Wide.combine2 occur fst snd isNotFoundError];
  cbn [negb].

(** The three operations of the service that [cloneBranch] calls, run in the
    world: one call each. *)
Lemma inWorld_getFilePathStats repoName filePath isStaging past :
  let call :=
    Service (FsStat (getEfsVolPath isStaging ++ "/" ++ repoName ++ "/" ++ filePath)) in
  inWorld (fun env => getFilePathStats (env := env) repoName filePath isStaging) past
  = (match world past call with
     | Resolved stats => ok stats
     | Rejected reason =>
         err (if instanceofError reason && includes (thrown_message reason) "ENOENT"
              then NotFoundError "File/Directory does not exist"
              else if instanceofError reason
              then GitFileSystemError "Unable to read file/directory"
              else GitFileSystemError "An unknown error occurred")
     end, (past ++ [call])%list).
Proof.
  intros call. subst call.
  unfold inWorld, getFilePathStats, getEfsVolPath, fromPromise, perform, restrict, start.
  cbn [trace oldStateSha List.map app]. rewrite app_nil_r.
  destruct (world past _); reflexivity.
Qed.

Lemma inWorld_isGitInitialized repoName past :
  let call := Service (GitCheckIsRepo (EFS_VOL_PATH_STAGING ++ "/" ++ repoName)) in
  inWorld (fun env => isGitInitialized (env := env) repoName true) past
  = (match world past call with
     | Resolved answer => ok answer
     | Rejected reason =>
         err (if instanceofGitError reason
              then GitFileSystemError "Unable to determine if directory is Git repo"
              else GitFileSystemError "An unknown error occurred")
     end, (past ++ [call])%list).
Proof.
  intros call. subst call.
  unfold inWorld, isGitInitialized, fromPromise, perform, restrict, start.
  cbn [trace oldStateSha List.map app]. rewrite app_nil_r.
  destruct (world past _); reflexivity.
Qed.

Lemma inWorld_isOriginRemoteCorrect repoName past :
  let call :=
    Service (GitRemote (EFS_VOL_PATH_STAGING ++ "/" ++ repoName) ["get-url"; "origin"]) in
  let originUrl :=
    "git@github.com:" ++ ISOMER_GITHUB_ORG_NAME ++ "/" ++ repoName ++ ".git" in
  inWorld (fun env => isOriginRemoteCorrect (env := env) repoName true) past
  = (match world past call with
     | Resolved (Some url) => ok (negb (url =? "") && (trim url =? originUrl))
     | Resolved None => ok false
     | Rejected reason =>
         err (if instanceofGitError reason
              then GitFileSystemError "Unable to determine origin remote URL"
              else GitFileSystemError "An unknown error occurred")
     end, (past ++ [call])%list).
Proof.
  intros call originUrl. subst call originUrl.
  unfold inWorld, isOriginRemoteCorrect, fromPromise, perform, restrict, start, map.
  cbn [trace oldStateSha List.map app]. rewrite app_nil_r.
  destruct (world past _) as [[url|]|reason]; reflexivity.
Qed.

(** X17. Over a folder that exists [cloneBranch] never clones: it looks at
    the folder and asks Git whether there is a repository and what its origin
    is, both in the staging working tree, for the staging-lite folder too.
    It returns the path of the folder exactly when Git answers that the
    staging working tree is a repository whose origin is the canonical URL,
    and a [GitFileSystemError] otherwise. *)
Theorem cloneBranch_spares_an_existing_folder repoName (isStaging : bool) past stats :
  let path := getEfsVolPath isStaging ++ "/" ++ repoName in
  let root := Service (FsStat (getEfsVolPath isStaging ++ "/" ++ repoName ++ "/" ++ "")) in
  let isRepo := Service (GitCheckIsRepo (EFS_VOL_PATH_STAGING ++ "/" ++ repoName)) in
  let remote :=
    Service (GitRemote (EFS_VOL_PATH_STAGING ++ "/" ++ repoName) ["get-url"; "origin"]) in
  let originUrl :=
    "git@github.com:" ++ ISOMER_GITHUB_ORG_NAME ++ "/" ++ repoName ++ ".git" in
  world past root = Resolved stats ->
  isDirectory stats = true ->
  (snd (cloneBranch repoName isStaging past) = (past ++ [root; isRepo])%list
   \/ snd (cloneBranch repoName isStaging past) = (past ++ [root; isRepo; remote])%list)
  /\ (fst (cloneBranch repoName isStaging past) = ok path
      <-> exists url,
          world (past ++ [root])%list isRepo = Resolved true
          /\ world (past ++ [root; isRepo])%list remote = Resolved (Some url)
          /\ negb (url =? "") && (trim url =? originUrl) = true)
  /\ (fst (cloneBranch repoName isStaging past) = ok path
      \/ exists m, fst (cloneBranch repoName isStaging past) = err (GitFileSystemError m)).
Proof.
  intros path root isRepo remote originUrl Hroot Hdir.
  unfold cloneBranch. wide_cbv.
  rewrite inWorld_getFilePathStats. cbv zeta. fold root. rewrite Hroot. wide_cbv.
  rewrite Hdir. wide_cbv.
  rewrite inWorld_isGitInitialized. cbv zeta. fold isRepo.
  destruct (world (past ++ [root])%list isRepo) as [[|]|reason] eqn:Erepo; wide_cbv.
  - rewrite inWorld_isOriginRemoteCorrect. cbv zeta. fold remote. fold originUrl.
    replace ((past ++ [root]) ++ [isRepo])%list with (past ++ [root; isRepo])%list
      by (rewrite <- app_assoc; reflexivity).
    destruct (world (past ++ [root; isRepo])%list remote) as [[url|]|reason] eqn:Eremote;
      wide_cbv.
    + destruct (negb (url =? "") && (trim url =? originUrl)) eqn:Eurl; wide_cbv;
        fold path; (split; [right; rewrite <- app_assoc; reflexivity|]).
      * split; [|left; reflexivity]. split; [|reflexivity].
        intros _. exists url. auto.
      * split; [|right; eauto]. split; [discriminate|].
        intros (url' & _ & Hurl & Hok). inversion Hurl; subst. congruence.
    + split; [right; rewrite <- app_assoc; reflexivity|].
      split; [|right; eauto]. split; [discriminate|].
      intros (url' & _ & Hurl & _). discriminate.
    + split; [right; rewrite <- app_assoc; reflexivity|].
      split; [|right; destruct (instanceofGitError reason); eauto].
      split; [discriminate|]. intros (url' & _ & Hurl & _). discriminate.
  - split; [left; rewrite <- app_assoc; reflexivity|].
    split; [|right; eauto]. split; [discriminate|].
    intros (url & Hrepo & _). discriminate.
  - split; [left; rewrite <- app_assoc; reflexivity|].
    split; [|right; destruct (instanceofGitError reason); eauto].
    split; [discriminate|]. intros (url & Hrepo & _). discriminate.
Qed.

(** X18. Where [stat] finds no folder, or finds something that is no
    directory, [cloneBranch] clones from the canonical URL into the folder:
    the whole repository followed by a checkout of the staging branch for
    staging, the staging-lite branch alone ([--branch], [--single-branch])
    for staging-lite.  It returns the path of the folder when these succeed
    and a [GitFileSystemError] when one fails, the checkout not being
    attempted after a failed clone.  Another failure of [stat] ends the
    operation at once. *)
Theorem cloneBranch_clones_a_missing_folder repoName past :
  let originUrl :=
    "git@github.com:" ++ ISOMER_GITHUB_ORG_NAME ++ "/" ++ repoName ++ ".git" in
  let rootOf (isStaging : bool) :=
    Service (FsStat (getEfsVolPath isStaging ++ "/" ++ repoName ++ "/" ++ "")) in
  let missing (isStaging : bool) :=
    match world past (rootOf isStaging) with
    | Resolved stats => negb (isDirectory stats)
    | Rejected reason =>
        instanceofError reason && includes (thrown_message reason) "ENOENT"
    end in
  let cloneError (isStaging : bool) (reason : Thrown) :=
    if instanceofGitError reason
    then
      GitFileSystemError
        (if isStaging
         then "Unable to clone whole repo for " ++ repoName
         else "Unable to clone staging lite branch for " ++ repoName)
    else GitFileSystemError "An unknown error occurred" in
  (missing true = true ->
   let path := EFS_VOL_PATH_STAGING ++ "/" ++ repoName in
   let whole := GitClone originUrl path [] in
   let checkout := Service (GitCheckout path STAGING_BRANCH) in
   cloneBranch repoName true past
   = match world (past ++ [rootOf true])%list whole with
     | Rejected reason =>
         (err (cloneError true reason), (past ++ [rootOf true; whole])%list)
     | Resolved _ =>
         (match world (past ++ [rootOf true; whole])%list checkout with
          | Rejected reason => err (cloneError true reason)
          | Resolved _ => ok path
          end, (past ++ [rootOf true; whole; checkout])%list)
     end)
  /\ (missing false = true ->
      let path := EFS_VOL_PATH_STAGING_LITE ++ "/" ++ repoName in
      let single :=
        GitClone originUrl path ["--branch"; STAGING_LITE_BRANCH; "--single-branch"] in
      cloneBranch repoName false past
      = (match world (past ++ [rootOf false])%list single with
         | Rejected reason => err (cloneError false reason)
         | Resolved _ => ok path
         end, (past ++ [rootOf false; single])%list))
  /\ (forall isStaging reason,
         world past (rootOf isStaging) = Rejected reason ->
         instanceofError reason && includes (thrown_message reason) "ENOENT" = false ->
         cloneBranch repoName isStaging past
         = (err (if instanceofError reason
                 then GitFileSystemError "Unable to read file/directory"
                 else GitFileSystemError "An unknown error occurred"),
            (past ++ [rootOf isStaging])%list)).
Proof.
  intros originUrl rootOf missing cloneError. split; [|split].
  - intros Hmissing path whole checkout. subst missing. cbv beta in Hmissing.
    unfold cloneBranch. wide_cbv.
    rewrite inWorld_getFilePathStats. cbv zeta.
    subst path whole checkout originUrl rootOf cloneError.
    unfold getEfsVolPath in *. cbv beta iota in *.
    destruct (world past _) as [stats|reason]; wide_cbv;
      [apply negb_true_iff in Hmissing|]; rewrite Hmissing; wide_cbv;
      repeat rewrite <- app_assoc; cbn [app];
      repeat match goal with
             | |- context [match world ?h ?e with Resolved _ => _ | Rejected _ => _ end]
               => destruct (world h e)
             end; reflexivity.
  - intros Hmissing path single. subst missing. cbv beta in Hmissing.
    unfold cloneBranch. wide_cbv.
    rewrite inWorld_getFilePathStats. cbv zeta.
    subst path single originUrl rootOf cloneError.
    unfold getEfsVolPath in *. cbv beta iota in *.
    destruct (world past _) as [stats|reason]; wide_cbv;
      [apply negb_true_iff in Hmissing|]; rewrite Hmissing; wide_cbv;
      repeat rewrite <- app_assoc; cbn [app];
      repeat match goal with
             | |- context [match world ?h ?e with Resolved _ => _ | Rejected _ => _ end]
               => destruct (world h e)
             end; reflexivity.
  - intros isStaging reason Hroot Hother.
    unfold cloneBranch. wide_cbv.
    rewrite inWorld_getFilePathStats. cbv zeta.
    change (Service (FsStat (getEfsVolPath isStaging ++ "/" ++ repoName ++ "/" ++ "")))
      with (rootOf isStaging) in *.
    rewrite Hroot. wide_cbv. rewrite Hother.
    destruct (instanceofError reason); reflexivity.
Qed.

(** A path returned by [cloneBranch] is the folder of the site on the volume
    asked for. *)
Lemma cloneBranch_ok_path repoName (isStaging : bool) past path :
  fst (cloneBranch repoName isStaging past) = ok path ->
  path = getEfsVolPath isStaging ++ "/" ++ repoName.
Proof.
  unfold cloneBranch. wide_cbv.
  rewrite inWorld_getFilePathStats. cbv zeta.
  repeat match goal with
         | |- context [inWorld (fun env => isGitInitialized _ _) ?p] =>
             rewrite (inWorld_isGitInitialized repoName p); cbv zeta
         | |- context [inWorld (fun env => isOriginRemoteCorrect _ _) ?p] =>
             rewrite (inWorld_isOriginRemoteCorrect repoName p); cbv zeta
         | |- context [match world ?h ?e with Resolved _ => _ | Rejected _ => _ end] =>
             destruct (world h e); wide_cbv
         | |- context [match ?o with Some _ => _ | None => _ end] =>
             destruct o; wide_cbv
         | |- context [if ?b then _ else _] => destruct b; wide_cbv
         end;
    intros H; inversion H; reflexivity.
Qed.

(** X19. [clone] attempts both working trees, the staging-lite one whatever
    became of staging.  It succeeds exactly when both attempts do and then
    returns the staging folder of the site; a failure of staging is the
    failure returned, whatever became of staging-lite. *)
Theorem clone_attempts_both_trees repoName past :
  let afterStaging := snd (cloneBranch repoName true past) in
  snd (clone repoName past) = snd (cloneBranch repoName false afterStaging)
  /\ (forall path,
         fst (clone repoName past) = ok path
         <-> path = EFS_VOL_PATH_STAGING ++ "/" ++ repoName
             /\ (exists stagingPath,
                    fst (cloneBranch repoName true past) = ok stagingPath)
             /\ (exists litePath,
                    fst (cloneBranch repoName false afterStaging) = ok litePath))
  /\ (forall e,
         fst (cloneBranch repoName true past) = err e ->
         fst (clone repoName past) = err e).
Proof.
  intros afterStaging. subst afterStaging. unfold clone. wide_cbv.
  pose proof (cloneBranch_ok_path repoName true past) as Hpath.
  destruct (cloneBranch repoName true past) as [[stagingPath|e1] past1].
  - cbn [fst snd] in *.
    destruct (cloneBranch repoName false past1) as [[litePath|e2] past2];
      cbn [fst snd]; (split; [reflexivity|]); (split; [|discriminate]).
    + intros path. rewrite (Hpath stagingPath eq_refl). split.
      * intros H. inversion H; subst. eauto.
      * intros (-> & _). reflexivity.
    + intros path. split; [discriminate|].
      intros (_ & _ & [litePath Hlite]). discriminate.
  - cbn [fst snd] in *.
    destruct (cloneBranch repoName false past1) as [[litePath|e2] past2];
      cbn [fst snd]; (split; [reflexivity|]);
      (split; [|intros e He; inversion He; reflexivity]);
      intros path; (split; [discriminate|]);
      intros (_ & [stagingPath Hs] & _); discriminate.
Qed.

End CloneProperties.

(* ===================================================================== *)
(** ** The theorems at work on the sample deployments *)
(* ===================================================================== *)

(** C3 on the code: the staging-lite working tree of [liteNotARepo] is not a
    Git repository, and [isValidGitRepo] still answers [true] for the
    staging-lite branch, because it asks Git about the staging working
    tree. *)
Theorem isValidGitRepo_lite_asks_staging :
  liteNotARepo [FsStat "/efs/repos-lite/my-site/"]
    (GitCheckIsRepo "/efs/repos-lite/my-site") = Resolved false
  /\ run (isValidGitRepo (K := sampleConstants) (env := liteNotARepo)
            "my-site" "staging-lite") []
     = (ok true,
        [FsStat "/efs/repos-lite/my-site/";
         GitCheckIsRepo "/efs/repos/my-site";
         GitRemote "/efs/repos/my-site" ["get-url"; "origin"]]).
Proof. split; reflexivity. Qed.

(** C2 on the code: on [liteDiverged] the blob of [pages/a.md] at HEAD of
    the staging-lite working tree is [n3w], so that [b10b] is a stale SHA
    there.  [update] and [delete] on the staging-lite branch look the blob up
    in the staging working tree, find [b10b], and go on: the file of the
    staging-lite working tree is overwritten, or removed, and committed. *)
Theorem update_on_lite_compares_the_staging_blob :
  (forall h,
      liteDiverged h (GitRevparse "/efs/repos-lite/my-site" ["HEAD:pages/a.md"])
      = Resolved "n3w")
  /\ fst (run (update (K := sampleConstants) (env := liteDiverged)
                 "my-site" "pages/a.md" "world" "b10b" "u1" "staging-lite") [])
     = ok "5ha2"
  /\ firstn 4 (snd (run (update (K := sampleConstants) (env := liteDiverged)
                           "my-site" "pages/a.md" "world" "b10b" "u1" "staging-lite")
                      []))
     = [GitLog "/efs/repos-lite/my-site" ["staging-lite"];
        FsStat "/efs/repos-lite/my-site/pages/a.md";
        GitRevparse "/efs/repos/my-site" ["HEAD:pages/a.md"];
        FsWriteFile "/efs/repos-lite/my-site/pages/a.md" "world" Utf8]
  /\ existsb isGitCommit
       (snd (run (update (K := sampleConstants) (env := liteDiverged)
                    "my-site" "pages/a.md" "world" "b10b" "u1" "staging-lite") []))
     = true
  /\ fst (run (delete (K := sampleConstants) (env := liteDiverged)
                 "my-site" "pages/a.md" "b10b" "u1" false "staging-lite") [])
     = ok "5ha2"
  /\ firstn 4 (snd (run (delete (K := sampleConstants) (env := liteDiverged)
                           "my-site" "pages/a.md" "b10b" "u1" false "staging-lite")
                      []))
     = [GitLog "/efs/repos-lite/my-site" ["staging-lite"];
        FsStat "/efs/repos-lite/my-site/pages/a.md";
        GitRevparse "/efs/repos/my-site" ["HEAD:pages/a.md"];
        FsRm "/efs/repos-lite/my-site/pages/a.md" false]
  /\ existsb isGitCommit
       (snd (run (delete (K := sampleConstants) (env := liteDiverged)
                    "my-site" "pages/a.md" "b10b" "u1" false "staging-lite") []))
     = true.
Proof.
  split; [intros h; reflexivity|]. repeat split.
Qed.

(** C4 on the code: on [branchUnknown] the repository is valid and the
    branch check of [push] fails, Git being unable to tell the current
    branch.  The [orElse] that retries the push catches that failure: one
    [git push] without remote or branch is run on a branch that was not
    ensured, and [push] succeeds. *)
Theorem push_pushes_a_branch_not_ensured :
  run (isValidGitRepo (K := sampleConstants) (env := branchUnknown)
         "my-site" "staging") []
  = (ok true, validated)
  /\ run (ensureCorrectBranch (K := sampleConstants) (env := branchUnknown)
            "my-site" "staging") validated
     = (err (GitFileSystemError "Unable to determine current branch"), onStaging)
  /\ run (push (K := sampleConstants) (env := branchUnknown)
            "my-site" "staging" false) []
     = (ok "/efs/repos/my-site", (onStaging ++ [GitPush "/efs/repos/my-site" []])%list)
  /\ run (push (K := sampleConstants) (env := branchUnknown)
            "my-site" "staging" true) []
     = (ok "/efs/repos/my-site",
        (onStaging ++ [GitPush "/efs/repos/my-site" ["--force"]])%list).
Proof. repeat split. Qed.

(** C8 on the code: on [liteDraft] the file [pages/draft.md] of the
    staging-lite working tree was never committed, and the lookup of its
    blob at HEAD of that working tree fails.  The listing of [pages] on the
    staging-lite branch looks the blob up in the staging working tree, where
    the path is tracked, and returns the file. *)
Theorem listing_on_lite_shows_an_uncommitted_file :
  (forall h,
      liteDraft h (GitRevparse "/efs/repos-lite/my-site" ["HEAD:pages/draft.md"])
      = Rejected (ThrownGitError "fatal: path does not exist in HEAD"))
  /\ run (listDirectoryContents (K := sampleConstants) (env := liteDraft)
            "my-site" "pages" "staging-lite") []
     = (ok [GitDirectoryItem.mk "a.md" "file" "b10b" "pages/a.md" 5;
            GitDirectoryItem.mk "draft.md" "file" "d4af" "pages/draft.md" 7],
        [FsStat "/efs/repos-lite/my-site/pages";
         FsReaddir "/efs/repos-lite/my-site/pages";
         GitRevparse "/efs/repos/my-site" ["HEAD:pages/a.md"];
         FsStat "/efs/repos-lite/my-site/pages/a.md";
         GitRevparse "/efs/repos/my-site" ["HEAD:pages/draft.md"];
         FsStat "/efs/repos-lite/my-site/pages/draft.md"]).
Proof. split; [intros h; reflexivity|reflexivity]. Qed.

(** C9 on the code: on [featureCommit] the SHA [fea7] names a commit that is
    not in the history of staging.  [updateRepoState] asks [git cat-file -t]
    alone, which knows the object, and nothing about the branch: staging is
    reset to [fea7] and force-pushed.  A SHA that names no object is
    refused, without reset or push. *)
Theorem updateRepoState_takes_a_commit_of_another_branch :
  run (updateRepoState (K := sampleConstants) (env := featureCommit)
         "my-site" "staging" "fea7") []
  = (ok tt,
     (onStaging
        ++ [GitCatFile "/efs/repos/my-site" ["-t"; "fea7"];
            GitReset "/efs/repos/my-site" ["--hard"; "fea7"]]
        ++ onStaging
        ++ [GitPush "/efs/repos/my-site" ["origin"; "staging"; "--force"]])%list)
  /\ run (updateRepoState (K := sampleConstants) (env := featureCommit)
            "my-site" "staging" "deadbeef") []
     = (err (BadRequestError "The provided SHA is invalid"),
        (onStaging ++ [GitCatFile "/efs/repos/my-site" ["-t"; "deadbeef"]])%list).
Proof. split; reflexivity. Qed.

(** C10 on the code: [ALLOWED_FILE_EXTENSIONS] is [undefined] where
    [getMimeType] reads it, so that [getMimeType] throws a [TypeError] on
    [png] and on every other extension, and returns neither [ok] nor an
    error.  [readMediaFile] of a picture that is on disk and committed reads
    it and then throws as well. *)
Theorem getMimeType_throws_on_every_extension :
  ALLOWED_FILE_EXTENSIONS = None
  /\ (exists reason,
         getMimeType "png" = Throws reason /\ instanceofError reason = true)
  /\ (forall fileExtension,
         exists reason,
           getMimeType fileExtension = Throws reason /\ instanceofError reason = true)
  /\ run (read (K := sampleConstants) (env := withPicture)
            "my-site" "images/logo.png" Base64) []
     = (ok (GitFile.mk "iVBORw0KGgo=" "10g0"),
        [FsReadFile "/efs/repos/my-site/images/logo.png" Base64;
         GitRevparse "/efs/repos/my-site" ["HEAD:images/logo.png"]])
  /\ exists reason,
      run (readMediaFile (K := sampleConstants) (env := withPicture)
             "my-site" "images" "logo.png") []
      = (Throws reason,
         [FsReadFile "/efs/repos/my-site/images/logo.png" Base64;
          GitRevparse "/efs/repos/my-site" ["HEAD:images/logo.png"]])
      /\ instanceofError reason = true.
Proof.
  split; [reflexivity|]. split; [eexists; split; reflexivity|].
  split; [intros fileExtension; eexists; split; reflexivity|].
  split; [reflexivity|]. eexists. split; reflexivity.
Qed.

Lemma commit_pathSpec_length_witness :
  run (commit (K := sampleConstants) (env := healthy)
         "my-site" [] "u1" "Nothing staged" "staging" false) []
  = (err (GitFileSystemError "Invalid pathSpec length: 0. Expected 1 or 2"), validated)
  /\ fst (run (commit (K := sampleConstants) (env := healthy)
                 "my-site" ["pages/a.md"] "u1" "Update file: a.md" "staging" false) [])
     = ok "5ha2".
Proof.
  split.
  - destruct (commit_pathSpec_length (K := sampleConstants) (env := healthy)
                "my-site" [] "u1" "Nothing staged" "staging" false []) as [Hbad _].
    destruct (Hbad (or_introl (Nat.lt_0_1))) as [_ Hmessage].
    exact (Hmessage validated eq_refl).
  - destruct (commit_pathSpec_length (K := sampleConstants) (env := healthy)
                "my-site" ["pages/a.md"] "u1" "Update file: a.md" "staging" false [])
      as [_ Hgood].
    rewrite (Hgood (or_introl eq_refl) validated true onStaging
               (mkCommitResult "5ha2") eq_refl eq_refl (fun _ => eq_refl) eq_refl).
    reflexivity.
Defined.

Lemma pull_known_errors_witness :
  run (pull (K := sampleConstants) (env := divergentPull) "my-site" "staging") []
  = (ok "/efs/repos/my-site", (onStaging ++ [GitPull "/efs/repos/my-site"])%list)
  /\ exists m,
      run (pull (K := sampleConstants) (env := offlinePull) "my-site" "staging") []
      = (err (GitFileSystemError m), (onStaging ++ [GitPull "/efs/repos/my-site"])%list).
Proof.
  split.
  - exact (proj1 (pull_known_errors (K := sampleConstants) (env := divergentPull)
                    "my-site" "staging" [] validated true onStaging
                    (ThrownGitError
                       "fatal: Need to specify how to reconcile divergent branches.")
                    eq_refl eq_refl eq_refl) eq_refl).
  - exact (proj2 (pull_known_errors (K := sampleConstants) (env := offlinePull)
                    "my-site" "staging" [] validated true onStaging
                    (ThrownGitError "fatal: Could not read from remote repository.")
                    eq_refl eq_refl eq_refl) eq_refl).
Defined.

Lemma push_retries_once_witness :
  run (push (K := sampleConstants) (env := flakyPush) "my-site" "staging" true) []
  = (ok "/efs/repos/my-site",
     (onStaging ++ [GitPush "/efs/repos/my-site" ["origin"; "staging"; "--force"];
                    GitPush "/efs/repos/my-site" ["--force"]])%list)
  /\ (exists m,
         run (push (K := sampleConstants) (env := rejectedPush)
                "my-site" "staging" false) []
         = (err (GitFileSystemError m),
            (onStaging ++ [GitPush "/efs/repos/my-site" ["origin"; "staging"];
                           GitPush "/efs/repos/my-site" []])%list))
  /\ run (push (K := sampleConstants) (env := wrongOrigin) "my-site" "staging" true) []
     = (err (GitFileSystemError
               ("Folder " ++ dq ++ "my-site" ++ dq ++ " is not a valid Git repo")),
        validated).
Proof.
  split; [|split].
  - exact (proj2 (proj2 (proj2 (push_retries_once
                                  (K := sampleConstants) (env := flakyPush)
                                  "my-site" "staging" true [])
                           validated true onStaging eq_refl eq_refl))).
  - exact (proj2 (proj2 (proj2 (push_retries_once
                                  (K := sampleConstants) (env := rejectedPush)
                                  "my-site" "staging" false [])
                           validated true onStaging eq_refl eq_refl))).
  - exact (proj1 (proj1 (push_retries_once
                           (K := sampleConstants) (env := wrongOrigin)
                           "my-site" "staging" true [])
                    validated eq_refl)).
Defined.

Lemma updateRepoState_validates_sha_witness :
  run (updateRepoState (K := sampleConstants) (env := unknownSha)
         "my-site" "staging" "deadbeef") []
  = (err (BadRequestError "The provided SHA is invalid"),
     (onStaging ++ [GitCatFile "/efs/repos/my-site" ["-t"; "deadbeef"]])%list)
  /\ fst (run (updateRepoState (K := sampleConstants) (env := healthy)
                 "my-site" "staging" "c0ffee") [])
     = ok tt.
Proof.
  split.
  - exact (proj2 (updateRepoState_validates_sha
                    (K := sampleConstants) (env := unknownSha)
                    "my-site" "staging" "deadbeef" [] validated true onStaging
                    eq_refl eq_refl)).
  - rewrite (proj2 (updateRepoState_validates_sha
                      (K := sampleConstants) (env := healthy)
                      "my-site" "staging" "c0ffee" [] validated true onStaging
                      eq_refl eq_refl)).
    reflexivity.
Defined.

Lemma stale_sha_is_a_conflict_witness :
  run (update (K := sampleConstants) (env := healthy)
         "my-site" "pages/a.md" "world" "stale" "u1" "staging") []
  = (err (ConflictError "File has been changed recently, please try again"),
     [GitLog "/efs/repos/my-site" ["staging"];
      FsStat "/efs/repos/my-site/pages/a.md";
      GitRevparse "/efs/repos/my-site" ["HEAD:pages/a.md"]])
  /\ run (delete (K := sampleConstants) (env := healthy)
            "my-site" "pages/a.md" "stale" "u1" false "staging") []
     = (err (ConflictError "File has been changed recently, please try again"),
        [GitLog "/efs/repos/my-site" ["staging"];
         FsStat "/efs/repos/my-site/pages/a.md";
         GitRevparse "/efs/repos/my-site" ["HEAD:pages/a.md"]]).
Proof.
  destruct (stale_sha_is_a_conflict (K := sampleConstants) (env := healthy)
              "my-site" "pages/a.md" "stale" "u1" "staging" [])
    as (Hupdate & Hdelete & _).
  assert (Hstale : "b10b" <> "stale") by discriminate.
  assert (Hknown : "c0ffee" <> "") by discriminate.
  split.
  - exact (proj1 (Hupdate "world" _ [GitLog "/efs/repos/my-site" ["staging"]]
                    (mkStats false true 5)
                    [GitLog "/efs/repos/my-site" ["staging"];
                     FsStat "/efs/repos/my-site/pages/a.md"]
                    "b10b" _ eq_refl eq_refl eq_refl eq_refl Hstale)).
  - exact (proj1 (Hdelete _ [GitLog "/efs/repos/my-site" ["staging"]]
                    (mkStats false true 5)
                    [GitLog "/efs/repos/my-site" ["staging"];
                     FsStat "/efs/repos/my-site/pages/a.md"]
                    "b10b" _ eq_refl Hknown eq_refl eq_refl eq_refl Hstale)).
Defined.

Lemma listing_shows_tracked_entries_only_witness :
  let items := [GitDirectoryItem.mk "a.md" "file" "b10b" "pages/a.md" 5] in
  fst (run (listDirectoryContents (K := sampleConstants) (env := healthy)
              "my-site" "pages" "staging") [])
  = ok items
  /\ Forall (fun item => GitDirectoryItem.sha item <> "") items
  /\ ~ In "draft.md" (List.map GitDirectoryItem.name items).
Proof.
  intros items. split; [reflexivity|].
  destruct (listing_shows_tracked_entries_only (K := sampleConstants) (env := healthy)
              "my-site" "pages" "staging" [] items
              (snd (run (listDirectoryContents (K := sampleConstants) (env := healthy)
                           "my-site" "pages" "staging") []))
              eq_refl) as [Htracked Huntracked].
  split; [exact Htracked|].
  apply Huntracked. intros history. eexists. reflexivity.
Defined.


Lemma rollback_follows_needs_rollback_witness :
  run (chainOf (K := sampleConstants) (env := healthy) createExistingPage) []
  = (err (ConflictError "File pages/a.md already exists in repo my-site"),
     [GitLog "/efs/repos/my-site" ["staging"];
      FsStat "/efs/repos/my-site/pages";
      FsStat "/efs/repos/my-site/pages/a.md"])
  /\ run (execute (K := sampleConstants) (env := commitFails) createNewPage) []
     = (err (GitFileSystemError "Unable to commit changes"),
        (snd (run (chainOf (K := sampleConstants) (env := commitFails) createNewPage) [])
         ++ [GitReset "/efs/repos/my-site" ["--hard"; "c0ffee"];
             GitClean "/efs/repos/my-site" "fd"])%list).
Proof.
  split.
  - destruct (rollback_follows_needs_rollback
                (K := sampleConstants) (env := healthy) createExistingPage [])
      as [Hbefore _].
    exact (proj1 (Hbefore _ [GitLog "/efs/repos/my-site" ["staging"];
                             FsStat "/efs/repos/my-site/pages";
                             FsStat "/efs/repos/my-site/pages/a.md"]
                    eq_refl eq_refl)).
  - destruct (rollback_follows_needs_rollback
                (K := sampleConstants) (env := commitFails) createNewPage [])
      as [_ Hafter].
    destruct (Hafter "Unable to commit changes"
                (snd (run (chainOf (K := sampleConstants) (env := commitFails)
                             createNewPage) []))
                eq_refl) as (_ & latestCommit & h0 & Hlatest & Hrollback).
    assert (Hsha : GitHubCommitData.sha latestCommit = "c0ffee").
    { vm_compute in Hlatest. inversion Hlatest. reflexivity. }
    cbv zeta in Hrollback. rewrite Hsha in Hrollback. exact Hrollback.
Defined.

(** C1 as the claim states it fails when the rollback itself fails: on
    [commitAndResetFail] the chain of [create] raises the rollback-class
    failure of [git commit], [git reset] is rejected, [git clean] never runs
    and the caller gets the failure of the rollback. *)
Lemma rollback_failure_replaces_the_original :
  ~ (forall m h1,
        run (chainOf (K := sampleConstants) (env := commitAndResetFail) createNewPage) []
        = (err (GitFileSystemNeedsRollbackError m), h1) ->
        exists sha,
          run (execute (K := sampleConstants) (env := commitAndResetFail) createNewPage) []
          = (err (GitFileSystemError m),
             (h1 ++ [GitReset "/efs/repos/my-site" ["--hard"; sha];
                     GitClean "/efs/repos/my-site" "fd"])%list)).
Proof.
  intros Hclaim.
  destruct (Hclaim "Unable to commit changes"
              (snd (run (chainOf (K := sampleConstants) (env := commitAndResetFail)
                           createNewPage) []))
              eq_refl) as [sha Hrun].
  vm_compute in Hrun. discriminate Hrun.
Qed.

(** A failure that is not of the rollback class is returned as it is even
    after the disk was written: here the branch check of [commit] fails once
    [create] has written the file, and no rollback follows. *)
Remark plain_failure_after_the_write :
  let outcome :=
    run (create (K := sampleConstants) (env := branchUnknown)
           "my-site" "u1" "hello" "pages" "b.md" Utf8 "staging") [] in
  fst outcome = err (GitFileSystemError "Unable to determine current branch")
  /\ existsb isFsWriteFile (snd outcome) = true
  /\ existsb isRollbackCall (snd outcome) = false.
Proof. repeat split. Qed.

(* ===================================================================== *)
(** ** The further properties at work on the sample deployments *)
(* ===================================================================== *)

Lemma getFileExtension_after_last_dot_witness :
  getFileExtension "logo" = err (MediaTypeError "Unable to find file extension")
  /\ exists stem extension,
      getFileExtension "archive.tar.gz" = ok extension
      /\ "archive.tar.gz" = stem ++ "." ++ extension
      /\ includes extension "." = false.
Proof.
  split.
  - exact (proj1 (getFileExtension_after_last_dot "logo") eq_refl).
  - exact (proj2 (getFileExtension_after_last_dot "archive.tar.gz") eq_refl).
Defined.

Lemma read_reads_then_looks_up_witness :
  fst (run (read (K := sampleConstants) (env := healthy) "my-site" "pages/a.md" Utf8) [])
  = ok (GitFile.mk "hello" "b10b")
  /\ fst (run (read (K := sampleConstants) (env := healthy)
                 "my-site" "pages/none.md" Utf8) [])
     = err (NotFoundError "File does not exist").
Proof.
  split.
  - exact (proj2 (proj2 (proj2 (read_reads_then_looks_up
                                  (K := sampleConstants) (env := healthy)
                                  "my-site" "pages/a.md" Utf8 [])))
             "hello" "b10b" eq_refl eq_refl).
  - exact (proj1 (proj2 (read_reads_then_looks_up
                           (K := sampleConstants) (env := healthy)
                           "my-site" "pages/none.md" Utf8 []))
             enoent eq_refl eq_refl).
Defined.

Lemma ensureCorrectBranch_checks_out_when_needed_witness :
  run (ensureCorrectBranch (K := sampleConstants) (env := healthy)
         "my-site" "staging") []
  = (ok true, [GitRevparse "/efs/repos/my-site" ["--abbrev-ref"; "HEAD"]])
  /\ run (ensureCorrectBranch (K := sampleConstants) (env := healthy)
            "my-site" "staging-lite") []
     = (ok true,
        [GitRevparse "/efs/repos-lite/my-site" ["--abbrev-ref"; "HEAD"];
         GitCheckout "/efs/repos-lite/my-site" "staging-lite"]).
Proof.
  assert (Hother : "staging" <> "staging-lite") by discriminate.
  split.
  - exact (proj1 (ensureCorrectBranch_checks_out_when_needed
                    (K := sampleConstants) (env := healthy)
                    "my-site" "staging" [] "staging" eq_refl) eq_refl).
  - exact (proj2 (ensureCorrectBranch_checks_out_when_needed
                    (K := sampleConstants) (env := healthy)
                    "my-site" "staging-lite" [] "staging" eq_refl) Hother).
Defined.

Lemma latest_commit_falls_back_to_origin_witness :
  exists commitData,
    run (getLatestCommitOfBranch (K := sampleConstants) (env := localBranchUnknown)
           "my-site" "staging-lite") []
    = (ok commitData,
       [GitLog "/efs/repos-lite/my-site" ["staging-lite"];
        GitLog "/efs/repos/my-site" ["origin/staging-lite"]])
    /\ GitHubCommitData.sha commitData = "c0ffee".
Proof.
  exact (proj1 (proj2 (latest_commit_falls_back_to_origin
                         (K := sampleConstants) (env := localBranchUnknown)
                         "my-site" "staging-lite" []))
           (ThrownGitError "fatal: ambiguous argument") sampleLog
           (mkLogFields "c0ffee" "2023-10-01" "Initial commit" "isomer"
              "isomer@open.gov.sg")
           eq_refl eq_refl eq_refl).
Defined.

Lemma isValidGitRepo_collapses_to_false_witness :
  run (isValidGitRepo (K := sampleConstants) (env := healthy) "ghost" "staging") []
  = (ok false, [FsStat "/efs/repos/ghost/"])
  /\ run (isValidGitRepo (K := sampleConstants) (env := wrongOrigin)
            "my-site" "staging") []
     = (ok false, validated).
Proof.
  split.
  - exact (proj1 (isValidGitRepo_collapses_to_false
                    (K := sampleConstants) (env := healthy) "ghost" "staging" [])
             enoent eq_refl).
  - exact (proj2 (proj2 (proj2 (isValidGitRepo_collapses_to_false
                                  (K := sampleConstants) (env := wrongOrigin)
                                  "my-site" "staging" [])))
             (mkStats true false 0)
             (Some "git@github.com:isomerpages/other-site.git")
             eq_refl eq_refl eq_refl eq_refl eq_refl).
Defined.

Lemma pull_gives_up_where_push_retries_witness :
  run (pull (K := sampleConstants) (env := branchUnknown) "my-site" "staging") []
  = (err (GitFileSystemError "Unable to determine current branch"), onStaging)
  /\ snd (run (push (K := sampleConstants) (env := branchUnknown)
                 "my-site" "staging" false) [])
     = (onStaging ++ [GitPush "/efs/repos/my-site" []])%list.
Proof.
  exact (proj1 (proj2 (proj2 (pull_gives_up_where_push_retries
                                (K := sampleConstants) (env := branchUnknown)
                                "my-site" "staging" false [])))
           validated (GitFileSystemError "Unable to determine current branch")
           onStaging eq_refl eq_refl).
Defined.

Lemma commit_failure_classes_witness :
  exists new,
    snd (run (commit (K := sampleConstants) (env := commitFails)
                "my-site" ["pages/a.md"] "u1" "Update file: a.md" "staging" false) [])
    = ([] ++ new)%list
    /\ forallb isCommitCall new = true
    /\ existsb isStaged new = true.
Proof.
  destruct (commit_failure_classes (K := sampleConstants) (env := commitFails)
              "my-site" ["pages/a.md"] "u1" "Update file: a.md" "staging" false []
              (err (GitFileSystemNeedsRollbackError "Unable to commit changes"))
              (snd (run (commit (K := sampleConstants) (env := commitFails)
                           "my-site" ["pages/a.md"] "u1" "Update file: a.md"
                           "staging" false) []))
              eq_refl)
    as (new & Htrace & Hcalls & _ & Hclass).
  exists new. split; [exact Htrace|]. split; [exact Hcalls|].
  symmetry. exact Hclass.
Defined.

Lemma mutations_hide_the_rollback_class_witness :
  isNeedsRollbackError
    (match fst (run (execute (K := sampleConstants) (env := commitFails)
                       createNewPage) []) with
     | err e => e
     | ok _ => GitFileSystemNeedsRollbackError "none"
     end) = false
  /\ exists new,
      snd (run (execute (K := sampleConstants) (env := healthy) createNewPage) [])
      = ([] ++ new)%list
      /\ existsb isDiskMutation new = true
      /\ existsb isGitCommit new = true
      /\ existsb isRollbackCall new = false.
Proof.
  split.
  - exact (proj1 (mutations_hide_the_rollback_class
                    (K := sampleConstants) (env := commitFails) createNewPage [])
             (GitFileSystemError "Unable to commit changes") eq_refl).
  - exact (proj2 (mutations_hide_the_rollback_class
                    (K := sampleConstants) (env := healthy) createNewPage [])
             tt
             (snd (run (execute (K := sampleConstants) (env := healthy)
                          createNewPage) []))
             eq_refl).
Defined.

Lemma update_success_writes_then_commits_witness :
  exists checks,
    forallb isReadOnly checks = true
    /\ healthy ([] ++ checks)%list
         (GitRevparse "/efs/repos/my-site" ["HEAD:pages/a.md"])
       = Resolved "b10b"
    /\ fst (run (commit (K := sampleConstants) (env := healthy)
                   "my-site" ["pages/a.md"] "u1" "Update file: a.md" "staging" false)
              ([] ++ checks
                  ++ [GitRevparse "/efs/repos/my-site" ["HEAD:pages/a.md"];
                      FsWriteFile "/efs/repos/my-site/pages/a.md" "world" Utf8])%list)
       = ok "5ha2".
Proof.
  destruct (update_success_writes_then_commits
              (K := sampleConstants) (env := healthy)
              "my-site" "pages/a.md" "world" "b10b" "u1" "staging" [] "5ha2"
              (snd (run (update (K := sampleConstants) (env := healthy)
                           "my-site" "pages/a.md" "world" "b10b" "u1" "staging") []))
              eq_refl) as (checks & Hchecks & Hlookup & Hcommit).
  exists checks. split; [exact Hchecks|]. split; [exact Hlookup|].
  exact (f_equal fst Hcommit).
Defined.

Lemma delete_checks_kind_then_removes_witness :
  run (delete (K := sampleConstants) (env := healthy)
         "my-site" "pages" "b10b" "u1" false "staging") []
  = (err (GitFileSystemError
            ("Path " ++ dq ++ "pages" ++ dq ++ " is not a valid file in repo "
             ++ dq ++ "my-site" ++ dq)),
     [GitLog "/efs/repos/my-site" ["staging"]; FsStat "/efs/repos/my-site/pages"])
  /\ exists checks,
      forallb isReadOnly checks = true
      /\ fst (run (commit (K := sampleConstants) (env := healthy)
                     "my-site" ["pages"] "u1" "Delete directory: pages" "staging" false)
                ([] ++ checks ++ [FsRm "/efs/repos/my-site/pages" true])%list)
         = ok "5ha2".
Proof.
  assert (Hknown : "c0ffee" <> "") by discriminate.
  split.
  - exact (proj1 (proj1 (delete_checks_kind_then_removes
                           (K := sampleConstants) (env := healthy)
                           "my-site" "pages" "b10b" "u1" false "staging" [])
                    _ [GitLog "/efs/repos/my-site" ["staging"]]
                    (mkStats true false 0)
                    [GitLog "/efs/repos/my-site" ["staging"];
                     FsStat "/efs/repos/my-site/pages"]
                    eq_refl Hknown eq_refl eq_refl)).
  - destruct (proj2 (delete_checks_kind_then_removes
                       (K := sampleConstants) (env := healthy)
                       "my-site" "pages" "" "u1" true "staging" [])
                "5ha2"
                (snd (run (delete (K := sampleConstants) (env := healthy)
                             "my-site" "pages" "" "u1" true "staging") []))
                eq_refl) as (checks & Hchecks & _ & Hcommit).
    exists checks. split; [exact Hchecks|]. exact (f_equal fst Hcommit).
Defined.

Lemma renameSinglePath_moves_with_git_witness :
  run (renameSinglePath (K := sampleConstants) (env := healthy)
         "my-site" "pages/zzz.md" "pages/b.md" "u1" "staging" None) []
  = (err (NotFoundError "File/Directory does not exist"),
     [GitLog "/efs/repos/my-site" ["staging"];
      FsStat "/efs/repos/my-site/pages/zzz.md"])
  /\ run (renameSinglePath (K := sampleConstants) (env := healthy)
            "my-site" "pages/a.md" "pages/draft.md" "u1" "staging" None) []
     = (err (ConflictError "File path already exists"),
        [GitLog "/efs/repos/my-site" ["staging"];
         FsStat "/efs/repos/my-site/pages/a.md";
         FsStat "/efs/repos/my-site/pages/draft.md"])
  /\ exists checks,
      forallb isReadOnly checks = true
      /\ fst (run (commit (K := sampleConstants) (env := healthy)
                     "my-site" ["pages/a.md"; "pages/b.md"] "u1"
                     "Renamed pages/a.md to pages/b.md" "staging" true)
                ([] ++ checks
                    ++ [GitMv "/efs/repos/my-site" "pages/a.md" "pages/b.md"])%list)
         = ok "5ha2".
Proof.
  split; [|split].
  - exact (proj1 (proj2 (renameSinglePath_moves_with_git
                           (K := sampleConstants) (env := healthy)
                           "my-site" "pages/zzz.md" "pages/b.md" "u1" "staging" None []))
             _ [GitLog "/efs/repos/my-site" ["staging"]]
             (NotFoundError "File/Directory does not exist")
             [GitLog "/efs/repos/my-site" ["staging"];
              FsStat "/efs/repos/my-site/pages/zzz.md"]
             eq_refl eq_refl).
  - exact (proj1 (proj2 (proj2 (renameSinglePath_moves_with_git
                                  (K := sampleConstants) (env := healthy)
                                  "my-site" "pages/a.md" "pages/draft.md" "u1"
                                  "staging" None [])))
             _ [GitLog "/efs/repos/my-site" ["staging"]]
             (mkStats false true 5)
             [GitLog "/efs/repos/my-site" ["staging"];
              FsStat "/efs/repos/my-site/pages/a.md"]
             (mkStats false true 5)
             [GitLog "/efs/repos/my-site" ["staging"];
              FsStat "/efs/repos/my-site/pages/a.md";
              FsStat "/efs/repos/my-site/pages/draft.md"]
             eq_refl eq_refl eq_refl).
  - destruct (proj2 (proj2 (proj2 (renameSinglePath_moves_with_git
                                     (K := sampleConstants) (env := healthy)
                                     "my-site" "pages/a.md" "pages/b.md" "u1"
                                     "staging" None [])))
                "5ha2"
                (snd (run (renameSinglePath (K := sampleConstants) (env := healthy)
                             "my-site" "pages/a.md" "pages/b.md" "u1" "staging"
                             None) []))
                eq_refl) as (checks & Hchecks & Hcommit).
    exists checks. split; [exact Hchecks|]. exact (f_equal fst Hcommit).
Defined.

Lemma moveFiles_conflict_keeps_the_moves_witness :
  exists checks moves,
    [GitLog "/efs/repos/my-site" ["staging"];
     FsStat "/efs/repos/my-site/pages";
     FsMkdir "/efs/repos/my-site/images" true;
     FsStat "/efs/repos/my-site/images/logo";
     FsStat "/efs/repos/my-site/images/a.md";
     FsRename "/efs/repos/my-site/pages/a.md" "/efs/repos/my-site/images/a.md"]
    = ([] ++ checks ++ FsMkdir "/efs/repos/my-site/images" true :: moves)%list
    /\ forallb isReadOnly checks = true
    /\ forallb isMoveCall moves = true
    /\ In (FsStat "/efs/repos/my-site/images/logo") moves
    /\ In (FsRename "/efs/repos/my-site/pages/a.md" "/efs/repos/my-site/images/a.md")
         moves.
Proof.
  destruct (moveFiles_conflict_keeps_the_moves
              (K := sampleConstants) (env := healthy)
              "my-site" "pages" "images" "u1" ["logo"; "a.md"] "staging" None []
              "File path already exists"
              [GitLog "/efs/repos/my-site" ["staging"];
               FsStat "/efs/repos/my-site/pages";
               FsMkdir "/efs/repos/my-site/images" true;
               FsStat "/efs/repos/my-site/images/logo";
               FsStat "/efs/repos/my-site/images/a.md";
               FsRename "/efs/repos/my-site/pages/a.md"
                 "/efs/repos/my-site/images/a.md"]
              eq_refl)
    as (checks & moves & Htrace & Hchecks & Hmoves & Hlooked & Hrenamed).
  exists checks, moves.
  split; [exact Htrace|]. split; [exact Hchecks|]. split; [exact Hmoves|].
  split; [exact (Forall_inv Hlooked)|].
  destruct (Forall_inv (Forall_inv_tail Hrenamed))
    as (before & after & Hsplit & Hrename).
  rewrite Hsplit. apply in_or_app. right. right.
  exact (Hrename enoent eq_refl eq_refl).
Defined.

Lemma listing_follows_the_directory_witness :
  exists checks directoryContents all,
    forallb isReadOnly checks = true
    /\ healthy ([] ++ checks)%list (FsReaddir "/efs/repos/my-site/pages")
       = Resolved directoryContents
    /\ Forall2
         (fun directoryItem item =>
            GitDirectoryItem.name item = dirent_name directoryItem
            /\ GitDirectoryItem.type item
               = (if dirent_isDirectory directoryItem then "dir" else "file")
            /\ GitDirectoryItem.path item
               = itemPath "pages" (dirent_name directoryItem)
            /\ (dirent_isDirectory directoryItem = true ->
                GitDirectoryItem.size item = 0))
         directoryContents all
    /\ [GitDirectoryItem.mk "a.md" "file" "b10b" "pages/a.md" 5]
       = List.filter (fun item => negb (GitDirectoryItem.sha item =? "")) all.
Proof.
  exact (proj1 (listing_follows_the_directory
                  (K := sampleConstants) (env := healthy)
                  "my-site" "pages" "staging" []
                  [GitDirectoryItem.mk "a.md" "file" "b10b" "pages/a.md" 5]
                  (snd (run (listDirectoryContents
                               (K := sampleConstants) (env := healthy)
                               "my-site" "pages" "staging") []))
                  eq_refl)).
Defined.

Lemma readMediaFile_reads_then_types_witness :
  fst (run (readMediaFile (K := sampleConstants) (env := healthy)
              "my-site" "images" "logo") [])
  = Returns (err (MediaTypeError "Unable to find file extension"))
  /\ exists reason,
      fst (run (readMediaFile (K := sampleConstants) (env := withPicture)
                  "my-site" "images" "logo.png") [])
      = Throws reason
      /\ instanceofError reason = true
      /\ instanceofGitError reason = false.
Proof.
  split.
  - exact (proj1 (proj1 (proj2 (proj2 (readMediaFile_reads_then_types
                                         (K := sampleConstants) (env := healthy)
                                         "my-site" "images" "logo" [])))
                    (GitFile.mk "iVBORw0KGgo=" "10g0") eq_refl) eq_refl).
  - exact (proj2 (proj1 (proj2 (proj2 (readMediaFile_reads_then_types
                                         (K := sampleConstants) (env := withPicture)
                                         "my-site" "images" "logo.png" [])))
                    (GitFile.mk "iVBORw0KGgo=" "10g0") eq_refl) eq_refl).
Defined.

Lemma git_lock_guard_witness :
  run (handleGitFileLock (K := sampleConstants) (env := stagingLocked) "my-site") []
  = ((false,
      [LockedError
         "Someone else is currently modifying repo my-site. Please try again later."]),
     [FsStat "/efs/repos/my-site/.git/index.lock"])
  /\ snd (fst (run (handleGitFileLock (K := sampleConstants) (env := healthy)
                      "my-site") []))
     = [].
Proof.
  split.
  - exact (proj1 (proj2 (git_lock_guard (K := sampleConstants) (env := stagingLocked)
                           "my-site" []))).
  - exact (proj1 (proj2 (proj2 (git_lock_guard (K := sampleConstants) (env := healthy)
                                  "my-site" [])))
             eq_refl).
Defined.

Lemma isRepoWhitelisted_reads_the_list_witness :
  isRepoWhitelisted "my-site,other-site" "other-site" = true
  /\ isRepoWhitelisted "my-site,other-site" "my-site,other-site" = false.
Proof.
  assert (Hnames : ["my-site"; "other-site"] <> []) by discriminate.
  assert (Hclean : Forall (fun name => includes name "," = false)
                     ["my-site"; "other-site"])
    by (repeat constructor).
  split.
  - exact (proj1 isRepoWhitelisted_reads_the_list
             ["my-site"; "other-site"] "other-site" Hnames Hclean).
  - exact (proj1 (proj2 isRepoWhitelisted_reads_the_list)
             "my-site,other-site" "my-site,other-site" eq_refl).
Defined.

Lemma cloneBranch_spares_an_existing_folder_witness :
  fst (cloneBranch (K := sampleConstants) (world := worldOf liteNotARepo)
         "my-site" false [])
  = ok "/efs/repos-lite/my-site"
  /\ (snd (cloneBranch (K := sampleConstants) (world := worldOf liteNotARepo)
             "my-site" false [])
      = [Service (FsStat "/efs/repos-lite/my-site/");
         Service (GitCheckIsRepo "/efs/repos/my-site")]
      \/ snd (cloneBranch (K := sampleConstants) (world := worldOf liteNotARepo)
                "my-site" false [])
         = [Service (FsStat "/efs/repos-lite/my-site/");
            Service (GitCheckIsRepo "/efs/repos/my-site");
            Service (GitRemote "/efs/repos/my-site" ["get-url"; "origin"])]).
Proof.
  destruct (cloneBranch_spares_an_existing_folder
              (K := sampleConstants) (world := worldOf liteNotARepo)
              "my-site" false [] (mkStats true false 0) eq_refl eq_refl)
    as (Hevents & Hok & _).
  split; [|exact Hevents].
  apply (proj2 Hok). exists "git@github.com:isomerpages/my-site.git".
  repeat split.
Defined.

Lemma cloneBranch_clones_a_missing_folder_witness :
  cloneBranch (K := sampleConstants) (world := settled) "new-site" true []
  = (ok "/efs/repos/new-site",
     [Service (FsStat "/efs/repos/new-site/");
      GitClone "git@github.com:isomerpages/new-site.git" "/efs/repos/new-site" [];
      Service (GitCheckout "/efs/repos/new-site" "staging")])
  /\ cloneBranch (K := sampleConstants) (world := offline) "new-site" false []
     = (err (GitFileSystemError "Unable to clone staging lite branch for new-site"),
        [Service (FsStat "/efs/repos-lite/new-site/");
         GitClone "git@github.com:isomerpages/new-site.git" "/efs/repos-lite/new-site"
           ["--branch"; "staging-lite"; "--single-branch"]]).
Proof.
  split.
  - exact (proj1 (cloneBranch_clones_a_missing_folder
                    (K := sampleConstants) (world := settled) "new-site" [])
             eq_refl).
  - exact (proj1 (proj2 (cloneBranch_clones_a_missing_folder
                           (K := sampleConstants) (world := offline) "new-site" []))
             eq_refl).
Defined.

Lemma clone_attempts_both_trees_witness :
  fst (clone (K := sampleConstants) (world := settled) "new-site" [])
  = ok "/efs/repos/new-site"
  /\ fst (clone (K := sampleConstants) (world := offline) "new-site" [])
     = err (GitFileSystemError "Unable to clone whole repo for new-site").
Proof.
  split.
  - apply (proj2 (proj1 (proj2 (clone_attempts_both_trees
                                  (K := sampleConstants) (world := settled)
                                  "new-site" []))
                    "/efs/repos/new-site")).
    split; [reflexivity|]. split; eexists; reflexivity.
  - exact (proj2 (proj2 (clone_attempts_both_trees
                           (K := sampleConstants) (world := offline) "new-site" []))
             (GitFileSystemError "Unable to clone whole repo for new-site") eq_refl).
Defined.

Lemma no_mutation_without_a_rollback_point_witness :
  run (execute (K := sampleConstants) (env := noLog) createNewPage) []
  = (err (GitFileSystemError "Unable to retrieve branch log info from disk"),
     [GitLog "/efs/repos/my-site" ["staging"];
      GitLog "/efs/repos/my-site" ["origin/staging"]])
  /\ run (create (K := sampleConstants) (env := blankHash)
            "my-site" "u1" "hello" "pages" "b.md" Utf8 "staging") []
     = (err (GitFileSystemError "An unknown error occurred"),
        [GitLog "/efs/repos/my-site" ["staging"]])
  /\ fst (run (delete (K := sampleConstants) (env := blankHash)
                 "my-site" "pages/a.md" "b10b" "u1" false "staging") [])
     = err (GitFileSystemError
              ("Unable to find latest commit of repo: my-site on branch "
               ++ dq ++ "staging" ++ dq)).
Proof.
  split; [|split].
  - exact (proj1 (no_mutation_without_a_rollback_point
                    (K := sampleConstants) (env := noLog) [])
             createNewPage
             (GitFileSystemError "Unable to retrieve branch log info from disk")
             [GitLog "/efs/repos/my-site" ["staging"];
              GitLog "/efs/repos/my-site" ["origin/staging"]]
             eq_refl).
  - exact (proj1 (proj2 (no_mutation_without_a_rollback_point
                           (K := sampleConstants) (env := blankHash) []))
             "my-site" "u1" "hello" "pages" "b.md" Utf8 "staging"
             _ [GitLog "/efs/repos/my-site" ["staging"]] eq_refl eq_refl).
  - exact (f_equal fst
             (proj2 (proj2 (no_mutation_without_a_rollback_point
                              (K := sampleConstants) (env := blankHash) []))
                "my-site" "pages/a.md" "b10b" "u1" false "staging"
                _ [GitLog "/efs/repos/my-site" ["staging"]] eq_refl eq_refl)).
Defined.
